(** * Sequential Thinking MCP server: session engine

    A shallow embedding of the session / branch / thought bookkeeping of
    [src/thinking-session.ts] (class [ThinkingSessionManager]) and of the
    serverless tool handlers of [api/[transport]/route.ts] and of the
    Next.js route, together with the properties of the engine that the
    specification states.

    Conventions.
    - JavaScript strings are modelled by [string]; [toLowerCase] is the
      ASCII one (bytes above 127 are left as they are).
    - Numbers supplied by the caller of the manager ([revisesStep],
      [branchFromStep], [confidence]) are JavaScript numbers, [JsNumber]:
      a finite value, an infinity or [NaN].  Lengths, step numbers and the
      arguments a schema validates as integers are in [nat] or [Z]; a
      [Date] is its [getTime()] value in [Z].
    - An optional field [f?: T] is an [option T].  JavaScript truthiness of
      an optional string is written out: [undefined] and the empty string
      are both falsy.
    - [uuidv4()], [randomUUID()] and [new Date()] are reads of the
      environment: the state carries the two sequences of values that the
      environment will answer with, and a cursor in each.
    - Record fields keep the names of the TypeScript interfaces behind a
      prefix per interface ([t_] ThoughtStep, [b_] ThinkingBranch, [s_]
      ThinkingSession, [p_] ThinkingProgress, [i_] AddThoughtInput, [r_]
      AddThoughtResult, [sm_] SessionSummary, [bs_] BranchSummary, [tl_]
      TimelineEntry). *)

From Stdlib Require Import String Ascii Bool Arith ZArith QArith Lia List.
From Stdlib Require Import Sorted Permutation DecimalString.
Import ListNotations.

Local Open Scope string_scope.
Local Open Scope nat_scope.

(* ------------------------------------------------------------------ *)
(** ** JavaScript string primitives *)

Module JsString.

(** [c.toLowerCase()] on one ASCII code unit. *)
Definition lower_ascii (c : ascii) : ascii :=
  let n := nat_of_ascii c in
  if (65 <=? n) && (n <=? 90) then ascii_of_nat (n + 32) else c.

(** [s.toLowerCase()] on texts in the ASCII range: the letters [A] to
    [Z] are lowered and every other byte is kept.  (The JavaScript
    function also lowers letters beyond ASCII, such as the Kelvin sign;
    texts with such letters are outside this model.) *)
Fixpoint toLowerCase (s : string) : string :=
  match s with
  | EmptyString => EmptyString
  | String c r => String (lower_ascii c) (toLowerCase r)
  end.

(** [s.startsWith(p)] *)
Definition startsWith (p s : string) : bool := String.prefix p s.

(** [s.includes(p)]: [p] is a prefix of some suffix of [s]. *)
Fixpoint includes (p s : string) : bool :=
  String.prefix p s ||
  match s with
  | EmptyString => false
  | String _ r => includes p r
  end.

(** [s.split(' ')]: never empty, [''.split(' ')] is [['']]. *)
Fixpoint split_space (s : string) : list string :=
  match s with
  | EmptyString => [EmptyString]
  | String c r =>
      if Ascii.eqb c " "%char then EmptyString :: split_space r
      else match split_space r with
           | w :: ws => String c w :: ws
           | [] => [String c EmptyString]
           end
  end.

(** [l.join(sep)] *)
Fixpoint join (sep : string) (l : list string) : string :=
  match l with
  | [] => EmptyString
  | [w] => w
  | w :: ws => w ++ sep ++ join sep ws
  end.

(** [l.slice(0, n)] *)
Definition slice0 {A} (n : nat) (l : list A) : list A := firstn n l.

(** Truthiness of a string: only the empty string is falsy. *)
Definition truthy (s : string) : bool :=
  match s with EmptyString => false | _ => true end.

(** [a || d] for a string [a]. *)
Definition or_default (a d : string) : string :=
  if truthy a then a else d.

(** The value of an optional string when it is truthy. *)
Definition given (o : option string) : option string :=
  match o with
  | Some s => if truthy s then Some s else None
  | None => None
  end.

(** Template literal interpolation of a non-negative integer. *)
Definition of_nat (n : nat) : string :=
  NilZero.string_of_uint (Nat.to_uint n).

End JsString.
Import JsString.

(* ------------------------------------------------------------------ *)
(** ** Data model ([src/types.ts]) *)

Inductive ThoughtType : Type :=
| observation | analysis | hypothesis | verification | refinement
| conclusion | question | insight | reflection.

Inductive SessionStatus : Type := active | paused | completed | abandoned.

Definition ThoughtType_eq_dec (a b : ThoughtType) : {a = b} + {a <> b}.
Proof. decide equality. Defined.

Definition SessionStatus_eq_dec (a b : SessionStatus) : {a = b} + {a <> b}.
Proof. decide equality. Defined.

Definition type_eqb (a b : ThoughtType) : bool :=
  if ThoughtType_eq_dec a b then true else false.

Definition status_eqb (a b : SessionStatus) : bool :=
  if SessionStatus_eq_dec a b then true else false.

Definition Date := Z.

(** A JavaScript number: a finite value (every double is a rational), an
    infinity or [NaN]. *)
Inductive JsNumber : Type :=
| JsFinite (q : Q)
| JsInfinity (negative : bool)
| JsNaN.

Definition number_of_Z (z : Z) : JsNumber := JsFinite (inject_Z z).

(** [n === x] for a count [n] and a number [x]. *)
Definition strict_eq_nat (n : nat) (x : JsNumber) : bool :=
  match x with
  | JsFinite q => Qeq_bool (inject_Z (Z.of_nat n)) q
  | _ => false
  end.

Record ThoughtStep : Type := mkThoughtStep {
  t_id : string;
  t_stepNumber : nat;
  t_thought : string;
  t_thoughtType : ThoughtType;
  t_isRevision : bool;
  t_revisesStep : option JsNumber;
  t_branchId : string;
  t_branchFromStep : option JsNumber;
  t_confidence : option JsNumber;
  t_tags : option (list string);
  t_timestamp : Date
}.

Record ThinkingBranch : Type := mkThinkingBranch {
  b_id : string;
  b_name : string;
  b_parentBranchId : option string;
  b_branchFromStepId : option string;
  b_createdAt : Date;
  b_description : option string
}.

Record ThinkingSession : Type := mkThinkingSession {
  s_id : string;
  s_title : string;
  s_problem : string;
  s_thoughts : list ThoughtStep;
  s_branches : list ThinkingBranch;
  s_activeBranchId : string;
  s_createdAt : Date;
  s_updatedAt : Date;
  s_status : SessionStatus
}.

Record ThinkingProgress : Type := mkThinkingProgress {
  p_sessionId : string;
  p_totalSteps : nat;
  p_currentStep : nat;
  p_branches : nat;
  p_activeBranch : string;
  p_hasMoreThoughts : bool;
  p_summary : string
}.

Record AddThoughtInput : Type := mkAddThoughtInput {
  i_sessionId : option string;
  i_thought : string;
  i_thoughtType : option ThoughtType;
  i_isRevision : option bool;
  i_revisesStep : option JsNumber;
  i_branchId : option string;
  i_branchFromStep : option JsNumber;
  i_newBranchName : option string;
  i_confidence : option JsNumber;
  i_tags : option (list string);
  i_nextThoughtNeeded : bool
}.

Record AddThoughtResult : Type := mkAddThoughtResult {
  r_sessionId : string;
  r_stepNumber : nat;
  r_totalSteps : nat;
  r_activeBranch : string;
  r_branchCount : nat;
  r_thoughtRecorded : string;
  r_thoughtType : ThoughtType;
  r_isRevision : bool;
  r_nextThoughtNeeded : bool;
  r_progress : ThinkingProgress
}.

(** [Record<ThoughtType, number>], keys in the order of the literal. *)
Definition TypeCounts := list (ThoughtType * nat).

Record BranchSummary : Type := mkBranchSummary {
  bs_id : string;
  bs_name : string;
  bs_stepCount : nat;
  bs_thoughtTypes : TypeCounts
}.

Record TimelineEntry : Type := mkTimelineEntry {
  tl_stepNumber : nat;
  tl_thought : string;
  tl_type : ThoughtType;
  tl_branchName : string;
  tl_isRevision : bool
}.

Record SessionSummary : Type := mkSessionSummary {
  sm_sessionId : string;
  sm_title : string;
  sm_problem : string;
  sm_totalSteps : nat;
  sm_branches : list BranchSummary;
  sm_keyInsights : list string;
  sm_conclusions : list string;
  sm_status : SessionStatus;
  sm_timeline : list TimelineEntry
}.

Definition DEFAULT_BRANCH_NAME : string := "main".

(* ------------------------------------------------------------------ *)
(** ** The environment and the session store

    [sessions] is the JavaScript [Map] from session id to session object,
    in insertion order.  The four other fields are the environment: the
    values [uuidv4()] and [new Date()] are going to return, and how many
    of each have been consumed. *)

Definition SessionMap := list (string * ThinkingSession).

Record State : Type := mkState {
  uuid_src : nat -> string;
  uuid_pos : nat;
  clock_src : nat -> Date;
  clock_pos : nat;
  sessions : SessionMap
}.

(** [Map.prototype.get] *)
Fixpoint map_get (k : string) (m : SessionMap) : option ThinkingSession :=
  match m with
  | [] => None
  | (k', v) :: r => if String.eqb k' k then Some v else map_get k r
  end.

(** [Map.prototype.set]: an existing key keeps its place. *)
Fixpoint map_set (k : string) (v : ThinkingSession) (m : SessionMap) : SessionMap :=
  match m with
  | [] => [(k, v)]
  | (k', v') :: r =>
      if String.eqb k' k then (k, v) :: r else (k', v') :: map_set k v r
  end.

(** [Array.from(map.values())] *)
Definition map_values (m : SessionMap) : list ThinkingSession := map snd m.

(** Computations that read the environment and update the store. *)
Definition M (A : Type) : Type := State -> A * State.

Definition ret {A} (a : A) : M A := fun st => (a, st).

Definition bind {A B} (m : M A) (k : A -> M B) : M B :=
  fun st => let (a, st') := m st in k a st'.

Declare Scope engine_scope.
Delimit Scope engine_scope with engine.
Notation "x <- m ;; k" := (bind m (fun x => k))
  (at level 61, m at next level, right associativity) : engine_scope.
Notation "' p <- m ;; k" := (bind m (fun x => let 'p := x in k))
  (at level 61, p pattern, m at next level, right associativity) : engine_scope.
Notation "m ;;; k" := (bind m (fun _ => k))
  (at level 61, right associativity) : engine_scope.
Local Open Scope engine_scope.

(** [uuidv4()] *)
Definition uuidv4 : M string := fun st =>
  (uuid_src st (uuid_pos st),
   mkState (uuid_src st) (S (uuid_pos st)) (clock_src st) (clock_pos st) (sessions st)).

(** [new Date()] *)
Definition newDate : M Date := fun st =>
  (clock_src st (clock_pos st),
   mkState (uuid_src st) (uuid_pos st) (clock_src st) (S (clock_pos st)) (sessions st)).

Definition getSessions : M SessionMap := fun st => (sessions st, st).

Definition setSessions (m : SessionMap) : M unit := fun st =>
  (tt, mkState (uuid_src st) (uuid_pos st) (clock_src st) (clock_pos st) m).

(** A session object is mutated in place; [store k s] records the
    object's new value under the key [k] the object was found at. *)
Definition store (k : string) (s : ThinkingSession) : M unit :=
  m <- getSessions ;; setSessions (map_set k s m).

(** Field updates of a session object. *)
Definition set_thoughts (l : list ThoughtStep) (s : ThinkingSession) :=
  mkThinkingSession (s_id s) (s_title s) (s_problem s) l (s_branches s)
    (s_activeBranchId s) (s_createdAt s) (s_updatedAt s) (s_status s).

Definition set_branches (l : list ThinkingBranch) (s : ThinkingSession) :=
  mkThinkingSession (s_id s) (s_title s) (s_problem s) (s_thoughts s) l
    (s_activeBranchId s) (s_createdAt s) (s_updatedAt s) (s_status s).

Definition set_activeBranchId (b : string) (s : ThinkingSession) :=
  mkThinkingSession (s_id s) (s_title s) (s_problem s) (s_thoughts s)
    (s_branches s) b (s_createdAt s) (s_updatedAt s) (s_status s).

Definition set_updatedAt (d : Date) (s : ThinkingSession) :=
  mkThinkingSession (s_id s) (s_title s) (s_problem s) (s_thoughts s)
    (s_branches s) (s_activeBranchId s) (s_createdAt s) d (s_status s).

Definition set_status (x : SessionStatus) (s : ThinkingSession) :=
  mkThinkingSession (s_id s) (s_title s) (s_problem s) (s_thoughts s)
    (s_branches s) (s_activeBranchId s) (s_createdAt s) (s_updatedAt s) x.

Definition set_problem_title (p t : string) (s : ThinkingSession) :=
  mkThinkingSession (s_id s) t p (s_thoughts s)
    (s_branches s) (s_activeBranchId s) (s_createdAt s) (s_updatedAt s)
    (s_status s).

(** [thoughts.filter(t => t.branchId === b)] *)
Definition onBranch (b : string) (l : list ThoughtStep) : list ThoughtStep :=
  filter (fun t => String.eqb (t_branchId t) b) l.

(** [thoughts.filter(t => t.thoughtType === ty)] *)
Definition ofType (ty : ThoughtType) (l : list ThoughtStep) : list ThoughtStep :=
  filter (fun t => type_eqb (t_thoughtType t) ty) l.

(** [branches.find(b => b.id === id)] *)
Definition findBranch (id : string) (l : list ThinkingBranch) : option ThinkingBranch :=
  find (fun b => String.eqb (b_id b) id) l.

(** [branches.find(b => b.id === id)?.name || DEFAULT_BRANCH_NAME] *)
Definition branchNameOf (id : string) (l : list ThinkingBranch) : string :=
  match findBranch id l with
  | Some b => or_default (b_name b) DEFAULT_BRANCH_NAME
  | None => DEFAULT_BRANCH_NAME
  end.

(** [counts[ty]++] and [acc[ty] = (acc[ty] || 0) + 1] on an object keyed
    by thought type. *)
Fixpoint bump (ty : ThoughtType) (c : TypeCounts) : TypeCounts :=
  match c with
  | [] => [(ty, 1)]
  | (k, n) :: r => if type_eqb k ty then (k, S n) :: r else (k, n) :: bump ty r
  end.

(** [counts[ty]], [0] standing for an absent key where only truthiness
    is looked at. *)
Fixpoint count_of (ty : ThoughtType) (c : TypeCounts) : nat :=
  match c with
  | [] => 0
  | (k, n) :: r => if type_eqb k ty then n else count_of ty r
  end.

(** [Array.prototype.sort((a, b) => a.timestamp.getTime() -
    b.timestamp.getTime())].  The sort is stable (ECMAScript 2019), and
    with this comparator its result is determined: it is the one of the
    stable insertion sort. *)
Fixpoint insertByTime (x : ThoughtStep) (l : list ThoughtStep) : list ThoughtStep :=
  match l with
  | [] => [x]
  | y :: r =>
      if (t_timestamp x <=? t_timestamp y)%Z then x :: y :: r
      else y :: insertByTime x r
  end.

Fixpoint sortByTime (l : list ThoughtStep) : list ThoughtStep :=
  match l with
  | [] => []
  | x :: r => insertByTime x (sortByTime r)
  end.

(* ------------------------------------------------------------------ *)
(** ** [class ThinkingSessionManager] ([src/thinking-session.ts]) *)

Module ThinkingSessionManager.

Definition inferThoughtType (thought : string) : ThoughtType :=
  let lower := toLowerCase thought in
  if includes "?" lower || startsWith "what" lower || startsWith "how" lower
     || startsWith "why" lower then question
  else if includes "i notice" lower || includes "i see" lower
          || includes "observe" lower then observation
  else if includes "therefore" lower || includes "in conclusion" lower
          || includes "finally" lower then conclusion
  else if includes "perhaps" lower || includes "maybe" lower
          || includes "hypothesis" lower then hypothesis
  else if includes "verify" lower || includes "test" lower
          || includes "check" lower then verification
  else if includes "insight" lower || includes "realize" lower
          || includes "aha" lower then insight
  else if includes "refine" lower || includes "improve" lower
          || includes "better" lower then refinement
  else if includes "reflect" lower || includes "thinking about" lower
       then reflection
  else analysis.

Definition generateTitle (problem : string) : string :=
  let words := slice0 6 (split_space problem) in
  join " " words ++ (if 6 <? length (split_space problem) then "..." else "").

Definition generateQuickSummary (session : ThinkingSession) : string :=
  let types :=
    fold_left (fun acc t => bump (t_thoughtType t) acc) (s_thoughts session) [] in
  let part (ty : ThoughtType) (plural : string) : list string :=
    if 0 <? count_of ty types
    then [JsString.of_nat (count_of ty types) ++ " " ++ plural] else [] in
  let parts :=
    (part observation "observations" ++ part hypothesis "hypotheses"
     ++ part insight "insights" ++ part conclusion "conclusions")%list in
  if 0 <? length parts then join ", " parts else "Starting analysis...".

(** The session object is returned together with the key it is held
    under in the map; the key stands for the reference. *)
Definition getOrCreateSession (sessionId problem : option string)
  : M (string * ThinkingSession) :=
  m <- getSessions ;;
  let existing :=
    match given sessionId with
    | Some k => option_map (pair k) (map_get k m)
    | None => None
    end in
  match existing with
  | Some found => ret found
  | None =>
      id <- match given sessionId with Some k => ret k | None => uuidv4 end ;;
      bid <- uuidv4 ;;
      bcreated <- newDate ;;
      let mainBranch :=
        mkThinkingBranch bid DEFAULT_BRANCH_NAME None None bcreated
          (Some "Main thinking branch") in
      created <- newDate ;;
      updated <- newDate ;;
      let session :=
        mkThinkingSession id
          (match given problem with
           | Some p => generateTitle p
           | None => "New Thinking Session"
           end)
          (match given problem with Some p => p | None => "" end)
          [] [mainBranch] (b_id mainBranch) created updated active in
      store id session ;;;
      ret (id, session)
  end.

(** [session.branches.push(newBranch)] is returned as the session's
    new value. *)
Definition createBranch (session : ThinkingSession) (name : string)
    (branchFromStep : option JsNumber) : M (ThinkingBranch * ThinkingSession) :=
  let parentBranch := findBranch (s_activeBranchId session) (s_branches session) in
  let branchFromStepId :=
    match branchFromStep with
    | Some n =>
        option_map t_id
          (find (fun t => strict_eq_nat (t_stepNumber t) n
                          && String.eqb (t_branchId t) (s_activeBranchId session))
             (s_thoughts session))
    | None => None
    end in
  bid <- uuidv4 ;;
  created <- newDate ;;
  let newBranch :=
    mkThinkingBranch bid name (option_map b_id parentBranch) branchFromStepId
      created None in
  ret (newBranch, set_branches (s_branches session ++ [newBranch]) session).

Definition getProgress (session : ThinkingSession) : ThinkingProgress :=
  let branchThoughts := onBranch (s_activeBranchId session) (s_thoughts session) in
  let conclusions := ofType conclusion (s_thoughts session) in
  mkThinkingProgress (s_id session) (length (s_thoughts session))
    (length branchThoughts) (length (s_branches session))
    (branchNameOf (s_activeBranchId session) (s_branches session))
    ((length conclusions =? 0) || status_eqb (s_status session) active)
    (generateQuickSummary session).

(** The body of [addThought] once the session object is at hand. *)
Definition addThoughtTo (input : AddThoughtInput) (session : ThinkingSession)
  : M (AddThoughtResult * ThinkingSession) :=
  let activeBranchId :=
    match given (i_branchId input) with
    | Some b => b
    | None => s_activeBranchId session
    end in
  '(activeBranchId, session) <-
    match given (i_newBranchName input) with
    | Some name =>
        '(newBranch, session) <-
          createBranch session name (i_branchFromStep input) ;;
        ret (b_id newBranch, set_activeBranchId (b_id newBranch) session)
    | None => ret (activeBranchId, session)
    end ;;
  let branchThoughts := onBranch activeBranchId (s_thoughts session) in
  let stepNumber := length branchThoughts + 1 in
  tid <- uuidv4 ;;
  stamp <- newDate ;;
  let thoughtStep :=
    mkThoughtStep tid stepNumber (i_thought input)
      (match i_thoughtType input with
       | Some ty => ty
       | None => inferThoughtType (i_thought input)
       end)
      (match i_isRevision input with Some b => b | None => false end)
      (i_revisesStep input) activeBranchId (i_branchFromStep input)
      (i_confidence input) (i_tags input) stamp in
  let session := set_thoughts (s_thoughts session ++ [thoughtStep]) session in
  updated <- newDate ;;
  let session := set_updatedAt updated session in
  let session :=
    if (length (s_thoughts session) =? 1) && negb (truthy (s_problem session))
    then set_problem_title (i_thought input) (generateTitle (i_thought input)) session
    else session in
  ret (mkAddThoughtResult (s_id session) (t_stepNumber thoughtStep)
         (length (s_thoughts session))
         (branchNameOf activeBranchId (s_branches session))
         (length (s_branches session)) (t_thought thoughtStep)
         (t_thoughtType thoughtStep) (t_isRevision thoughtStep)
         (i_nextThoughtNeeded input) (getProgress session),
       session).

Definition addThought (input : AddThoughtInput) : M AddThoughtResult :=
  '(key, session) <-
    getOrCreateSession (i_sessionId input) (Some (i_thought input)) ;;
  '(result, session) <- addThoughtTo input session ;;
  store key session ;;;
  ret result.

Definition getSummary (sessionId : string) : M (option SessionSummary) :=
  m <- getSessions ;;
  match map_get sessionId m with
  | None => ret None
  | Some session =>
      let branchSummaries :=
        map (fun branch =>
               let branchThoughts := onBranch (b_id branch) (s_thoughts session) in
               let thoughtTypes :=
                 fold_left (fun c t => bump (t_thoughtType t) c) branchThoughts
                   [(observation, 0); (analysis, 0); (hypothesis, 0);
                    (verification, 0); (refinement, 0); (conclusion, 0);
                    (question, 0); (insight, 0); (reflection, 0)] in
               mkBranchSummary (b_id branch) (b_name branch)
                 (length branchThoughts) thoughtTypes)
          (s_branches session) in
      (* [session.thoughts.sort(...)] sorts the array in place *)
      let session := set_thoughts (sortByTime (s_thoughts session)) session in
      store sessionId session ;;;
      let timeline :=
        map (fun t =>
               mkTimelineEntry (t_stepNumber t) (t_thought t) (t_thoughtType t)
                 (branchNameOf (t_branchId t) (s_branches session))
                 (t_isRevision t))
          (s_thoughts session) in
      ret (Some (mkSessionSummary (s_id session) (s_title session)
                   (s_problem session) (length (s_thoughts session))
                   branchSummaries
                   (map t_thought (ofType insight (s_thoughts session)))
                   (map t_thought (ofType conclusion (s_thoughts session)))
                   (s_status session) timeline))
  end.

Definition updateSessionStatus (sessionId : string) (status : SessionStatus)
  : M bool :=
  m <- getSessions ;;
  match map_get sessionId m with
  | None => ret false
  | Some session =>
      updated <- newDate ;;
      store sessionId (set_updatedAt updated (set_status status session)) ;;;
      ret true
  end.

Definition getSession (sessionId : string) : M (option ThinkingSession) :=
  m <- getSessions ;; ret (map_get sessionId m).

Record SessionInfo : Type := mkSessionInfo {
  li_id : string;
  li_title : string;
  li_status : SessionStatus;
  li_stepCount : nat
}.

Definition listSessions : M (list SessionInfo) :=
  m <- getSessions ;;
  ret (map (fun s => mkSessionInfo (s_id s) (s_title s) (s_status s)
                       (length (s_thoughts s)))
         (map_values m)).

Definition switchBranch (sessionId branchName : string) : M bool :=
  m <- getSessions ;;
  match map_get sessionId m with
  | None => ret false
  | Some session =>
      match find (fun b => String.eqb (b_name b) branchName) (s_branches session) with
      | None => ret false
      | Some branch =>
          updated <- newDate ;;
          store sessionId
            (set_updatedAt updated (set_activeBranchId (b_id branch) session)) ;;;
          ret true
      end
  end.

End ThinkingSessionManager.

(* ------------------------------------------------------------------ *)
(** ** The serverless tool handlers

    [api/[transport]/route.ts] and the Next.js route keep their own
    module-level [sessions] map and do not go through the manager class.
    A handler's reply is the object it hands to [JSON.stringify]. *)

Inductive Reply (A : Type) : Type :=
| Payload (a : A)
| ErrorReply (error : string) (availableBranches : option (list string)).
Arguments Payload {A} a.
Arguments ErrorReply {A} error availableBranches.

Record SequentialThinkingArgs : Type := mkSequentialThinkingArgs {
  a_thought : string;
  a_nextThoughtNeeded : bool;
  a_thoughtNumber : nat;
  a_totalThoughts : nat;
  a_isRevision : option bool;
  a_revisesThought : option Z;
  a_branchFromThought : option Z;
  a_branchId : option string;
  a_needsMoreThoughts : option bool;
  a_sessionId : option string
}.

Record ThinkingReply : Type := mkThinkingReply {
  tr_sessionId : string;
  tr_stepNumber : nat;
  tr_totalSteps : nat;
  tr_activeBranch : string;
  tr_thoughtType : ThoughtType;
  tr_isRevision : bool;
  tr_nextThoughtNeeded : bool;
  tr_status : string
}.

Record SwitchReply : Type := mkSwitchReply {
  sw_success : bool;
  sw_activeBranch : string
}.

Record CompleteReply : Type := mkCompleteReply {
  cr_success : bool;
  cr_sessionId : string;
  cr_status : string;
  cr_totalSteps : nat;
  cr_conclusions : option (list string)
}.

Record ListEntry : Type := mkListEntry {
  le_id : string;
  le_title : string;
  le_status : SessionStatus;
  le_stepCount : nat;
  le_createdAt : option Date
}.

Record SummaryReply : Type := mkSummaryReply {
  sr_sessionId : string;
  sr_title : string;
  sr_problem : option string;
  sr_totalSteps : nat;
  sr_branches : list (string * option nat);
  sr_insights : list string;
  sr_conclusions : list string;
  sr_status : SessionStatus
}.

(** [api/[transport]/route.ts] *)
Module Route.

Definition inferThoughtType (thought : string) : ThoughtType :=
  let lower := toLowerCase thought in
  if includes "?" lower || startsWith "what" lower || startsWith "how" lower
     || startsWith "why" lower then question
  else if includes "i notice" lower || includes "i see" lower
          || includes "observe" lower then observation
  else if includes "therefore" lower || includes "in conclusion" lower
          || includes "finally" lower then conclusion
  else if includes "perhaps" lower || includes "maybe" lower
          || includes "hypothesis" lower then hypothesis
  else if includes "verify" lower || includes "test" lower
          || includes "check" lower then verification
  else if includes "insight" lower || includes "realize" lower
          || includes "aha" lower then insight
  else if includes "refine" lower || includes "improve" lower
          || includes "better" lower then refinement
  else if includes "reflect" lower || includes "thinking about" lower
       then reflection
  else analysis.

Definition getOrCreateSession (sessionId problem : option string)
  : M (string * ThinkingSession) :=
  m <- getSessions ;;
  let existing :=
    match given sessionId with
    | Some k => option_map (pair k) (map_get k m)
    | None => None
    end in
  match existing with
  | Some found => ret found
  | None =>
      id <- match given sessionId with Some k => ret k | None => uuidv4 end ;;
      bid <- uuidv4 ;;
      bcreated <- newDate ;;
      let mainBranch :=
        mkThinkingBranch bid DEFAULT_BRANCH_NAME None None bcreated
          (Some "Main thinking branch") in
      created <- newDate ;;
      updated <- newDate ;;
      let session :=
        mkThinkingSession id
          (match given problem with
           | Some p => join " " (slice0 6 (split_space p)) ++ "..."
           | None => "New Thinking Session"
           end)
          (match given problem with Some p => p | None => "" end)
          [] [mainBranch] (b_id mainBranch) created updated active in
      store id session ;;;
      ret (id, session)
  end.

Definition sequential_thinking (args : SequentialThinkingArgs)
  : M (Reply ThinkingReply) :=
  '(key, session) <- getOrCreateSession (a_sessionId args) (Some (a_thought args)) ;;
  tid <- uuidv4 ;;
  stamp <- newDate ;;
  let thoughtStep :=
    mkThoughtStep tid (a_thoughtNumber args) (a_thought args)
      (inferThoughtType (a_thought args))
      (match a_isRevision args with Some b => b | None => false end)
      (option_map number_of_Z (a_revisesThought args)) (s_activeBranchId session)
      (option_map number_of_Z (a_branchFromThought args)) None None stamp in
  let session := set_thoughts (s_thoughts session ++ [thoughtStep]) session in
  updated <- newDate ;;
  let session := set_updatedAt updated session in
  store key session ;;;
  ret (Payload
         (mkThinkingReply (s_id session) (t_stepNumber thoughtStep)
            (length (s_thoughts session))
            (branchNameOf (s_activeBranchId session) (s_branches session))
            (t_thoughtType thoughtStep) (t_isRevision thoughtStep)
            (a_nextThoughtNeeded args)
            (if a_nextThoughtNeeded args then "continue" else "complete"))).

Definition get_thinking_summary (sessionId : string) : M (Reply SummaryReply) :=
  m <- getSessions ;;
  match map_get sessionId m with
  | None => ret (ErrorReply "Session not found" None)
  | Some session =>
      ret (Payload
             (mkSummaryReply (s_id session) (s_title session)
                (Some (s_problem session)) (length (s_thoughts session))
                (map (fun b =>
                        (b_name b,
                         Some (length (onBranch (b_id b) (s_thoughts session)))))
                   (s_branches session))
                (map t_thought (ofType insight (s_thoughts session)))
                (map t_thought (ofType conclusion (s_thoughts session)))
                (s_status session)))
  end.

Definition list_thinking_sessions : M (Reply (list ListEntry)) :=
  m <- getSessions ;;
  ret (Payload
         (map (fun s => mkListEntry (s_id s) (s_title s) (s_status s)
                          (length (s_thoughts s)) (Some (s_createdAt s)))
            (map_values m))).

Definition switch_thinking_branch (sessionId branchName : string)
  : M (Reply SwitchReply) :=
  m <- getSessions ;;
  match map_get sessionId m with
  | None => ret (ErrorReply "Session not found" None)
  | Some session =>
      match find (fun b => String.eqb (b_name b) branchName) (s_branches session) with
      | None =>
          ret (ErrorReply "Branch not found"
                 (Some (map b_name (s_branches session))))
      | Some branch =>
          let session := set_activeBranchId (b_id branch) session in
          updated <- newDate ;;
          store sessionId (set_updatedAt updated session) ;;;
          ret (Payload (mkSwitchReply true branchName))
      end
  end.

Definition complete_thinking_session (sessionId : string)
    (finalConclusion : option string) : M (Reply CompleteReply) :=
  m <- getSessions ;;
  match map_get sessionId m with
  | None => ret (ErrorReply "Session not found" None)
  | Some session =>
      session <-
        match given finalConclusion with
        | Some text =>
            tid <- uuidv4 ;;
            stamp <- newDate ;;
            ret (set_thoughts
                   (s_thoughts session ++
                    [mkThoughtStep tid (length (s_thoughts session) + 1) text
                       conclusion false None (s_activeBranchId session) None
                       None None stamp])
                   session)
        | None => ret session
        end ;;
      let session := set_status completed session in
      updated <- newDate ;;
      let session := set_updatedAt updated session in
      store sessionId session ;;;
      ret (Payload
             (mkCompleteReply true (s_id session) "completed"
                (length (s_thoughts session))
                (Some (map t_thought (ofType conclusion (s_thoughts session))))))
  end.

End Route.

(** The Next.js route handler (the file beside [app/layout.tsx]). *)
Module AppRoute.

Definition inferThoughtType (thought : string) : ThoughtType :=
  let lower := toLowerCase thought in
  if includes "?" lower || startsWith "what" lower || startsWith "how" lower
     || startsWith "why" lower then question
  else if includes "i notice" lower || includes "observe" lower then observation
  else if includes "therefore" lower || includes "in conclusion" lower
       then conclusion
  else if includes "perhaps" lower || includes "maybe" lower
          || includes "hypothesis" lower then hypothesis
  else if includes "verify" lower || includes "test" lower
          || includes "check" lower then verification
  else if includes "insight" lower || includes "realize" lower then insight
  else if includes "refine" lower || includes "improve" lower then refinement
  else if includes "reflect" lower then reflection
  else analysis.

Definition getOrCreateSession (sessionId problem : option string)
  : M (string * ThinkingSession) :=
  m <- getSessions ;;
  let existing :=
    match given sessionId with
    | Some k => option_map (pair k) (map_get k m)
    | None => None
    end in
  match existing with
  | Some found => ret found
  | None =>
      id <- match given sessionId with Some k => ret k | None => uuidv4 end ;;
      bid <- uuidv4 ;;
      bcreated <- newDate ;;
      let mainBranch :=
        mkThinkingBranch bid DEFAULT_BRANCH_NAME None None bcreated None in
      created <- newDate ;;
      updated <- newDate ;;
      let session :=
        mkThinkingSession id
          (match given problem with
           | Some p => join " " (slice0 6 (split_space p)) ++ "..."
           | None => "New Session"
           end)
          (match given problem with Some p => p | None => "" end)
          [] [mainBranch] (b_id mainBranch) created updated active in
      store id session ;;;
      ret (id, session)
  end.

Definition sequential_thinking (args : SequentialThinkingArgs)
  : M (Reply ThinkingReply) :=
  '(key, session) <- getOrCreateSession (a_sessionId args) (Some (a_thought args)) ;;
  tid <- uuidv4 ;;
  stamp <- newDate ;;
  let thoughtStep :=
    mkThoughtStep tid (a_thoughtNumber args) (a_thought args)
      (inferThoughtType (a_thought args))
      (match a_isRevision args with Some b => b | None => false end)
      (option_map number_of_Z (a_revisesThought args)) (s_activeBranchId session)
      (option_map number_of_Z (a_branchFromThought args)) None None stamp in
  let session := set_thoughts (s_thoughts session ++ [thoughtStep]) session in
  updated <- newDate ;;
  let session := set_updatedAt updated session in
  store key session ;;;
  ret (Payload
         (mkThinkingReply (s_id session) (t_stepNumber thoughtStep)
            (length (s_thoughts session))
            (branchNameOf (s_activeBranchId session) (s_branches session))
            (t_thoughtType thoughtStep) (t_isRevision thoughtStep)
            (a_nextThoughtNeeded args)
            (if a_nextThoughtNeeded args then "continue" else "complete"))).

Definition get_thinking_summary (sessionId : string) : M (Reply SummaryReply) :=
  m <- getSessions ;;
  match map_get sessionId m with
  | None => ret (ErrorReply "Session not found" None)
  | Some session =>
      ret (Payload
             (mkSummaryReply (s_id session) (s_title session) None
                (length (s_thoughts session))
                (map (fun b => (b_name b, None)) (s_branches session))
                (map t_thought (ofType insight (s_thoughts session)))
                (map t_thought (ofType conclusion (s_thoughts session)))
                (s_status session)))
  end.

Definition list_thinking_sessions : M (Reply (list ListEntry)) :=
  m <- getSessions ;;
  ret (Payload
         (map (fun s => mkListEntry (s_id s) (s_title s) (s_status s)
                          (length (s_thoughts s)) None)
            (map_values m))).

Definition switch_thinking_branch (sessionId branchName : string)
  : M (Reply SwitchReply) :=
  m <- getSessions ;;
  match map_get sessionId m with
  | None => ret (ErrorReply "Session not found" None)
  | Some session =>
      match find (fun b => String.eqb (b_name b) branchName) (s_branches session) with
      | None => ret (ErrorReply "Branch not found" None)
      | Some branch =>
          store sessionId (set_activeBranchId (b_id branch) session) ;;;
          ret (Payload (mkSwitchReply true branchName))
      end
  end.

Definition complete_thinking_session (sessionId : string)
    (finalConclusion : option string) : M (Reply CompleteReply) :=
  m <- getSessions ;;
  match map_get sessionId m with
  | None => ret (ErrorReply "Session not found" None)
  | Some session =>
      session <-
        match given finalConclusion with
        | Some text =>
            tid <- uuidv4 ;;
            stamp <- newDate ;;
            ret (set_thoughts
                   (s_thoughts session ++
                    [mkThoughtStep tid (length (s_thoughts session) + 1) text
                       conclusion false None (s_activeBranchId session) None
                       None None stamp])
                   session)
        | None => ret session
        end ;;
      let session := set_status completed session in
      store sessionId session ;;;
      ret (Payload
             (mkCompleteReply true (s_id session) "completed"
                (length (s_thoughts session)) None))
  end.

End AppRoute.

(* ------------------------------------------------------------------ *)
(** ** Runs of the engine *)

Import ThinkingSessionManager.

(** [createBranch] is public and takes a session object; the session
    objects a caller can have are the ones the manager holds, so the call
    is made on the object held under [sessionId]. *)
Definition createBranchIn (sessionId name : string) (branchFromStep : option JsNumber)
  : M (option ThinkingBranch) :=
  m <- getSessions ;;
  match map_get sessionId m with
  | None => ret None
  | Some session =>
      '(newBranch, session) <- createBranch session name branchFromStep ;;
      store sessionId session ;;;
      ret (Some newBranch)
  end.

Inductive Op : Type :=
| OpGetOrCreateSession (sessionId problem : option string)
| OpAddThought (input : AddThoughtInput)
| OpCreateBranch (sessionId name : string) (branchFromStep : option JsNumber)
| OpGetSummary (sessionId : string)
| OpUpdateSessionStatus (sessionId : string) (status : SessionStatus)
| OpGetSession (sessionId : string)
| OpListSessions
| OpSwitchBranch (sessionId branchName : string).

Definition exec (op : Op) (st : State) : State :=
  match op with
  | OpGetOrCreateSession sid p => snd (getOrCreateSession sid p st)
  | OpAddThought input => snd (addThought input st)
  | OpCreateBranch sid name from => snd (createBranchIn sid name from st)
  | OpGetSummary sid => snd (getSummary sid st)
  | OpUpdateSessionStatus sid x => snd (updateSessionStatus sid x st)
  | OpGetSession sid => snd (getSession sid st)
  | OpListSessions => snd (listSessions st)
  | OpSwitchBranch sid name => snd (switchBranch sid name st)
  end.

(** The states a store goes through: it starts empty, in any
    environment, and each call moves it. *)
Inductive reachableBy {O : Type} (run : O -> State -> State) : State -> Prop :=
| reachable_init us up cs cp : reachableBy run (mkState us up cs cp [])
| reachable_step st op : reachableBy run st -> reachableBy run (run op st).

Definition reachable : State -> Prop := reachableBy exec.

(** Calls of the five tools of a route handler. *)
Inductive ToolCall : Type :=
| CallSequentialThinking (args : SequentialThinkingArgs)
| CallGetThinkingSummary (sessionId : string)
| CallListThinkingSessions
| CallSwitchThinkingBranch (sessionId branchName : string)
| CallCompleteThinkingSession (sessionId : string) (finalConclusion : option string).

Definition route_exec (c : ToolCall) (st : State) : State :=
  match c with
  | CallSequentialThinking args => snd (Route.sequential_thinking args st)
  | CallGetThinkingSummary sid => snd (Route.get_thinking_summary sid st)
  | CallListThinkingSessions => snd (Route.list_thinking_sessions st)
  | CallSwitchThinkingBranch sid name => snd (Route.switch_thinking_branch sid name st)
  | CallCompleteThinkingSession sid text =>
      snd (Route.complete_thinking_session sid text st)
  end.

Definition approute_exec (c : ToolCall) (st : State) : State :=
  match c with
  | CallSequentialThinking args => snd (AppRoute.sequential_thinking args st)
  | CallGetThinkingSummary sid => snd (AppRoute.get_thinking_summary sid st)
  | CallListThinkingSessions => snd (AppRoute.list_thinking_sessions st)
  | CallSwitchThinkingBranch sid name =>
      snd (AppRoute.switch_thinking_branch sid name st)
  | CallCompleteThinkingSession sid text =>
      snd (AppRoute.complete_thinking_session sid text st)
  end.

(** [N] calls of [addThought], one after the other. *)
Fixpoint addThoughts (inputs : list AddThoughtInput) : M (list AddThoughtResult) :=
  match inputs with
  | [] => ret []
  | input :: rest =>
      r <- addThought input ;;
      rs <- addThoughts rest ;;
      ret (r :: rs)
  end.

(** The call names the session [sid]. *)
Definition onSession (sid : string) (input : AddThoughtInput) : Prop :=
  given (i_sessionId input) = Some sid.

(** The call carries no branch directive. *)
Definition noBranchDirective (input : AddThoughtInput) : Prop :=
  given (i_branchId input) = None /\ given (i_newBranchName input) = None.

(** The thoughts of session [sid] that are on its active branch. *)
Definition activeThoughts (sid : string) (st : State) : list ThoughtStep :=
  match map_get sid (sessions st) with
  | Some s => onBranch (s_activeBranchId s) (s_thoughts s)
  | None => []
  end.

(** [P] holds of every session of the store. *)
Definition allSessions (P : ThinkingSession -> Prop) (st : State) : Prop :=
  Forall (fun e => P (snd e)) (sessions st).

(** Invariant 1 of the data model. *)
Definition activeBranchPresent (s : ThinkingSession) : Prop :=
  exists b, In b (s_branches s) /\ b_id b = s_activeBranchId s.

(** What the route handlers keep true of a session: one branch, active,
    holding every thought. *)
Definition singleBranch (s : ThinkingSession) : Prop :=
  exists b,
    s_branches s = [b] /\ s_activeBranchId s = b_id b /\
    Forall (fun t => t_branchId t = b_id b) (s_thoughts s).

(** Completion of a session by a handler [complete], in the state [st]:
    the session comes out [completed]; with a final conclusion text it has
    one more thought, a [conclusion] carrying the text, on the active
    branch and numbered by that branch's count; without one it has the
    thoughts it had.  Nothing else of the session changes but
    [updatedAt], and no other session changes. *)
Definition completionAppends
    (complete : string -> option string -> M (Reply CompleteReply))
    (st : State) : Prop :=
  forall sid s finalConclusion,
    map_get sid (sessions st) = Some s ->
    let st' := snd (complete sid finalConclusion st) in
    exists s',
      map_get sid (sessions st') = Some s' /\
      (forall k, k <> sid -> map_get k (sessions st') = map_get k (sessions st)) /\
      match given finalConclusion with
      | Some text =>
          exists t,
            s' = set_updatedAt (s_updatedAt s')
                   (set_status completed
                      (set_thoughts (s_thoughts s ++ [t])%list s)) /\
            t_thought t = text /\ t_thoughtType t = conclusion /\
            t_branchId t = s_activeBranchId s /\
            t_stepNumber t =
              length (onBranch (s_activeBranchId s) (s_thoughts s)) + 1
      | None =>
          s' = set_updatedAt (s_updatedAt s') (set_status completed s)
      end.

(** The environment never answers [uuidv4()] twice with the same value. *)
Definition uuid_unique (st : State) : Prop :=
  forall i j, uuid_src st i = uuid_src st j -> i = j.

(** The clock read by [new Date()] never goes back. *)
Definition clock_monotone (st : State) : Prop :=
  forall i j, i <= j -> (clock_src st i <= clock_src st j)%Z.

(** The key [getOrCreateSession] resolves a [sessionId] to: the id
    itself, or the next uuid when there is none (or the empty one). *)
Definition keyOf (sessionId : option string) (st : State) : string :=
  match given sessionId with
  | Some k => k
  | None => uuid_src st (uuid_pos st)
  end.

(** The key a call of [addThought] resolves to. *)
Definition targetOf (input : AddThoughtInput) (st : State) : string :=
  keyOf (i_sessionId input) st.

(** A call with this [sessionId] creates the session [sid]: it resolves
    to [sid], and there is no [sessionId] or the store does not hold it. *)
Definition creates (sid : string) (sessionId : option string) (st : State) : Prop :=
  keyOf sessionId st = sid /\
  (given sessionId = None \/ map_get sid (sessions st) = None).

Definition opens (sid : string) (input : AddThoughtInput) (st : State) : Prop :=
  creates sid (i_sessionId input) st.

(** The call does not use a [branchId] of its own: it supplies none, or
    creates a branch. *)
Definition suppliesNoBranchId (input : AddThoughtInput) : bool :=
  match given (i_newBranchName input), given (i_branchId input) with
  | None, Some _ => false
  | _, _ => true
  end.

(** The [branchId] the call supplies (and uses), if any, is the id of a
    branch the session [sid] has at the time of the call. *)
Definition branchIdKnown (sid : string) (input : AddThoughtInput) (st : State)
  : bool :=
  match given (i_newBranchName input), given (i_branchId input) with
  | None, Some b =>
      match map_get sid (sessions st) with
      | Some s => existsb (fun br => String.eqb (b_id br) b) (s_branches s)
      | None => false
      end
  | _, _ => true
  end.

(** A session with [n] thoughts and [1 + c] branches, in which the ids
    of the branches are pairwise distinct values the environment has
    already handed out, every thought is on one of the branches, and the
    active branch is one of them. *)
Definition wellBranched (st : State) (s : ThinkingSession) (n c : nat) : Prop :=
  length (s_thoughts s) = n /\
  length (s_branches s) = 1 + c /\
  NoDup (map b_id (s_branches s)) /\
  Forall (fun t => In (t_branchId t) (map b_id (s_branches s))) (s_thoughts s) /\
  Forall (fun b => exists j, j < uuid_pos st /\ b_id b = uuid_src st j)
    (s_branches s) /\
  activeBranchPresent s.

(** [1] when the call creates a branch, else [0]. *)
Definition forks (input : AddThoughtInput) : nat :=
  match given (i_newBranchName input) with
  | Some _ => 1
  | None => 0
  end.

(** The operation appends no thought to the session [sid], gives it no
    branch and does not put a new session in its place. *)
Definition leaves (sid : string) (op : Op) (st : State) : Prop :=
  match op with
  | OpAddThought input => targetOf input st <> sid
  | OpCreateBranch k _ _ => k <> sid
  | OpGetOrCreateSession k _ => given k = None -> keyOf k st <> sid
  | _ => True
  end.

(** [built sid st n c known]: the session [sid] of the store [st] was
    created by a call of [addThought] (or of [getOrCreateSession]) and has
    received [n] calls of [addThought] in all, the creating one included;
    [c] branches were created in it, by these calls or by [createBranch];
    meanwhile the store went through any other operations, on this session
    or on others.  [known] tells whether every [branchId] one of the [n]
    calls supplied (and used) was the id of a branch the session had at
    that time. *)
Inductive built (sid : string) : State -> nat -> nat -> bool -> Prop :=
| built_created st sessionId problem :
    creates sid sessionId st ->
    built sid (exec (OpGetOrCreateSession sessionId problem) st) 0 0 true
| built_open st input :
    opens sid input st ->
    built sid (exec (OpAddThought input) st) 1 (forks input)
      (suppliesNoBranchId input)
| built_more st input n c known :
    built sid st n c known ->
    given (i_sessionId input) = Some sid ->
    built sid (exec (OpAddThought input) st) (n + 1) (c + forks input)
      (known && branchIdKnown sid input st)
| built_fork st name from n c known :
    built sid st n c known ->
    built sid (exec (OpCreateBranch sid name from) st) n (c + 1) known
| built_other st op n c known :
    built sid st n c known ->
    leaves sid op st ->
    built sid (exec op st) n c known.

Definition stepCountSum (sm : SessionSummary) : nat :=
  list_sum (map bs_stepCount (sm_branches sm)).

(** The session held under [k] with its status replaced by [x]. *)
Definition withStatus (k : string) (x : SessionStatus) (st : State) : State :=
  mkState (uuid_src st) (uuid_pos st) (clock_src st) (clock_pos st)
    (map (fun e => if String.eqb (fst e) k then (fst e, set_status x (snd e)) else e)
       (sessions st)).

(** A result with the one flag that depends on the status blanked. *)
Definition withoutHasMore (r : AddThoughtResult) : AddThoughtResult :=
  let p := r_progress r in
  mkAddThoughtResult (r_sessionId r) (r_stepNumber r) (r_totalSteps r)
    (r_activeBranch r) (r_branchCount r) (r_thoughtRecorded r) (r_thoughtType r)
    (r_isRevision r) (r_nextThoughtNeeded r)
    (mkThinkingProgress (p_sessionId p) (p_totalSteps p) (p_currentStep p)
       (p_branches p) (p_activeBranch p) true (p_summary p)).

(** The thoughts are in the order of their timestamps. *)
Definition inTimeOrder (l : list ThoughtStep) : Prop :=
  StronglySorted (fun a b => (t_timestamp a <= t_timestamp b)%Z) l.

(** The thoughts of [s] are in the order of their timestamps, none later
    than the next reading of the clock. *)
Definition timely (st : State) (s : ThinkingSession) : Prop :=
  inTimeOrder (s_thoughts s) /\
  Forall (fun t => (t_timestamp t <= clock_src st (clock_pos st))%Z) (s_thoughts s).

(* ------------------------------------------------------------------ *)
(** ** Thought classification as the specification words it

    An ordered list of rules; a rule names a thought type, the substrings
    and the prefixes that select it.  The first rule that matches the
    lower-cased text wins, and [analysis] is the fallback. *)

Record Rule : Type := mkRule {
  rule_type : ThoughtType;
  rule_contains : list string;
  rule_beginsWith : list string
}.

Definition classificationRules : list Rule :=
  [ mkRule question ["?"] ["what"; "how"; "why"];
    mkRule observation ["i notice"; "i see"; "observe"] [];
    mkRule conclusion ["therefore"; "in conclusion"; "finally"] [];
    mkRule hypothesis ["perhaps"; "maybe"; "hypothesis"] [];
    mkRule verification ["verify"; "test"; "check"] [];
    mkRule insight ["insight"; "realize"; "aha"] [];
    mkRule refinement ["refine"; "improve"; "better"] [];
    mkRule reflection ["reflect"; "thinking about"] [] ].

Definition ruleMatches (lower : string) (r : Rule) : bool :=
  existsb (fun k => includes k lower) (rule_contains r)
  || existsb (fun p => startsWith p lower) (rule_beginsWith r).

Definition classify (text : string) : ThoughtType :=
  match find (ruleMatches (toLowerCase text)) classificationRules with
  | Some r => rule_type r
  | None => analysis
  end.

(* ------------------------------------------------------------------ *)
(** ** Sample environment and calls *)

(** Pairwise distinct identifiers ["b"], ["xb"], ["xxb"], ... *)
Fixpoint uuid_sample (n : nat) : string :=
  match n with
  | 0 => "b"
  | S k => String "x" (uuid_sample k)
  end.

Definition st0 : State :=
  mkState uuid_sample 0 (fun n => (1000 + Z.of_nat n)%Z) 0 [].

Definition plain (sid text : string) : AddThoughtInput :=
  mkAddThoughtInput (Some sid) text None None None None None None None None true.

Definition toBranch (sid text b : string) : AddThoughtInput :=
  mkAddThoughtInput (Some sid) text None None None (Some b) None None None None true.

Definition forking (sid text name : string) : AddThoughtInput :=
  mkAddThoughtInput (Some sid) text None None None None None (Some name) None None true.

(** One thought on [main], a branch [alt] forked with a second thought,
    and back to [main]: the ids drawn are ["b"] for [main] and ["xxb"]
    for [alt]. *)
Definition st_forked : State :=
  exec (OpSwitchBranch "s" "main")
    (exec (OpAddThought (forking "s" "Maybe we should use LRU" "alt"))
       (exec (OpAddThought (plain "s" "How should we design the cache?")) st0)).

Definition three_plain : list AddThoughtInput :=
  [plain "s" "first"; plain "s" "second"; plain "s" "third"].

Definition st_ghost : State :=
  exec (OpAddThought (toBranch "s" "Perhaps another branch" "ghost")) st0.

Definition args_sample (sid text : string) (n : nat) : SequentialThinkingArgs :=
  mkSequentialThinkingArgs text true n 3 None None None None None (Some sid).

Definition st_route : State :=
  route_exec (CallSequentialThinking (args_sample "s" "I see a pattern" 7))
    (route_exec (CallSequentialThinking (args_sample "s" "What is wrong?" 1)) st0).

Definition st_approute : State :=
  approute_exec (CallSequentialThinking (args_sample "s" "I see a pattern" 7))
    (approute_exec (CallSequentialThinking (args_sample "s" "What is wrong?" 1)) st0).

(** The scenario of the specification in a session opened without id:
    the session takes the uuid ["b"] as its id and ["xb"] for [main]; it
    gets two thoughts on [main], a branch [alt] forked with a third, and a
    fourth routed to [main] by its id, while another session is written to
    and summaries are read. *)
Definition anonymous (text : string) : AddThoughtInput :=
  mkAddThoughtInput None text None None None None None None None None true.

Definition st_anon : State :=
  exec (OpAddThought (toBranch "b" "Therefore we'll use write-through" "xb"))
    (exec (OpGetSummary "b")
       (exec (OpAddThought
                (mkAddThoughtInput (Some "b") "Maybe we should use LRU" None None
                   None None (Some (number_of_Z 2)) (Some "alt") None None true))
          (exec (OpAddThought (plain "other" "What about the index?"))
             (exec (OpAddThought (plain "b" "I notice reads dominate writes"))
                (exec (OpAddThought (anonymous "How should we design the cache?"))
                   st0))))).

(** Two thoughts of one session, the clock going back between them. *)
Definition st_back : State :=
  exec (OpAddThought (plain "s" "second"))
    (exec (OpAddThought (plain "s" "first"))
       (mkState uuid_sample 0
          (fun n => if n <=? 3 then (1000 + Z.of_nat n)%Z else 900%Z) 0 [])).

(** A session with the branch name [alt] used twice: the branches are
    [main] (id ["b"]), [alt] (id ["xxb"]) and [alt] (id ["xxxxb"]). *)
Definition st_twice : State :=
  exec (OpAddThought (forking "s" "Maybe a trie is better" "alt"))
    (exec (OpAddThought (forking "s" "Maybe we should use LRU" "alt"))
       (exec (OpAddThought (plain "s" "How should we design the cache?")) st0)).

(* ------------------------------------------------------------------ *)
(** ** What one operation does to a session *)

(** A session as [getOrCreateSession] makes it, under the key [k]. *)
Definition freshSession (k : string) (s : ThinkingSession) : Prop :=
  s_id s = k /\ s_thoughts s = [] /\ s_status s = active /\
  exists b,
    s_branches s = [b] /\ b_name b = DEFAULT_BRANCH_NAME /\
    b_parentBranchId b = None /\ s_activeBranchId s = b_id b.

(** The thoughts of a session before and after one operation: the same,
    the same sorted by time, or one more at the end, numbered by the count
    of its branch. *)
Inductive thoughtsStep : list ThoughtStep -> list ThoughtStep -> Prop :=
| thoughts_same l : thoughtsStep l l
| thoughts_sorted l : thoughtsStep l (sortByTime l)
| thoughts_appended l t :
    t_stepNumber t = length (onBranch (t_branchId t) l) + 1 ->
    thoughtsStep l (l ++ [t])%list.

Definition sessionStep (s s' : ThinkingSession) : Prop :=
  s_id s' = s_id s /\ s_createdAt s' = s_createdAt s /\
  thoughtsStep (s_thoughts s) (s_thoughts s') /\
  exists news, s_branches s' = (s_branches s ++ news)%list.

(** Invariant 4 of the data model, up to the order of the array: on
    every branch id the step numbers are [1], ..., [n], each once. *)
Definition numbered (s : ThinkingSession) : Prop :=
  forall b,
    Permutation (map t_stepNumber (onBranch b (s_thoughts s)))
      (seq 1 (length (onBranch b (s_thoughts s)))).

(** A sequence of [Map.prototype.set] calls. *)
Definition writeAll (writes : SessionMap) (m : SessionMap) : SessionMap :=
  fold_left (fun m kv => map_set (fst kv) (snd kv) m) writes m.

(** A session of a route handler: the single branch [main], active,
    carrying every thought. *)
Definition mainOnly (s : ThinkingSession) : Prop :=
  exists b,
    s_branches s = [b] /\ b_name b = DEFAULT_BRANCH_NAME /\
    s_activeBranchId s = b_id b /\
    Forall (fun t => t_branchId t = b_id b) (s_thoughts s).

(* ------------------------------------------------------------------ *)
(** ** The transports ([src/server.ts], [src/http-transport.ts])

    Both dispatch a tool call to the manager and format the result as a
    text.  The arguments of [sequential_thinking] go through
    [SequentialThinkingInputSchema.parse]; a request here carries what the
    parse returns when it accepts the arguments: the fields of the schema
    (which has no [branchId]; unknown keys are stripped), [isRevision]
    defaulted to [false].  The other tools cast their arguments to
    strings. *)

Record SequentialThinkingInput : Type := mkSequentialThinkingInput {
  z_sessionId : option string;
  z_thought : string;
  z_thoughtType : option ThoughtType;
  z_isRevision : bool;
  z_revisesStep : option JsNumber;
  z_branchFromStep : option JsNumber;
  z_newBranchName : option string;
  z_confidence : option Q;
  z_tags : option (list string);
  z_nextThoughtNeeded : bool
}.

(** [{ ...input, thoughtType: input.thoughtType }] *)
Definition toAddThoughtInput (input : SequentialThinkingInput) : AddThoughtInput :=
  mkAddThoughtInput (z_sessionId input) (z_thought input) (z_thoughtType input)
    (Some (z_isRevision input)) (z_revisesStep input) None (z_branchFromStep input)
    (z_newBranchName input) (option_map JsFinite (z_confidence input)) (z_tags input)
    (z_nextThoughtNeeded input).

Inductive ToolRequest : Type :=
| ReqSequentialThinking (input : SequentialThinkingInput)
| ReqGetThinkingSummary (sessionId : string)
| ReqListThinkingSessions
| ReqSwitchThinkingBranch (sessionId branchName : string)
| ReqCompleteThinkingSession (sessionId : string)
| ReqOther (name : string).

Record ToolResponse : Type := mkToolResponse {
  rsp_text : string;
  rsp_isError : option bool
}.

(** The line feed of the template literals. *)
Definition nl : string := String (ascii_of_nat 10) EmptyString.

(** A thought type as the string it is in TypeScript. *)
Definition typeName (ty : ThoughtType) : string :=
  match ty with
  | observation => "observation" | analysis => "analysis"
  | hypothesis => "hypothesis" | verification => "verification"
  | refinement => "refinement" | conclusion => "conclusion"
  | question => "question" | insight => "insight" | reflection => "reflection"
  end.

(** [src/server.ts], the handler of [CallToolRequestSchema]. *)
Module Server.

Definition callTool (req : ToolRequest) : M ToolResponse :=
  match req with
  | ReqSequentialThinking input =>
      result <- addThought (toAddThoughtInput input) ;;
      ret (mkToolResponse
             ("## Thought Recorded" ++ nl ++ nl ++ "**Session ID:** `"
              ++ r_sessionId result ++ "`" ++ nl ++ "**Step:** "
              ++ JsString.of_nat (r_stepNumber result) ++ nl ++ "**Type:** "
              ++ typeName (r_thoughtType result) ++ nl ++ nl
              ++ r_thoughtRecorded result)
             None)
  | ReqGetThinkingSummary sessionId =>
      summary <- getSummary sessionId ;;
      ret (match summary with
           | Some sm =>
               mkToolResponse
                 ("# Summary" ++ nl ++ nl ++ "**" ++ sm_title sm ++ "**" ++ nl
                  ++ "Steps: " ++ JsString.of_nat (sm_totalSteps sm))
                 (Some false)
           | None => mkToolResponse "Session not found" (Some true)
           end)
  | ReqListThinkingSessions =>
      sessions <- listSessions ;;
      ret (mkToolResponse
             (if 0 <? length sessions
              then join nl
                     (map (fun s => "- " ++ li_title s ++ " ("
                                    ++ JsString.of_nat (li_stepCount s) ++ " steps)")
                        sessions)
              else "No sessions")
             None)
  | ReqSwitchThinkingBranch sessionId branchName =>
      ok <- switchBranch sessionId branchName ;;
      ret (mkToolResponse (if ok then "Switched to " ++ branchName else "Failed") None)
  | ReqCompleteThinkingSession sessionId =>
      ok <- updateSessionStatus sessionId completed ;;
      ret (mkToolResponse (if ok then "Completed" else "Failed") None)
  | ReqOther name => ret (mkToolResponse ("Unknown tool: " ++ name) (Some true))
  end.

End Server.

(** [src/http-transport.ts], [HttpSseTransport.handleToolCall]. *)
Module HttpTransport.

Definition handleToolCall (req : ToolRequest) : M ToolResponse :=
  match req with
  | ReqSequentialThinking input =>
      result <- addThought (toAddThoughtInput input) ;;
      ret (mkToolResponse
             ("## Thought Recorded" ++ nl ++ "**Session:** " ++ r_sessionId result
              ++ nl ++ "**Step:** " ++ JsString.of_nat (r_stepNumber result)
              ++ nl ++ nl ++ r_thoughtRecorded result)
             None)
  | ReqGetThinkingSummary sessionId =>
      summary <- getSummary sessionId ;;
      ret (mkToolResponse
             (match summary with
              | Some sm =>
                  "# " ++ sm_title sm ++ nl ++ "Steps: "
                  ++ JsString.of_nat (sm_totalSteps sm)
              | None => "Not found"
              end)
             None)
  | ReqListThinkingSessions =>
      sessions <- listSessions ;;
      ret (mkToolResponse
             (if 0 <? length sessions
              then join nl (map (fun s => "- " ++ li_title s) sessions)
              else "No sessions")
             None)
  | ReqSwitchThinkingBranch sessionId branchName =>
      ok <- switchBranch sessionId branchName ;;
      ret (mkToolResponse (if ok then "Switched" else "Failed") None)
  | ReqCompleteThinkingSession sessionId =>
      ok <- updateSessionStatus sessionId completed ;;
      ret (mkToolResponse (if ok then "Completed" else "Failed") None)
  | ReqOther name => ret (mkToolResponse ("Unknown: " ++ name) (Some true))
  end.

End HttpTransport.

Definition transport_exec (req : ToolRequest) (st : State) : State :=
  snd (Server.callTool req st).

(** The engine operation a tool call comes down to, if any. *)
Definition opOf (req : ToolRequest) : option Op :=
  match req with
  | ReqSequentialThinking input => Some (OpAddThought (toAddThoughtInput input))
  | ReqGetThinkingSummary sid => Some (OpGetSummary sid)
  | ReqListThinkingSessions => Some OpListSessions
  | ReqSwitchThinkingBranch sid name => Some (OpSwitchBranch sid name)
  | ReqCompleteThinkingSession sid => Some (OpUpdateSessionStatus sid completed)
  | ReqOther _ => None
  end.

(** A session all of whose thoughts are on its branches, whose active
    branch is one of them, and whose branch ids are values the
    environment has handed out, pairwise distinct if the environment
    never repeats itself. *)
Definition wellKept (st : State) (s : ThinkingSession) : Prop :=
  Forall (fun t => In (t_branchId t) (map b_id (s_branches s))) (s_thoughts s) /\
  activeBranchPresent s /\
  Forall (fun b => exists j, j < uuid_pos st /\ b_id b = uuid_src st j)
    (s_branches s) /\
  (uuid_unique st -> NoDup (map b_id (s_branches s))).

Definition input_sample (sid : option string) (text : string)
    (newBranch : option string) : SequentialThinkingInput :=
  mkSequentialThinkingInput sid text None false None None newBranch None None true.

Definition st_served : State :=
  transport_exec (ReqSwitchThinkingBranch "s" "main")
    (transport_exec (ReqSequentialThinking
                       (input_sample (Some "s") "Maybe we should use LRU" (Some "alt")))
       (transport_exec (ReqSequentialThinking
                          (input_sample (Some "s") "How should we design the cache?" None))
          st0)).

(* ------------------------------------------------------------------ *)
(** ** The branches of a session as a tree *)

(** Every branch but the first names as its parent a branch that stands
    before it in the array. *)
Definition parentsFirst (l : list ThinkingBranch) : Prop :=
  forall pre b post,
    l = (pre ++ b :: post)%list -> pre <> [] ->
    exists p, In p pre /\ b_parentBranchId b = Some (b_id p).

(** The first branch is [main] and has no parent; the others hang below
    it. *)
Definition rooted (s : ThinkingSession) : Prop :=
  (exists m rest,
      s_branches s = m :: rest /\ b_name m = DEFAULT_BRANCH_NAME /\
      b_parentBranchId m = None) /\
  parentsFirst (s_branches s).

(* ------------------------------------------------------------------ *)
(** ** The dates of a session *)

(** The dates of a session as readings of the clock: [createdAt] was
    read first, [updatedAt] last, and every thought was stamped in
    between. *)
Definition dated (st : State) (s : ThinkingSession) : Prop :=
  exists i j,
    i <= j /\ j < clock_pos st /\
    s_createdAt s = clock_src st i /\ s_updatedAt s = clock_src st j /\
    Forall (fun t => exists n, i <= n <= j /\ t_timestamp t = clock_src st n)
      (s_thoughts s).

(** A session of the Next.js route handler, completed with a final
    conclusion. *)
Definition st_approute_done : State :=
  approute_exec (CallCompleteThinkingSession "s" (Some "Done")) st_approute.

(* ------------------------------------------------------------------ *)
(** ** Facts about the store *)

Local Open Scope list_scope.

Lemma map_get_set_same k v m : map_get k (map_set k v m) = Some v.
Proof.
  induction m as [|[k' v'] m IH]; simpl.
  - now rewrite String.eqb_refl.
  - destruct (String.eqb k' k) eqn:E; simpl.
    + now rewrite String.eqb_refl.
    + now rewrite E.
Qed.

Lemma map_get_set_other k k' v m :
  k <> k' -> map_get k' (map_set k v m) = map_get k' m.
Proof.
  intros Hne. induction m as [|[k0 v0] m IH]; simpl.
  - destruct (String.eqb k k') eqn:E; [apply String.eqb_eq in E; contradiction | reflexivity].
  - destruct (String.eqb k0 k) eqn:E; simpl.
    + apply String.eqb_eq in E; subst k0.
      destruct (String.eqb k k') eqn:E'; [apply String.eqb_eq in E'; contradiction | reflexivity].
    + destruct (String.eqb k0 k'); [reflexivity | exact IH].
Qed.

Lemma map_set_same_value k v m : map_get k m = Some v -> map_set k v m = m.
Proof.
  induction m as [|[k' v'] m IH]; simpl; [discriminate|].
  destruct (String.eqb k' k) eqn:E.
  - intros [= ->]. apply String.eqb_eq in E. now subst.
  - intros H. now rewrite IH.
Qed.

Lemma map_get_In k v m : map_get k m = Some v -> In (k, v) m.
Proof.
  induction m as [|[k' v'] m IH]; simpl; [discriminate|].
  destruct (String.eqb k' k) eqn:E.
  - intros [= ->]. apply String.eqb_eq in E. subst. now left.
  - intros H. right. now apply IH.
Qed.

Lemma In_map_set e k v m : In e (map_set k v m) -> e = (k, v) \/ In e m.
Proof.
  induction m as [|[k' v'] m IH]; simpl.
  - intros [H|[]]. now left.
  - destruct (String.eqb k' k); simpl.
    + intros [H|H]; [now left | right; now right].
    + intros [H|H]; [right; now left|].
      destruct (IH H) as [H'|H']; [now left | right; now right].
Qed.

Lemma Forall_map_set (P : string * ThinkingSession -> Prop) k v m :
  Forall P m -> P (k, v) -> Forall P (map_set k v m).
Proof.
  intros Hm Hv. apply Forall_forall. intros e He.
  destruct (In_map_set _ _ _ _ He) as [->|Hin]; [exact Hv|].
  rewrite Forall_forall in Hm. now apply Hm.
Qed.

Lemma state_eta st :
  mkState (uuid_src st) (uuid_pos st) (clock_src st) (clock_pos st) (sessions st) = st.
Proof. now destruct st. Qed.

Lemma set_thoughts_same s : set_thoughts (s_thoughts s) s = s.
Proof. now destruct s. Qed.

Lemma onBranch_app b l l' : onBranch b (l ++ l') = onBranch b l ++ onBranch b l'.
Proof. apply filter_app. Qed.

Lemma onBranch_snoc_same b l t :
  t_branchId t = b -> onBranch b (l ++ [t]) = onBranch b l ++ [t].
Proof.
  intros H. rewrite onBranch_app. simpl. now rewrite H, String.eqb_refl.
Qed.

(** Monadic code is run by unfolding the combinators. *)
Ltac run :=
  unfold bind, ret, store, getSessions, setSessions, uuidv4, newDate; simpl.

(* ------------------------------------------------------------------ *)
(** ** Branch switch *)

Lemma find_name_of_exists name (l : list ThinkingBranch) :
  (exists b, In b l /\ b_name b = name) ->
  exists b, find (fun b => String.eqb (b_name b) name) l = Some b.
Proof.
  intros [b [Hin Hn]].
  destruct (find (fun b => String.eqb (b_name b) name) l) as [b'|] eqn:E.
  - now exists b'.
  - pose proof (find_none _ _ E b Hin) as H. simpl in H.
    rewrite Hn, String.eqb_refl in H. discriminate.
Qed.

Lemma find_name_none name (l : list ThinkingBranch) :
  (forall b, In b l -> b_name b <> name) ->
  find (fun b => String.eqb (b_name b) name) l = None.
Proof.
  intros H.
  destruct (find (fun b => String.eqb (b_name b) name) l) as [b|] eqn:E;
    [|reflexivity].
  apply find_some in E. destruct E as [Hin Hn].
  apply String.eqb_eq in Hn. now apply H in Hin.
Qed.

Lemma switchBranch_found st sid name s b :
  map_get sid (sessions st) = Some s ->
  find (fun b => String.eqb (b_name b) name) (s_branches s) = Some b ->
  switchBranch sid name st =
    (true,
     mkState (uuid_src st) (uuid_pos st) (clock_src st) (S (clock_pos st))
       (map_set sid
          (set_updatedAt (clock_src st (clock_pos st))
             (set_activeBranchId (b_id b) s))
          (sessions st))).
Proof.
  intros Hs Hb. unfold switchBranch. run. rewrite Hs, Hb. reflexivity.
Qed.

(** C6.  [switchBranch] on a session that has a branch with exactly the
    target name makes such a branch the active one, sets [updatedAt] to
    the current time and returns [true], leaving every other session as it
    was; when the session does not exist, or has no branch of that name,
    it returns [false] and the whole state (the session's
    [activeBranchId] included) is what it was. *)
Theorem switchBranch_sets_active_or_fails (st : State) (sid name : string) :
  (forall s,
      map_get sid (sessions st) = Some s ->
      (exists b, In b (s_branches s) /\ b_name b = name) ->
      exists b,
        In b (s_branches s) /\ b_name b = name /\
        fst (switchBranch sid name st) = true /\
        map_get sid (sessions (snd (switchBranch sid name st))) =
          Some (set_updatedAt (clock_src st (clock_pos st))
                  (set_activeBranchId (b_id b) s)) /\
        forall k, k <> sid ->
          map_get k (sessions (snd (switchBranch sid name st))) =
            map_get k (sessions st))
  /\
  ((map_get sid (sessions st) = None \/
    exists s, map_get sid (sessions st) = Some s /\
              forall b, In b (s_branches s) -> b_name b <> name) ->
   switchBranch sid name st = (false, st)).
Proof.
  split.
  - intros s Hs Hex.
    destruct (find_name_of_exists name _ Hex) as [b Hb].
    pose proof (find_some _ _ Hb) as [Hin Hn]. simpl in Hn.
    apply String.eqb_eq in Hn.
    exists b. rewrite (switchBranch_found st sid name s b Hs Hb). simpl.
    repeat split; auto.
    + apply map_get_set_same.
    + intros k Hk. apply map_get_set_other. congruence.
  - intros [Hnone | [s [Hs Hno]]]; unfold switchBranch; run.
    + now rewrite Hnone.
    + rewrite Hs, (find_name_none name _ Hno). reflexivity.
Qed.

(* ------------------------------------------------------------------ *)
(** ** Thought classification *)

Lemma inferThoughtType_classify text : inferThoughtType text = classify text.
Proof.
  unfold inferThoughtType, classify, classificationRules, ruleMatches. simpl.
  set (lower := toLowerCase text).
  repeat rewrite orb_false_r. repeat rewrite orb_assoc.
  repeat
    match goal with
    | |- (if ?c then _ else _) = _ => destruct c; simpl; try reflexivity
    end.
Qed.

(* ------------------------------------------------------------------ *)
(** ** Resolving the session *)

Lemma getOrCreateSession_existing st sid problem k s :
  given sid = Some k ->
  map_get k (sessions st) = Some s ->
  getOrCreateSession sid problem st = ((k, s), st).
Proof.
  intros Hk Hs. unfold getOrCreateSession. run. rewrite Hk, Hs. reflexivity.
Qed.

(** What [getOrCreateSession] hands back is held in the map under the
    returned key; it is either a session that was there, or a new one with
    no thought and the single branch [main], active. *)
Lemma getOrCreateSession_shape st sid problem :
  let out := getOrCreateSession sid problem st in
  let k := fst (fst out) in
  let s := snd (fst out) in
  let st1 := snd out in
  map_get k (sessions st1) = Some s /\
  uuid_src st1 = uuid_src st /\ clock_src st1 = clock_src st /\
  uuid_pos st <= uuid_pos st1 /\ clock_pos st <= clock_pos st1 /\
  (forall k', k' <> k -> map_get k' (sessions st1) = map_get k' (sessions st)) /\
  ((given sid = Some k /\ map_get k (sessions st) = Some s /\ st1 = st)
   \/
   ((given sid = Some k /\ map_get k (sessions st) = None
     \/ given sid = None) /\
    s_id s = k /\ s_thoughts s = [] /\ s_status s = active /\
    sessions st1 = map_set k s (sessions st) /\
    exists b j,
      s_branches s = [b] /\ s_activeBranchId s = b_id b /\
      b_name b = DEFAULT_BRANCH_NAME /\
      b_id b = uuid_src st j /\ uuid_pos st <= j < uuid_pos st1)).
Proof.
  unfold getOrCreateSession. run.
  destruct (given sid) as [k|] eqn:Hk; simpl.
  - destruct (map_get k (sessions st)) as [s|] eqn:Hs; simpl.
    + repeat split; auto. 
    + repeat split; auto; try lia.
      * apply map_get_set_same.
      * intros k' Hk'. apply map_get_set_other. congruence.
      * right. repeat split; auto.
        eexists. exists (uuid_pos st). repeat split; simpl; auto; lia.
  - repeat split; auto; try lia.
    + apply map_get_set_same.
    + intros k' Hk'. apply map_get_set_other. congruence.
    + right. repeat split; auto.
      eexists. exists (S (uuid_pos st)). repeat split; simpl; auto; lia.
Qed.

(* ------------------------------------------------------------------ *)
(** ** Appending a thought *)

Lemma addThought_unfold input st :
  addThought input st =
    let out1 := getOrCreateSession (i_sessionId input) (Some (i_thought input)) st in
    let out2 := addThoughtTo input (snd (fst out1)) (snd out1) in
    (fst (fst out2),
     mkState (uuid_src (snd out2)) (uuid_pos (snd out2)) (clock_src (snd out2))
       (clock_pos (snd out2))
       (map_set (fst (fst out1)) (snd (fst out2)) (sessions (snd out2)))).
Proof.
  unfold addThought, bind at 1.
  destruct (getOrCreateSession _ _ st) as [[k s] st1]. simpl.
  unfold bind at 1.
  destruct (addThoughtTo input s st1) as [[r s'] st2]. simpl.
  reflexivity.
Qed.

(** The branch a call lands on: a new branch when the call creates one,
    else the supplied [branchId], else the active branch. *)
Lemma addThoughtTo_shape input s st :
  let out := addThoughtTo input s st in
  let r := fst (fst out) in
  let s' := snd (fst out) in
  let st' := snd out in
  exists t news,
    s_thoughts s' = s_thoughts s ++ [t] /\
    s_branches s' = s_branches s ++ news /\
    s_status s' = s_status s /\ s_id s' = s_id s /\
    s_createdAt s' = s_createdAt s /\
    sessions st' = sessions st /\
    uuid_src st' = uuid_src st /\ clock_src st' = clock_src st /\
    uuid_pos st < uuid_pos st' /\ clock_pos st < clock_pos st' /\
    (exists j, clock_pos st <= j < clock_pos st' /\
               t_timestamp t = clock_src st j) /\
    t_stepNumber t = length (onBranch (t_branchId t) (s_thoughts s)) + 1 /\
    t_thought t = i_thought input /\
    t_thoughtType t = match i_thoughtType input with
                      | Some ty => ty
                      | None => inferThoughtType (i_thought input)
                      end /\
    r_stepNumber r = t_stepNumber t /\
    r_thoughtType r = t_thoughtType t /\
    r_totalSteps r = length (s_thoughts s) + 1 /\
    r_branchCount r = length (s_branches s') /\
    match given (i_newBranchName input) with
    | Some name =>
        exists b,
          news = [b] /\ b_name b = name /\
          b_id b = uuid_src st (uuid_pos st) /\
          s_activeBranchId s' = b_id b /\ t_branchId t = b_id b
    | None =>
        news = [] /\ s_activeBranchId s' = s_activeBranchId s /\
        t_branchId t = match given (i_branchId input) with
                       | Some b => b
                       | None => s_activeBranchId s
                       end
    end.
Proof.
  unfold addThoughtTo.
  destruct (given (i_newBranchName input)) as [name|] eqn:Hn; run;
    match goal with
    | |- context [if ?c then _ else _] => destruct c
    end; simpl;
    eexists; eexists; repeat split; simpl;
    try reflexivity; try lia;
    try (eexists; split; [|reflexivity]; lia);
    try (rewrite length_app; simpl; reflexivity).
  all: try (rewrite app_nil_r; reflexivity).
  all: try (eexists; repeat split; reflexivity).
Qed.

(* ------------------------------------------------------------------ *)
(** ** Step numbers on one branch *)

(** A call without branch directive appends one thought to the active
    branch of its session, numbered one more than the branch held. *)
Lemma addThought_on_active_branch sid input st :
  onSession sid input ->
  noBranchDirective input ->
  exists t,
    activeThoughts sid (snd (addThought input st))
      = activeThoughts sid st ++ [t] /\
    t_stepNumber t = length (activeThoughts sid st) + 1 /\
    r_stepNumber (fst (addThought input st)) = length (activeThoughts sid st) + 1.
Proof.
  intros Hsid [Hb Hn]. unfold onSession in Hsid.
  rewrite addThought_unfold.
  pose proof (getOrCreateSession_shape st (i_sessionId input) (Some (i_thought input))) as H1.
  cbv zeta in H1 |- *.
  destruct (getOrCreateSession (i_sessionId input) (Some (i_thought input)) st)
    as [[k s] st1]. simpl in H1 |- *.
  pose proof (addThoughtTo_shape input s st1) as H2. cbv zeta in H2.
  destruct (addThoughtTo input s st1) as [[r s'] st2]. simpl in H2 |- *.
  destruct H2 as (t & news & Hth & _ & _ & _ & _ & _ & _ & _ & _ & _ & _ & Hstep & _ & _
                  & Hr & _ & _ & _ & Hcase).
  rewrite Hn, Hb in Hcase. destruct Hcase as (_ & Hact & Hbr).
  destruct H1 as (_ & _ & _ & _ & _ & _ & Hkind).
  assert (Hk : k = sid).
  { destruct Hkind as [(Hg & _) | ([(Hg & _) | Hg] & _)]; congruence. }
  subst k.
  assert (Hold : activeThoughts sid st = onBranch (s_activeBranchId s) (s_thoughts s)).
  { unfold activeThoughts.
    destruct Hkind as [(_ & Hs & _) | ([(_ & Hs) | Hg] & _ & Hnil & _)].
    - now rewrite Hs.
    - rewrite Hs, Hnil. reflexivity.
    - congruence. }
  exists t. unfold activeThoughts at 1. simpl.
  rewrite map_get_set_same, Hact, Hth, Hold.
  rewrite Hbr in Hstep.
  repeat split.
  - now apply onBranch_snoc_same.
  - exact Hstep.
  - now rewrite Hr.
Qed.

Lemma addThoughts_cons input rest st :
  addThoughts (input :: rest) st =
    (fst (addThought input st) :: fst (addThoughts rest (snd (addThought input st))),
     snd (addThoughts rest (snd (addThought input st)))).
Proof.
  simpl. unfold bind, ret.
  destruct (addThought input st) as [r st1]. simpl.
  destruct (addThoughts rest st1) as [rs st2]. reflexivity.
Qed.

Lemma addThoughts_on_active_branch sid inputs : forall st,
  Forall (onSession sid) inputs ->
  Forall noBranchDirective inputs ->
  map r_stepNumber (fst (addThoughts inputs st))
    = seq (length (activeThoughts sid st) + 1) (length inputs) /\
  map t_stepNumber (activeThoughts sid (snd (addThoughts inputs st)))
    = map t_stepNumber (activeThoughts sid st)
      ++ seq (length (activeThoughts sid st) + 1) (length inputs).
Proof.
  induction inputs as [|input rest IH]; intros st Hs Hn.
  - simpl. rewrite app_nil_r. now split.
  - inversion Hs as [|? ? Hs1 Hs2]; subst. inversion Hn as [|? ? Hn1 Hn2]; subst.
    rewrite addThoughts_cons. cbn [fst snd map length seq].
    destruct (addThought_on_active_branch sid input st Hs1 Hn1) as (t & Hact & Ht & Hr).
    destruct (IH (snd (addThought input st)) Hs2 Hn2) as [IH1 IH2].
    rewrite IH1, IH2, Hact, Hr. rewrite length_app, map_app. simpl. rewrite Ht.
    replace (length (activeThoughts sid st) + 1 + 1)
      with (S (length (activeThoughts sid st) + 1)) by lia.
    split; [reflexivity | now rewrite <- app_assoc].
Qed.

(** C1.  For a run of [N] calls of [addThought] on one session, none of
    which carries a branch directive: the step number each call returns is
    the number of thoughts then on the active branch plus one, so the
    calls return [k+1], ..., [k+N] where the branch held [k] thoughts, the
    step numbers on the branch are the earlier ones followed by
    [k+1], ..., [k+N], and on a branch that held no thought they are
    [1], ..., [N] in order. *)
Theorem stepNumber_sequence (sid : string) (inputs : list AddThoughtInput)
    (st : State) :
  Forall (onSession sid) inputs ->
  Forall noBranchDirective inputs ->
  let k := length (activeThoughts sid st) in
  let N := length inputs in
  (forall input, onSession sid input -> noBranchDirective input ->
     r_stepNumber (fst (addThought input st)) = k + 1) /\
  map r_stepNumber (fst (addThoughts inputs st)) = seq (k + 1) N /\
  map t_stepNumber (activeThoughts sid (snd (addThoughts inputs st)))
    = map t_stepNumber (activeThoughts sid st) ++ seq (k + 1) N /\
  (activeThoughts sid st = [] ->
   map t_stepNumber (activeThoughts sid (snd (addThoughts inputs st))) = seq 1 N).
Proof.
  intros Hs Hn k N.
  destruct (addThoughts_on_active_branch sid inputs st Hs Hn) as [H1 H2].
  repeat split.
  - intros input Hi Hd.
    destruct (addThought_on_active_branch sid input st Hi Hd) as (_ & _ & _ & Hr).
    exact Hr.
  - exact H1.
  - exact H2.
  - intros Hnil. rewrite H2. subst k. rewrite Hnil. reflexivity.
Qed.

Lemma stepNumber_sequence_witness :
  map t_stepNumber (activeThoughts "s" (snd (addThoughts three_plain st0)))
    = [1; 2; 3].
Proof.
  refine (proj2 (proj2 (proj2 (stepNumber_sequence "s" three_plain st0 _ _))) _).
  - repeat (apply Forall_cons; [reflexivity|]). apply Forall_nil.
  - repeat (apply Forall_cons; [split; reflexivity|]). apply Forall_nil.
  - reflexivity.
Defined.

(* ------------------------------------------------------------------ *)
(** ** A supplied [branchId] *)

(** C2, as the code has it.  A call that supplies a [branchId] and no
    [newBranchName] puts the appended thought on the supplied branch,
    numbered by that branch's count, whether or not the session has such
    a branch; the session's [activeBranchId] and its branches stay what
    they were. *)
Theorem addThought_branchId_routes_thought (st : State)
    (input : AddThoughtInput) (b : string) :
  given (i_branchId input) = Some b ->
  given (i_newBranchName input) = None ->
  let resolved :=
    getOrCreateSession (i_sessionId input) (Some (i_thought input)) st in
  let k := fst (fst resolved) in
  let s := snd (fst resolved) in
  exists s' t,
    map_get k (sessions (snd (addThought input st))) = Some s' /\
    s_thoughts s' = s_thoughts s ++ [t] /\
    t_branchId t = b /\
    t_stepNumber t = length (onBranch b (s_thoughts s)) + 1 /\
    r_stepNumber (fst (addThought input st)) = t_stepNumber t /\
    s_branches s' = s_branches s /\
    s_activeBranchId s' = s_activeBranchId s.
Proof.
  intros Hb Hn. cbv zeta. rewrite addThought_unfold. cbv zeta.
  destruct (getOrCreateSession (i_sessionId input) (Some (i_thought input)) st)
    as [[k s] st1]. simpl.
  pose proof (addThoughtTo_shape input s st1) as H2. cbv zeta in H2.
  destruct (addThoughtTo input s st1) as [[r s'] st2]. simpl in H2 |- *.
  destruct H2 as (t & news & Hth & Hbrs & _ & _ & _ & _ & _ & _ & _ & _ & _ & Hstep
                  & _ & _ & Hr & _ & _ & _ & Hcase).
  rewrite Hn, Hb in Hcase. destruct Hcase as (Hnews & Hact & Hbr).
  exists s', t. rewrite map_get_set_same. rewrite Hbr in Hstep.
  subst news. rewrite app_nil_r in Hbrs.
  repeat split; auto.
Qed.

Lemma addThought_branchId_routes_thought_witness :
  exists s' t,
    map_get "s" (sessions (snd (addThought (toBranch "s" "third" "xxb") st_forked)))
      = Some s' /\
    s_thoughts s' =
      s_thoughts
        (snd (fst (getOrCreateSession (Some "s") (Some "third") st_forked)))
      ++ [t] /\
    t_branchId t = "xxb" /\
    t_stepNumber t = 2 /\
    s_activeBranchId s' = "b".
Proof.
  destruct (addThought_branchId_routes_thought st_forked
              (toBranch "s" "third" "xxb") "xxb" eq_refl eq_refl)
    as (s' & t & H1 & H2 & H3 & H4 & _ & _ & H6).
  exists s', t. repeat split; assumption.
Defined.

(** C2, as stated, fails: on a session whose active branch is [main]
    (id ["b"]) and which has the branch [alt] (id ["xxb"]), a call
    with [branchId = "xxb"] and no [newBranchName] leaves
    [activeBranchId] at ["b"]. *)
Lemma addThought_branchId_keeps_activeBranchId :
  given (i_branchId (toBranch "s" "third" "xxb")) = Some "xxb" /\
  given (i_newBranchName (toBranch "s" "third" "xxb")) = None /\
  option_map (fun s => map b_id (s_branches s)) (map_get "s" (sessions st_forked))
    = Some ["b"; "xxb"] /\
  option_map s_activeBranchId
    (map_get "s" (sessions (snd (addThought (toBranch "s" "third" "xxb") st_forked))))
    = Some "b" /\
  option_map s_activeBranchId
    (map_get "s" (sessions (snd (addThought (toBranch "s" "third" "xxb") st_forked))))
    <> Some "xxb".
Proof.
  repeat split; try reflexivity.
  vm_compute. discriminate.
Qed.

(* ------------------------------------------------------------------ *)
(** ** The active branch is a branch of the session *)

Lemma allSessions_get P st k s :
  allSessions P st -> map_get k (sessions st) = Some s -> P s.
Proof.
  unfold allSessions. intros H Hg. apply map_get_In in Hg.
  rewrite Forall_forall in H. exact (H _ Hg).
Qed.

Lemma activeBranchPresent_after_addThoughtTo input s st :
  activeBranchPresent s ->
  activeBranchPresent (snd (fst (addThoughtTo input s st))).
Proof.
  intros [b0 [Hin0 Hid0]].
  pose proof (addThoughtTo_shape input s st) as H. cbv zeta in H.
  destruct (addThoughtTo input s st) as [[r s'] st']. simpl in H |- *.
  destruct H as (t & news & _ & Hbrs & _ & _ & _ & _ & _ & _ & _ & _ & _ & _ & _ & _
                 & _ & _ & _ & _ & Hcase).
  unfold activeBranchPresent. rewrite Hbrs.
  destruct (given (i_newBranchName input)).
  - destruct Hcase as (b & -> & _ & _ & Hact & _).
    exists b. split; [apply in_or_app; right; now left | now rewrite Hact].
  - destruct Hcase as (_ & Hact & _).
    exists b0. split; [apply in_or_app; now left | congruence].
Qed.

Lemma activeBranchPresent_getOrCreateSession sid problem st :
  allSessions activeBranchPresent st ->
  allSessions activeBranchPresent (snd (getOrCreateSession sid problem st)) /\
  activeBranchPresent (snd (fst (getOrCreateSession sid problem st))).
Proof.
  intros Hinv.
  pose proof (getOrCreateSession_shape st sid problem) as H. cbv zeta in H.
  destruct (getOrCreateSession sid problem st) as [[k s] st1]. simpl in H |- *.
  destruct H as (Hget & _ & _ & _ & _ & _ & Hkind).
  destruct Hkind as [(_ & Hs & ->) | (_ & _ & _ & _ & Hss & b & j & Hb & Ha & _)].
  - split; [exact Hinv | exact (allSessions_get _ _ _ _ Hinv Hs)].
  - assert (Hp : activeBranchPresent s).
    { exists b. rewrite Hb. split; [now left | now rewrite Ha]. }
    split; [|exact Hp].
    unfold allSessions. rewrite Hss. now apply Forall_map_set.
Qed.

Lemma exec_preserves_activeBranchPresent op st :
  allSessions activeBranchPresent st ->
  allSessions activeBranchPresent (exec op st).
Proof.
  intros Hinv. destruct op as [sid p|input|sid name from|sid|sid x|sid| |sid name];
    simpl.
  - now apply activeBranchPresent_getOrCreateSession.
  - rewrite addThought_unfold. cbv zeta. simpl.
    destruct (activeBranchPresent_getOrCreateSession (i_sessionId input)
                (Some (i_thought input)) st Hinv) as [H1 H2].
    destruct (getOrCreateSession (i_sessionId input) (Some (i_thought input)) st)
      as [[k s] st1]. simpl in *.
    pose proof (activeBranchPresent_after_addThoughtTo input s st1 H2) as H3.
    pose proof (addThoughtTo_shape input s st1) as H4. cbv zeta in H4.
    destruct (addThoughtTo input s st1) as [[r s'] st2]. simpl in *.
    destruct H4 as (t & news & _ & _ & _ & _ & _ & Hss & _).
    unfold allSessions. simpl. rewrite Hss. now apply Forall_map_set.
  - unfold createBranchIn. run.
    destruct (map_get sid (sessions st)) as [s|] eqn:Hs; simpl; [|exact Hinv].
    unfold allSessions. simpl. apply Forall_map_set; [exact Hinv|]. simpl.
    destruct (allSessions_get _ _ _ _ Hinv Hs) as [b [Hin Hid]].
    exists b. simpl. split; [apply in_or_app; now left | exact Hid].
  - unfold getSummary. run.
    destruct (map_get sid (sessions st)) as [s|] eqn:Hs; simpl; [|exact Hinv].
    unfold allSessions. simpl. apply Forall_map_set; [exact Hinv|].
    exact (allSessions_get _ _ _ _ Hinv Hs).
  - unfold updateSessionStatus. run.
    destruct (map_get sid (sessions st)) as [s|] eqn:Hs; simpl; [|exact Hinv].
    unfold allSessions. simpl. apply Forall_map_set; [exact Hinv|].
    exact (allSessions_get _ _ _ _ Hinv Hs).
  - exact Hinv.
  - exact Hinv.
  - unfold switchBranch. run.
    destruct (map_get sid (sessions st)) as [s|] eqn:Hs; simpl; [|exact Hinv].
    destruct (find _ (s_branches s)) as [b|] eqn:Hb; simpl; [|exact Hinv].
    unfold allSessions. simpl. apply Forall_map_set; [exact Hinv|]. simpl.
    apply find_some in Hb. exists b. simpl. now split.
Qed.

(** C3.  In every state the store reaches through the manager's
    operations, whatever the calls and their arguments (a call of
    [addThought] with any [branchId] included), [activeBranchId] of every
    session is the id of one of the session's branches; hence every
    operation, run in a reachable state, leaves it so. *)
Theorem activeBranchId_references_a_branch (st : State) :
  reachable st ->
  forall k s, map_get k (sessions st) = Some s -> activeBranchPresent s.
Proof.
  intros Hr. 
  assert (Hinv : allSessions activeBranchPresent st).
  { induction Hr as [us up cs cp | st op Hr IH].
    - constructor.
    - now apply exec_preserves_activeBranchPresent. }
  intros k s Hs. exact (allSessions_get _ _ _ _ Hinv Hs).
Qed.

Lemma reachable_st_ghost : reachable st_ghost.
Proof. unfold st_ghost, st0. apply reachable_step. apply reachable_init. Qed.

Lemma activeBranchId_references_a_branch_witness :
  exists s, map_get "s" (sessions st_ghost) = Some s /\ activeBranchPresent s.
Proof.
  eexists. split.
  - vm_compute. reflexivity.
  - apply (activeBranchId_references_a_branch st_ghost reachable_st_ghost "s").
    vm_compute. reflexivity.
Defined.

(* ------------------------------------------------------------------ *)
(** ** Completion with a final conclusion (route handlers) *)

Lemma singleBranch_count s :
  singleBranch s ->
  length (onBranch (s_activeBranchId s) (s_thoughts s)) = length (s_thoughts s).
Proof.
  intros (b & _ & Ha & Hall). rewrite Ha. unfold onBranch.
  induction Hall as [|t l Ht Hl IH]; simpl; [reflexivity|].
  rewrite Ht, String.eqb_refl. simpl. now rewrite IH.
Qed.

Lemma singleBranch_snoc s s' t :
  singleBranch s ->
  s_thoughts s' = s_thoughts s ++ [t] ->
  t_branchId t = s_activeBranchId s ->
  s_branches s' = s_branches s ->
  s_activeBranchId s' = s_activeBranchId s ->
  singleBranch s'.
Proof.
  intros (b & Hb & Ha & Hall) Hft Ht Hfb Hfa. exists b.
  rewrite Hfb, Hfa, Hft. repeat split; auto.
  apply Forall_app. split; [exact Hall|]. constructor; [congruence | constructor].
Qed.

Lemma singleBranch_same s s' :
  singleBranch s ->
  s_branches s' = s_branches s ->
  s_activeBranchId s' = s_activeBranchId s ->
  s_thoughts s' = s_thoughts s ->
  singleBranch s'.
Proof.
  intros (b & Hb & Ha & Hall) Hfb Hfa Hft. exists b.
  rewrite Hfb, Hfa, Hft. now repeat split.
Qed.

Lemma singleBranch_switch s b' name :
  singleBranch s ->
  find (fun b => String.eqb (b_name b) name) (s_branches s) = Some b' ->
  b_id b' = s_activeBranchId s.
Proof.
  intros (b & Hb & Ha & _) Hf. apply find_some in Hf. destruct Hf as [Hin _].
  rewrite Hb in Hin. destruct Hin as [<-|[]]. now rewrite Ha.
Qed.

(** The two route handlers differ in texts and in [updatedAt] only; one
    script proves the invariant for both. *)
Ltac single_branch_get_or_create Hinv :=
  run;
  match goal with
  | |- context [given ?sid] => destruct (given sid); simpl
  end;
  try match goal with
    | |- context [map_get ?k (sessions ?st)] =>
        let Hs := fresh "Hs" in
        destruct (map_get k (sessions st)) eqn:Hs; simpl;
        [ split; [exact Hinv | exact (allSessions_get _ _ _ _ Hinv Hs)] | ]
    end;
  (split;
   [ unfold allSessions; simpl; apply Forall_map_set; [exact Hinv|]; simpl | ];
   eexists; simpl; repeat split; constructor).

Lemma route_getOrCreateSession_single sid problem st :
  allSessions singleBranch st ->
  allSessions singleBranch (snd (Route.getOrCreateSession sid problem st)) /\
  singleBranch (snd (fst (Route.getOrCreateSession sid problem st))).
Proof.
  intros Hinv. unfold Route.getOrCreateSession. single_branch_get_or_create Hinv.
Qed.

Lemma approute_getOrCreateSession_single sid problem st :
  allSessions singleBranch st ->
  allSessions singleBranch (snd (AppRoute.getOrCreateSession sid problem st)) /\
  singleBranch (snd (fst (AppRoute.getOrCreateSession sid problem st))).
Proof.
  intros Hinv. unfold AppRoute.getOrCreateSession. single_branch_get_or_create Hinv.
Qed.

(** The cases of a tool call that find the session, or fail. *)
Ltac single_branch_lookup Hinv sid st :=
  run;
  let s := fresh "s" in
  let Hs := fresh "Hs" in
  let Hsb := fresh "Hsb" in
  destruct (map_get sid (sessions st)) as [s|] eqn:Hs; simpl; [|exact Hinv];
  pose proof (allSessions_get _ _ _ _ Hinv Hs) as Hsb.

Ltac single_branch_stored Hinv :=
  unfold allSessions; simpl; apply Forall_map_set; [exact Hinv|]; simpl.

Lemma route_exec_single c st :
  allSessions singleBranch st -> allSessions singleBranch (route_exec c st).
Proof.
  intros Hinv. destruct c as [args|sid| |sid name|sid text]; simpl.
  - unfold Route.sequential_thinking. unfold bind at 1.
    destruct (route_getOrCreateSession_single (a_sessionId args)
                (Some (a_thought args)) st Hinv) as [H1 H2].
    destruct (Route.getOrCreateSession (a_sessionId args) (Some (a_thought args)) st)
      as [[k s] st1].
    simpl in *. run. single_branch_stored H1.
    eapply singleBranch_snoc; [exact H2 | | | | ]; reflexivity.
  - unfold Route.get_thinking_summary. single_branch_lookup Hinv sid st. exact Hinv.
  - exact Hinv.
  - unfold Route.switch_thinking_branch. single_branch_lookup Hinv sid st.
    destruct (find _ (s_branches s)) as [b|] eqn:Hb; simpl; [|exact Hinv].
    single_branch_stored Hinv.
    pose proof (singleBranch_switch _ _ _ Hsb Hb).
    eapply singleBranch_same; [exact Hsb | | | ]; simpl; auto.
  - unfold Route.complete_thinking_session. single_branch_lookup Hinv sid st.
    destruct (given text); simpl; single_branch_stored Hinv.
    + eapply singleBranch_snoc; [exact Hsb | | | | ]; reflexivity.
    + eapply singleBranch_same; [exact Hsb | | | ]; reflexivity.
Qed.

Lemma approute_exec_single c st :
  allSessions singleBranch st -> allSessions singleBranch (approute_exec c st).
Proof.
  intros Hinv. destruct c as [args|sid| |sid name|sid text]; simpl.
  - unfold AppRoute.sequential_thinking. unfold bind at 1.
    destruct (approute_getOrCreateSession_single (a_sessionId args)
                (Some (a_thought args)) st Hinv) as [H1 H2].
    destruct (AppRoute.getOrCreateSession (a_sessionId args) (Some (a_thought args)) st)
      as [[k s] st1].
    simpl in *. run. single_branch_stored H1.
    eapply singleBranch_snoc; [exact H2 | | | | ]; reflexivity.
  - unfold AppRoute.get_thinking_summary. single_branch_lookup Hinv sid st. exact Hinv.
  - exact Hinv.
  - unfold AppRoute.switch_thinking_branch. single_branch_lookup Hinv sid st.
    destruct (find _ (s_branches s)) as [b|] eqn:Hb; simpl; [|exact Hinv].
    single_branch_stored Hinv.
    pose proof (singleBranch_switch _ _ _ Hsb Hb).
    eapply singleBranch_same; [exact Hsb | | | ]; simpl; auto.
  - unfold AppRoute.complete_thinking_session. single_branch_lookup Hinv sid st.
    destruct (given text); simpl; single_branch_stored Hinv.
    + eapply singleBranch_snoc; [exact Hsb | | | | ]; reflexivity.
    + eapply singleBranch_same; [exact Hsb | | | ]; reflexivity.
Qed.

Lemma reachableBy_invariant {O} (run : O -> State -> State) (P : State -> Prop) :
  (forall us up cs cp, P (mkState us up cs cp [])) ->
  (forall op st, P st -> P (run op st)) ->
  forall st, reachableBy run st -> P st.
Proof.
  intros Hinit Hstep st Hr. induction Hr; auto.
Qed.

Lemma route_completionAppends st :
  allSessions singleBranch st ->
  completionAppends Route.complete_thinking_session st.
Proof.
  intros Hinv sid s fc Hs. unfold Route.complete_thinking_session. run.
  rewrite Hs.
  pose proof (singleBranch_count s (allSessions_get _ _ _ _ Hinv Hs)) as Hc.
  destruct (given fc) as [text|]; simpl; eexists;
    (split; [apply map_get_set_same|]);
    (split; [intros k Hk; apply map_get_set_other; congruence|]).
  - eexists. repeat split. simpl. now rewrite Hc.
  - reflexivity.
Qed.

Lemma approute_completionAppends st :
  allSessions singleBranch st ->
  completionAppends AppRoute.complete_thinking_session st.
Proof.
  intros Hinv sid s fc Hs. unfold AppRoute.complete_thinking_session. run.
  rewrite Hs.
  pose proof (singleBranch_count s (allSessions_get _ _ _ _ Hinv Hs)) as Hc.
  destruct (given fc) as [text|]; simpl; eexists;
    (split; [apply map_get_set_same|]);
    (split; [intros k Hk; apply map_get_set_other; congruence|]).
  - eexists. repeat split. simpl. now rewrite Hc.
  - reflexivity.
Qed.

(** C4.  In every state the store of a route handler reaches, completing
    an existing session with a final conclusion text appends exactly one
    thought, of type [conclusion], on the active branch, numbered by the
    count of thoughts on that branch plus one, and sets the status to
    [completed]; completing it without a text (absent or empty) appends
    nothing and sets the status.  This holds of the handler of
    [api/[transport]/route.ts] and of the Next.js one. *)
Theorem complete_thinking_session_appends_conclusion :
  (forall st, reachableBy route_exec st ->
              completionAppends Route.complete_thinking_session st) /\
  (forall st, reachableBy approute_exec st ->
              completionAppends AppRoute.complete_thinking_session st).
Proof.
  split; intros st Hr.
  - apply route_completionAppends.
    apply (reachableBy_invariant route_exec (allSessions singleBranch));
      [intros; constructor | intros; now apply route_exec_single | exact Hr].
  - apply approute_completionAppends.
    apply (reachableBy_invariant approute_exec (allSessions singleBranch));
      [intros; constructor | intros; now apply approute_exec_single | exact Hr].
Qed.

Lemma reachable_st_route : reachableBy route_exec st_route.
Proof. unfold st_route, st0. do 2 apply reachable_step. apply reachable_init. Qed.

Lemma reachable_st_approute : reachableBy approute_exec st_approute.
Proof. unfold st_approute, st0. do 2 apply reachable_step. apply reachable_init. Qed.

(** The route handlers store the caller's [thoughtNumber]: the second
    thought of the sample session carries the number 7. *)
Example sequential_thinking_stores_thoughtNumber :
  option_map (fun s => map t_stepNumber (s_thoughts s))
    (map_get "s" (sessions st_route)) = Some [1; 7].
Proof. reflexivity. Qed.

Lemma complete_thinking_session_appends_conclusion_witness :
  match map_get "s" (sessions st_route), map_get "s" (sessions st_approute) with
  | Some s, Some s0 =>
      (exists s' t,
          map_get "s"
            (sessions (snd (Route.complete_thinking_session "s"
                              (Some "Therefore it is the cache") st_route)))
            = Some s' /\
          s_thoughts s' = s_thoughts s ++ [t] /\
          t_thoughtType t = conclusion /\ t_stepNumber t = 3 /\
          s_status s' = completed) /\
      (exists s',
          map_get "s"
            (sessions (snd (AppRoute.complete_thinking_session "s" None st_approute)))
            = Some s' /\
          s_thoughts s' = s_thoughts s0 /\ s_status s' = completed)
  | _, _ => False
  end.
Proof.
  destruct (map_get "s" (sessions st_route)) as [s|] eqn:Hs;
    [|vm_compute in Hs; discriminate].
  destruct (map_get "s" (sessions st_approute)) as [s0|] eqn:Hs0;
    [|vm_compute in Hs0; discriminate].
  split.
  - destruct (proj1 complete_thinking_session_appends_conclusion st_route
                reachable_st_route "s" s (Some "Therefore it is the cache") Hs)
      as (s' & Hs' & _ & t & Heq & _ & Hty & _ & Hstep).
    exists s', t. vm_compute in Hs. injection Hs as <-.
    repeat split; try assumption; rewrite Heq; reflexivity.
  - destruct (proj2 complete_thinking_session_appends_conclusion st_approute
                reachable_st_approute "s" s0 None Hs0)
      as (s' & Hs' & _ & Heq).
    exists s'. split; [exact Hs'|]. simpl in Heq. rewrite Heq. now split.
Defined.

(* ------------------------------------------------------------------ *)
(** ** Summary of a session built by a run of appends *)

Lemma length_insertByTime x l : length (insertByTime x l) = S (length l).
Proof.
  induction l as [|y l IH]; simpl; [reflexivity|].
  destruct (t_timestamp x <=? t_timestamp y)%Z; simpl; [reflexivity | now rewrite IH].
Qed.

Lemma length_sortByTime l : length (sortByTime l) = length l.
Proof.
  induction l as [|x l IH]; simpl; [reflexivity|].
  now rewrite length_insertByTime, IH.
Qed.

Lemma insertByTime_perm x l : Permutation (insertByTime x l) (x :: l).
Proof.
  induction l as [|y l IH]; simpl; [reflexivity|].
  destruct (t_timestamp x <=? t_timestamp y)%Z; [reflexivity|].
  rewrite IH. apply perm_swap.
Qed.

Lemma sortByTime_perm l : Permutation (sortByTime l) l.
Proof.
  induction l as [|x l IH]; simpl; [reflexivity|].
  rewrite insertByTime_perm. now constructor.
Qed.

Lemma list_sum_map_add {A} (f g : A -> nat) l :
  list_sum (map (fun a => f a + g a) l) = list_sum (map f l) + list_sum (map g l).
Proof. induction l as [|a l IH]; simpl; [reflexivity | rewrite IH; lia]. Qed.

Lemma list_sum_map_zero {A} (l : list A) : list_sum (map (fun _ => 0) l) = 0.
Proof. induction l as [|a l IH]; simpl; auto. Qed.

Lemma one_branch_matches x (bs : list ThinkingBranch) :
  NoDup (map b_id bs) ->
  In x (map b_id bs) ->
  list_sum (map (fun b => if String.eqb x (b_id b) then 1 else 0) bs) = 1.
Proof.
  induction bs as [|b bs IH]; simpl; intros Hnd Hin; [contradiction|].
  inversion Hnd as [|? ? Hnotin Hnd']; subst.
  destruct (String.eqb x (b_id b)) eqn:E.
  - apply String.eqb_eq in E. subst x.
    assert (Hz : forall l, ~ In (b_id b) (map b_id l) ->
              list_sum (map (fun b' => if String.eqb (b_id b) (b_id b') then 1 else 0) l) = 0).
    { induction l as [|b' l IHl]; simpl; intros Hn; [reflexivity|].
      destruct (String.eqb (b_id b) (b_id b')) eqn:E'.
      - apply String.eqb_eq in E'. exfalso. apply Hn. now left.
      - apply IHl. intros H. apply Hn. now right. }
    now rewrite (Hz bs Hnotin).
  - destruct Hin as [Heq|Hin].
    + subst x. now rewrite String.eqb_refl in E.
    + simpl. now apply IH.
Qed.

(** The per-branch counts partition the thoughts when the branch ids are
    pairwise distinct and every thought is on a branch of the session. *)
Lemma branch_counts_partition (ts : list ThoughtStep) (bs : list ThinkingBranch) :
  NoDup (map b_id bs) ->
  Forall (fun t => In (t_branchId t) (map b_id bs)) ts ->
  list_sum (map (fun b => length (onBranch (b_id b) ts)) bs) = length ts.
Proof.
  intros Hnd Hall. induction Hall as [|t ts Ht Hts IH]; simpl.
  - apply list_sum_map_zero.
  - rewrite <- IH.
    rewrite (map_ext (fun b => length (onBranch (b_id b) (t :: ts)))
               (fun b => (if String.eqb (t_branchId t) (b_id b) then 1 else 0)
                         + length (onBranch (b_id b) ts))).
    + rewrite list_sum_map_add, (one_branch_matches _ _ Hnd Ht). reflexivity.
    + intros b. simpl. destruct (String.eqb (t_branchId t) (b_id b)); reflexivity.
Qed.

(** What [getSummary] reports of a session. *)
Lemma getSummary_reports sid st s :
  map_get sid (sessions st) = Some s ->
  exists sm,
    fst (getSummary sid st) = Some sm /\
    sm_totalSteps sm = length (s_thoughts s) /\
    length (sm_branches sm) = length (s_branches s) /\
    stepCountSum sm
      = list_sum (map (fun b => length (onBranch (b_id b) (s_thoughts s)))
                    (s_branches s)).
Proof.
  intros Hs. unfold getSummary. run. rewrite Hs. simpl.
  eexists. split; [reflexivity|]. unfold stepCountSum. simpl.
  rewrite length_sortByTime, length_map, map_map. simpl. auto.
Qed.

Lemma wellBranched_addThoughtTo input s st n c :
  uuid_unique st ->
  wellBranched st s n c ->
  match given (i_newBranchName input), given (i_branchId input) with
  | None, Some b => In b (map b_id (s_branches s))
  | _, _ => True
  end ->
  wellBranched (snd (addThoughtTo input s st)) (snd (fst (addThoughtTo input s st)))
    (n + 1) (c + forks input).
Proof.
  intros Huniq (Hn & Hc & Hnd & Hon & Hold & Hact) Hknown.
  pose proof (addThoughtTo_shape input s st) as H. cbv zeta in H.
  destruct (addThoughtTo input s st) as [[r s'] st']. simpl in H |- *.
  destruct H as (t & news & Hth & Hbrs & _ & _ & _ & _ & Hus & _ & Hup & _ & _ & _
                 & _ & _ & _ & _ & _ & _ & Hcase).
  assert (Hold' : Forall (fun b => exists j, j < uuid_pos st' /\ b_id b = uuid_src st' j)
                    (s_branches s)).
  { eapply Forall_impl; [|exact Hold]. intros b (j & Hj & Hb).
    exists j. rewrite Hus. split; [lia | exact Hb]. }
  unfold wellBranched, activeBranchPresent, forks.
  rewrite Hth, Hbrs, length_app, length_app, map_app.
  destruct (given (i_newBranchName input)) as [name|].
  - destruct Hcase as (b & -> & _ & Hbid & Hact' & Htb). simpl.
    repeat split; try lia.
    + apply NoDup_app; [exact Hnd | repeat constructor; intros [] |].
      intros a Ha [Hab|[]]. subst a.
      apply in_map_iff in Ha. destruct Ha as (b' & Hb' & Hin').
      rewrite Forall_forall in Hold. destruct (Hold b' Hin') as (j & Hj & Hbj).
      assert (j = uuid_pos st) by (apply Huniq; congruence). lia.
    + apply Forall_app. split.
      * eapply Forall_impl; [|exact Hon]. intros t' Ht'. apply in_or_app. now left.
      * constructor; [|constructor]. apply in_or_app. right. rewrite Htb. now left.
    + apply Forall_app. split; [exact Hold'|]. constructor; [|constructor].
      exists (uuid_pos st). rewrite Hus. split; [lia | exact Hbid].
    + exists b. split; [apply in_or_app; right; now left | now rewrite Hact'].
  - destruct Hcase as (-> & Hact' & Htb). simpl. rewrite !app_nil_r.
    repeat split; try lia; auto.
    + apply Forall_app. split; [exact Hon|]. constructor; [|constructor].
      rewrite Htb. destruct (given (i_branchId input)); [exact Hknown|].
      destruct Hact as (b & Hin & Hid). rewrite <- Hid. now apply in_map.
    + destruct Hact as (b & Hin & Hid). exists b. split; [exact Hin | congruence].
Qed.

Lemma addThought_uuid_src input st :
  uuid_src (snd (addThought input st)) = uuid_src st.
Proof.
  rewrite addThought_unfold. cbv zeta. simpl.
  pose proof (getOrCreateSession_shape st (i_sessionId input) (Some (i_thought input))) as H1.
  cbv zeta in H1.
  destruct (getOrCreateSession (i_sessionId input) (Some (i_thought input)) st)
    as [[k s] st1]. simpl in *.
  pose proof (addThoughtTo_shape input s st1) as H2. cbv zeta in H2.
  destruct (addThoughtTo input s st1) as [[r s'] st2]. simpl in *.
  destruct H1 as (_ & Hu & _).
  destruct H2 as (t & news & _ & _ & _ & _ & _ & _ & Hu' & _).
  congruence.
Qed.

Lemma uuid_sample_length n : String.length (uuid_sample n) = S n.
Proof. induction n as [|n IH]; simpl; [reflexivity | now rewrite IH]. Qed.

Lemma uuid_unique_st0 : uuid_unique st0.
Proof.
  intros i j H. simpl in H.
  apply (f_equal String.length) in H. rewrite !uuid_sample_length in H. lia.
Qed.

Lemma getOrCreateSession_key sid problem st :
  fst (fst (getOrCreateSession sid problem st)) = keyOf sid st.
Proof.
  unfold keyOf, getOrCreateSession. run.
  destruct (given sid) as [k|]; simpl; [|reflexivity].
  now destruct (map_get k (sessions st)).
Qed.

Lemma wellBranched_later st st' s n c :
  uuid_src st' = uuid_src st ->
  uuid_pos st <= uuid_pos st' ->
  wellBranched st s n c -> wellBranched st' s n c.
Proof.
  intros Hsrc Hpos (Hn & Hc & Hnd & Hon & Hold & Hact). repeat split; auto.
  eapply Forall_impl; [|exact Hold]. intros b (j & Hj & Hb).
  exists j. rewrite Hsrc. split; [lia | exact Hb].
Qed.

(** One call that resolves to the session [sid], which the call either
    creates (and then [n = 0], [c = 0]) or finds well branched. *)
Lemma wellBranched_addThought sid input st n c :
  uuid_unique st ->
  targetOf input st = sid ->
  ((given (i_sessionId input) = None \/ map_get sid (sessions st) = None) /\
   n = 0 /\ c = 0 /\ suppliesNoBranchId input = true
   \/ given (i_sessionId input) <> None /\ branchIdKnown sid input st = true /\
      exists s, map_get sid (sessions st) = Some s /\ wellBranched st s n c) ->
  exists s',
    map_get sid (sessions (snd (addThought input st))) = Some s' /\
    wellBranched (snd (addThought input st)) s' (n + 1) (c + forks input).
Proof.
  intros Huniq Hsid Hstart. unfold targetOf in Hsid.
  rewrite addThought_unfold. cbv zeta.
  pose proof (getOrCreateSession_shape st (i_sessionId input) (Some (i_thought input))) as H1.
  pose proof (getOrCreateSession_key (i_sessionId input) (Some (i_thought input)) st)
    as Hkey.
  cbv zeta in H1.
  destruct (getOrCreateSession (i_sessionId input) (Some (i_thought input)) st)
    as [[k s] st1]. simpl in H1, Hkey |- *.
  destruct H1 as (_ & Hus & _ & Hup & _ & _ & Hkind).
  assert (Hk : k = sid) by congruence.
  clear Hkey. subst k.
  assert (Huniq1 : uuid_unique st1).
  { unfold uuid_unique. rewrite Hus. exact Huniq. }
  assert (Hwb : wellBranched st1 s n c /\
                match given (i_newBranchName input), given (i_branchId input) with
                | None, Some b => In b (map b_id (s_branches s))
                | _, _ => True
                end).
  { destruct Hkind as [(Hg & Hs & ->)
                      | (Hfresh & _ & Hnil & _ & _ & b & j & Hb & Ha & _ & Hbj & Hj)].
    - destruct Hstart as [([Hnone | Hnone] & _) | (_ & Hknown & s0 & Hs0 & Hwb0)];
        [congruence | congruence |].
      assert (s0 = s) by congruence. subst s0. split; [exact Hwb0|].
      unfold branchIdKnown in Hknown.
      destruct (given (i_newBranchName input)); [exact I|].
      destruct (given (i_branchId input)) as [bid|]; [|exact I].
      rewrite Hs in Hknown. apply existsb_exists in Hknown.
      destruct Hknown as (br & Hin & Heq). apply String.eqb_eq in Heq.
      subst bid. now apply in_map.
    - destruct Hstart as [(_ & -> & -> & Hknown) | (Hsome & _ & s0 & Hs0 & _)].
      + split.
        * unfold wellBranched, activeBranchPresent. rewrite Hnil, Hb, Ha. simpl.
          repeat split; auto.
          -- repeat constructor. intros [].
          -- constructor; [|constructor]. exists j. rewrite Hus. split; [lia | exact Hbj].
          -- exists b. split; [now left | reflexivity].
        * unfold suppliesNoBranchId in Hknown.
          destruct (given (i_newBranchName input)); [exact I|].
          destruct (given (i_branchId input)); [discriminate | exact I].
      + destruct Hfresh as [(_ & Hnone) | Hg]; congruence. }
  destruct Hwb as [Hwb Hk].
  pose proof (wellBranched_addThoughtTo input s st1 n c Huniq1 Hwb Hk) as Hstep.
  pose proof (addThoughtTo_shape input s st1) as H2. cbv zeta in H2.
  destruct (addThoughtTo input s st1) as [[r s'] st2]. simpl in *.
  exists s'. split; [apply map_get_set_same|].
  destruct Hstep as (H1 & H3 & H4 & H5 & H6 & H7). repeat split; auto.
Qed.

(** The counts alone need no assumption on the ids. *)
Lemma sized_addThought sid input st n c :
  targetOf input st = sid ->
  ((given (i_sessionId input) = None \/ map_get sid (sessions st) = None) /\
   n = 0 /\ c = 0
   \/ given (i_sessionId input) <> None /\
      exists s, map_get sid (sessions st) = Some s /\
                length (s_thoughts s) = n /\ length (s_branches s) = 1 + c) ->
  exists s',
    map_get sid (sessions (snd (addThought input st))) = Some s' /\
    length (s_thoughts s') = n + 1 /\
    length (s_branches s') = 1 + (c + forks input).
Proof.
  intros Hsid Hstart. unfold targetOf in Hsid.
  rewrite addThought_unfold. cbv zeta.
  pose proof (getOrCreateSession_shape st (i_sessionId input) (Some (i_thought input))) as H1.
  pose proof (getOrCreateSession_key (i_sessionId input) (Some (i_thought input)) st)
    as Hkey.
  cbv zeta in H1.
  destruct (getOrCreateSession (i_sessionId input) (Some (i_thought input)) st)
    as [[k s] st1]. simpl in H1, Hkey |- *.
  destruct H1 as (_ & _ & _ & _ & _ & _ & Hkind).
  assert (Hk : k = sid) by congruence.
  clear Hkey. subst k.
  assert (Hsz : length (s_thoughts s) = n /\ length (s_branches s) = 1 + c).
  { destruct Hkind as [(Hg & Hs & _)
                      | (Hfresh & _ & Hnil & _ & _ & b & j & Hb & _)].
    - destruct Hstart as [([Hnone | Hnone] & _) | (_ & s0 & Hs0 & Hsz)];
        [congruence | congruence |].
      assert (s0 = s) by congruence. now subst s0.
    - destruct Hstart as [(_ & -> & ->) | (Hsome & s0 & Hs0 & _)].
      + rewrite Hnil, Hb. now split.
      + destruct Hfresh as [(_ & Hnone) | Hg]; congruence. }
  pose proof (addThoughtTo_shape input s st1) as H2. cbv zeta in H2.
  destruct (addThoughtTo input s st1) as [[r s'] st2]. simpl in *.
  destruct H2 as (t & news & Hth & Hbrs & _ & _ & _ & _ & _ & _ & _ & _ & _ & _
                  & _ & _ & _ & _ & _ & _ & Hcase).
  exists s'. split; [apply map_get_set_same|].
  rewrite Hth, Hbrs, !length_app. unfold forks. simpl.
  destruct (given (i_newBranchName input)).
  - destruct Hcase as (b & -> & _). simpl. lia.
  - destruct Hcase as (-> & _). simpl. lia.
Qed.

Lemma exec_uuid op st :
  uuid_src (exec op st) = uuid_src st /\ uuid_pos st <= uuid_pos (exec op st).
Proof.
  destruct op as [sid p|input|sid name from|sid|sid x|sid| |sid name]; simpl.
  - pose proof (getOrCreateSession_shape st sid p) as H.
    cbv zeta in H. destruct H as (_ & Hsrc & _ & Hpos & _). now split.
  - rewrite addThought_unfold. cbv zeta. simpl.
    pose proof (getOrCreateSession_shape st (i_sessionId input)
                  (Some (i_thought input))) as H0.
    cbv zeta in H0. destruct H0 as (_ & Hsrc1 & _ & Hpos1 & _).
    pose proof (addThoughtTo_shape input
                  (snd (fst (getOrCreateSession (i_sessionId input)
                               (Some (i_thought input)) st)))
                  (snd (getOrCreateSession (i_sessionId input)
                          (Some (i_thought input)) st))) as H4.
    cbv zeta in H4.
    destruct H4 as (t & news & _ & _ & _ & _ & _ & _ & Hsrc2 & _ & Hpos2 & _).
    split; [congruence | lia].
  - unfold createBranchIn. run.
    destruct (map_get sid (sessions st)); simpl; split; auto.
  - unfold getSummary. run. destruct (map_get sid (sessions st)); simpl; split; auto.
  - unfold updateSessionStatus. run.
    destruct (map_get sid (sessions st)); simpl; split; auto.
  - split; auto.
  - split; auto.
  - unfold switchBranch. run.
    destruct (map_get sid (sessions st)) as [s|]; simpl; [|split; auto].
    destruct (find _ (s_branches s)); simpl; split; auto.
Qed.

(** [createBranch] on the session, through the store. *)
Lemma forked_createBranchIn sid name from st s :
  map_get sid (sessions st) = Some s ->
  exists s',
    map_get sid (sessions (exec (OpCreateBranch sid name from) st)) = Some s' /\
    s_thoughts s' = s_thoughts s /\
    length (s_branches s') = length (s_branches s) + 1 /\
    forall n c,
      uuid_unique st -> wellBranched st s n c ->
      wellBranched (exec (OpCreateBranch sid name from) st) s' n (c + 1).
Proof.
  intros Hs. simpl. unfold createBranchIn, createBranch. run. rewrite Hs. simpl.
  eexists. split; [apply map_get_set_same|]. simpl.
  split; [reflexivity|]. split; [now rewrite length_app|].
  intros n c Huniq (Hn & Hc & Hnd & Hon & Hold & Hact).
  unfold wellBranched, activeBranchPresent. simpl.
  rewrite length_app, map_app. simpl.
  split; [exact Hn|]. split; [lia|]. split; [|split; [|split]].
  - apply NoDup_app; [exact Hnd | repeat constructor; intros [] |].
    intros a Ha [Hab|[]]. subst a.
    apply in_map_iff in Ha. destruct Ha as (b' & Hb' & Hin').
    rewrite Forall_forall in Hold. destruct (Hold b' Hin') as (j & Hj & Hbj).
    assert (j = uuid_pos st) by (apply Huniq; congruence). lia.
  - eapply Forall_impl; [|exact Hon]. intros t' Ht'. apply in_or_app. now left.
  - apply Forall_app. split.
    + eapply Forall_impl; [|exact Hold]. intros b (j & Hj & Hb).
      exists j. split; [lia | exact Hb].
    + constructor; [|constructor]. exists (uuid_pos st). split; [lia | reflexivity].
  - destruct Hact as (b & Hin & Hid). exists b.
    split; [apply in_or_app; now left | exact Hid].
Qed.

(** An operation that leaves the session alone keeps its branches and
    its thoughts, in some order. *)
Lemma left_alone sid op st s :
  leaves sid op st ->
  map_get sid (sessions st) = Some s ->
  exists s',
    map_get sid (sessions (exec op st)) = Some s' /\
    Permutation (s_thoughts s) (s_thoughts s') /\
    s_branches s' = s_branches s /\
    (activeBranchPresent s -> activeBranchPresent s').
Proof.
  intros Hl Hs.
  assert (Hsame : exists s', Some s = Some s' /\
                    Permutation (s_thoughts s) (s_thoughts s') /\
                    s_branches s' = s_branches s /\
                    (activeBranchPresent s -> activeBranchPresent s')).
  { exists s. auto. }
  destruct op as [k p|input|k name from|k|k x|k| |k name]; simpl in Hl |- *.
  - pose proof (getOrCreateSession_shape st k p) as H. cbv zeta in H.
    pose proof (getOrCreateSession_key k p st) as Hkey.
    destruct (getOrCreateSession k p st) as [[k0 s0] st1]. simpl in *.
    destruct H as (_ & _ & _ & _ & _ & _ & [(_ & _ & ->) | (Hk & _ & _ & _ & -> & _)]);
      [now rewrite Hs|].
    rewrite map_get_set_other, Hs; [exact Hsame|].
    destruct Hk as [(_ & Hn) | Hg]; [congruence|].
    subst k0. now apply Hl.
  - rewrite addThought_unfold. cbv zeta. simpl.
    pose proof (getOrCreateSession_shape st (i_sessionId input)
                  (Some (i_thought input))) as H.
    pose proof (getOrCreateSession_key (i_sessionId input) (Some (i_thought input)) st)
      as Hkey.
    cbv zeta in H.
    destruct (getOrCreateSession (i_sessionId input) (Some (i_thought input)) st)
      as [[k0 s0] st1]. simpl in *.
    pose proof (addThoughtTo_shape input s0 st1) as H2. cbv zeta in H2.
    destruct (addThoughtTo input s0 st1) as [[r s''] st2]. simpl in *.
    destruct H2 as (_ & _ & _ & _ & _ & _ & _ & -> & _).
    assert (Hne : k0 <> sid) by (unfold targetOf in Hl; congruence).
    rewrite map_get_set_other by exact Hne.
    destruct H as (_ & _ & _ & _ & _ & _ & [(_ & _ & ->) | (_ & _ & _ & _ & -> & _)]);
      [now rewrite Hs|].
    rewrite map_get_set_other by exact Hne. now rewrite Hs.
  - unfold createBranchIn. run.
    destruct (map_get k (sessions st)); simpl; [|now rewrite Hs].
    rewrite map_get_set_other by exact Hl. now rewrite Hs.
  - unfold getSummary. run.
    destruct (map_get k (sessions st)) as [s0|] eqn:Hs0; simpl; [|now rewrite Hs].
    destruct (String.eqb k sid) eqn:E.
    + apply String.eqb_eq in E. subst k. rewrite map_get_set_same.
      assert (s0 = s) by congruence. subst s0.
      eexists. split; [reflexivity|]. simpl.
      split; [symmetry; apply sortByTime_perm|]. split; [reflexivity|]. auto.
    + apply String.eqb_neq in E. rewrite map_get_set_other by exact E.
      now rewrite Hs.
  - unfold updateSessionStatus. run.
    destruct (map_get k (sessions st)) as [s0|] eqn:Hs0; simpl; [|now rewrite Hs].
    destruct (String.eqb k sid) eqn:E.
    + apply String.eqb_eq in E. subst k. rewrite map_get_set_same.
      assert (s0 = s) by congruence. subst s0.
      eexists. split; [reflexivity|]. simpl. auto.
    + apply String.eqb_neq in E. rewrite map_get_set_other by exact E.
      now rewrite Hs.
  - now rewrite Hs.
  - now rewrite Hs.
  - unfold switchBranch. run.
    destruct (map_get k (sessions st)) as [s0|] eqn:Hs0; simpl; [|now rewrite Hs].
    destruct (find _ (s_branches s0)) as [b|] eqn:Hb; simpl; [|now rewrite Hs].
    destruct (String.eqb k sid) eqn:E.
    + apply String.eqb_eq in E. subst k. rewrite map_get_set_same.
      assert (s0 = s) by congruence. subst s0.
      eexists. split; [reflexivity|]. simpl.
      split; [reflexivity|]. split; [reflexivity|]. intros _.
      apply find_some in Hb. exists b. simpl. now split.
    + apply String.eqb_neq in E. rewrite map_get_set_other by exact E.
      now rewrite Hs.
Qed.

Lemma wellBranched_left_alone st st' s s' n c :
  uuid_src st' = uuid_src st -> uuid_pos st <= uuid_pos st' ->
  Permutation (s_thoughts s) (s_thoughts s') ->
  s_branches s' = s_branches s ->
  (activeBranchPresent s -> activeBranchPresent s') ->
  wellBranched st s n c -> wellBranched st' s' n c.
Proof.
  intros Hsrc Hpos Hperm Hbrs Hact Hwb.
  destruct (wellBranched_later st st' s n c Hsrc Hpos Hwb)
    as (Hn & Hc & Hnd & Hon & Hold & Ha).
  unfold wellBranched. rewrite Hbrs.
  split; [now rewrite <- (Permutation_length Hperm)|]. repeat split; auto.
  eapply Permutation_Forall; [exact Hperm | exact Hon].
Qed.

(** What a built session looks like. *)
Lemma built_session sid st n c known :
  built sid st n c known ->
  exists s,
    map_get sid (sessions st) = Some s /\
    length (s_thoughts s) = n /\ length (s_branches s) = 1 + c /\
    (uuid_unique st -> known = true -> wellBranched st s n c).
Proof.
  induction 1 as [st k p Hnew
                 | st input Hopen
                 | st input n c known Hb IH Hsid
                 | st name from n c known Hb IH
                 | st op n c known Hb IH Hl].
  - destruct Hnew as [Hkey Hnew]. simpl.
    pose proof (getOrCreateSession_shape st k p) as H. cbv zeta in H.
    rewrite getOrCreateSession_key, Hkey in H.
    destruct H as (Hget & Hus & _ & _ & _ & _
                   & [(Hg & Hs & _)
                     | (_ & _ & Hnil & _ & _ & b & j & Hb & Ha & _ & Hbj & Hj)]).
    { destruct Hnew; congruence. }
    exists (snd (fst (getOrCreateSession k p st))).
    split; [exact Hget|]. rewrite Hnil, Hb. split; [reflexivity|].
    split; [reflexivity|]. intros _ _.
    unfold wellBranched, activeBranchPresent. rewrite Hnil, Hb, Ha. simpl.
    repeat split; auto.
    + repeat constructor. intros [].
    + constructor; [|constructor]. exists j. rewrite Hus. split; [lia | exact Hbj].
    + exists b. split; [now left | reflexivity].
  - destruct Hopen as [Htarget Hnew].
    destruct (sized_addThought sid input st 0 0 Htarget
                (or_introl (conj Hnew (conj eq_refl eq_refl))))
      as (s' & Hs' & Hn & Hc).
    exists s'. simpl. split; [exact Hs'|]. split; [exact Hn|]. split; [exact Hc|].
    intros Huniq Hknown.
    assert (Huniq0 : uuid_unique st).
    { unfold uuid_unique in *.
      now rewrite <- (proj1 (exec_uuid (OpAddThought input) st)). }
    destruct (wellBranched_addThought sid input st 0 0 Huniq0 Htarget
                (or_introl (conj Hnew (conj eq_refl (conj eq_refl Hknown)))))
      as (s2 & Hs2 & Hwb).
    simpl in Hs'. assert (s2 = s') by congruence. subst s2. exact Hwb.
  - destruct IH as (s & Hs & Hn & Hc & Hwb).
    assert (Htarget : targetOf input st = sid)
      by (unfold targetOf, keyOf; now rewrite Hsid).
    assert (Hsome : given (i_sessionId input) <> None) by congruence.
    destruct (sized_addThought sid input st n c Htarget
                (or_intror (conj Hsome (ex_intro _ s (conj Hs (conj Hn Hc))))))
      as (s' & Hs' & Hn' & Hc').
    exists s'. simpl. split; [exact Hs'|]. split; [exact Hn'|]. split; [exact Hc'|].
    intros Huniq Hknown. apply andb_true_iff in Hknown. destruct Hknown as [Hk1 Hk2].
    assert (Huniq0 : uuid_unique st).
    { unfold uuid_unique in *.
      now rewrite <- (proj1 (exec_uuid (OpAddThought input) st)). }
    destruct (wellBranched_addThought sid input st n c Huniq0 Htarget
                (or_intror (conj Hsome (conj Hk2
                   (ex_intro _ s (conj Hs (Hwb Huniq0 Hk1)))))))
      as (s2 & Hs2 & Hwb').
    simpl in Hs'. assert (s2 = s') by congruence. subst s2. exact Hwb'.
  - destruct IH as (s & Hs & Hn & Hc & Hwb).
    destruct (forked_createBranchIn sid name from st s Hs)
      as (s' & Hs' & Hth & Hlen & Hwb').
    exists s'. split; [exact Hs'|]. split; [congruence|]. split; [lia|].
    intros Huniq Hknown.
    assert (Huniq0 : uuid_unique st).
    { unfold uuid_unique in *.
      now rewrite <- (proj1 (exec_uuid (OpCreateBranch sid name from) st)). }
    exact (Hwb' n c Huniq0 (Hwb Huniq0 Hknown)).
  - destruct IH as (s & Hs & Hn & Hc & Hwb).
    destruct (left_alone sid op st s Hl Hs) as (s' & Hs' & Hperm & Hbrs & Hact).
    exists s'. split; [exact Hs'|].
    split; [now rewrite <- (Permutation_length Hperm)|].
    split; [congruence|].
    intros Huniq Hknown.
    destruct (exec_uuid op st) as [Hsrc Hpos].
    assert (Huniq0 : uuid_unique st).
    { unfold uuid_unique in *. now rewrite <- Hsrc. }
    exact (wellBranched_left_alone st _ s s' n c Hsrc Hpos Hperm Hbrs Hact
             (Hwb Huniq0 Hknown)).
Qed.

(** C5, as the code has it.  Take a session that a call of [addThought]
    created, with or without [sessionId] (or that [getOrCreateSession]
    made), and that has received [N] calls of [addThought] in all,
    whatever else the store went through in between; let it have [B]
    branches, [main] and those created since.  [getSummary]
    reports [totalSteps = N] and [B] branches; the per-branch [stepCount]s
    add up to [N] provided that every [branchId] a call supplied (and
    used) was the id of a branch the session had at that time, and that
    the environment never hands out the same uuid twice. *)
Theorem getSummary_counts_after_appends (sid : string) (st : State)
    (n c : nat) (known : bool) :
  built sid st n c known ->
  exists s sm,
    map_get sid (sessions st) = Some s /\
    length (s_branches s) = 1 + c /\
    fst (getSummary sid st) = Some sm /\
    sm_totalSteps sm = n /\
    length (sm_branches sm) = length (s_branches s) /\
    (uuid_unique st -> known = true -> stepCountSum sm = n).
Proof.
  intros Hb. destruct (built_session sid st n c known Hb) as (s & Hs & Hn & Hc & Hwb).
  destruct (getSummary_reports sid st s Hs) as (sm & Hsm & Htot & Hbr & Hsum).
  exists s, sm. split; [exact Hs|]. split; [exact Hc|]. split; [exact Hsm|].
  split; [congruence|]. split; [exact Hbr|].
  intros Huniq Hknown.
  destruct (Hwb Huniq Hknown) as (_ & _ & Hnd & Hall & _).
  rewrite Hsum, (branch_counts_partition _ _ Hnd Hall). exact Hn.
Qed.

Lemma built_indices sid st n c known n' c' known' :
  built sid st n c known -> n = n' -> c = c' -> known = known' ->
  built sid st n' c' known'.
Proof. intros H -> -> ->. exact H. Qed.

Lemma built_st_anon : built "b" st_anon 4 1 true.
Proof.
  unfold st_anon. eapply built_indices.
  - eapply built_more; [|reflexivity].
    eapply built_other; [|exact I].
    eapply built_more; [|reflexivity].
    eapply built_other; [|vm_compute; discriminate].
    eapply built_more; [|reflexivity].
    eapply built_open. split; [reflexivity | now left].
  - reflexivity.
  - reflexivity.
  - vm_compute. reflexivity.
Qed.

Lemma uuid_unique_st_anon : uuid_unique st_anon.
Proof.
  intros i j H. change (uuid_src st_anon) with uuid_sample in H.
  apply (f_equal String.length) in H. rewrite !uuid_sample_length in H. lia.
Qed.

Lemma getSummary_counts_after_appends_witness :
  exists sm,
    fst (getSummary "b" st_anon) = Some sm /\
    sm_totalSteps sm = 4 /\
    length (sm_branches sm) = 2 /\
    stepCountSum sm = 4.
Proof.
  destruct (getSummary_counts_after_appends "b" st_anon 4 1 true built_st_anon)
    as (s & sm & _ & H1 & H2 & H3 & H4 & H5).
  exists sm. split; [exact H2|]. split; [exact H3|].
  split; [now rewrite H4, H1 | exact (H5 uuid_unique_st_anon eq_refl)].
Defined.

(** C5, as stated, fails: after one call that supplies the id of no
    branch, the summary has [totalSteps = 1] and one branch, and the
    [stepCount]s add up to [0]. *)
Lemma getSummary_stepCounts_miss_unknown_branch :
  option_map sm_totalSteps
    (fst (getSummary "s"
            (snd (addThoughts [toBranch "s" "Perhaps another branch" "ghost"] st0))))
    = Some 1 /\
  option_map (fun sm => length (sm_branches sm))
    (fst (getSummary "s"
            (snd (addThoughts [toBranch "s" "Perhaps another branch" "ghost"] st0))))
    = Some 1 /\
  option_map stepCountSum
    (fst (getSummary "s"
            (snd (addThoughts [toBranch "s" "Perhaps another branch" "ghost"] st0))))
    = Some 0 /\
  option_map stepCountSum
    (fst (getSummary "s"
            (snd (addThoughts [toBranch "s" "Perhaps another branch" "ghost"] st0))))
    <> Some (length [toBranch "s" "Perhaps another branch" "ghost"]).
Proof.
  repeat split; try (vm_compute; reflexivity).
  vm_compute. discriminate.
Qed.

(* ------------------------------------------------------------------ *)
(** ** Branches of the same name *)

(** [createBranch] pushes: the branches are in the order of creation. *)
Lemma createBranch_appends s name from st :
  s_branches (snd (fst (createBranch s name from st)))
    = s_branches s ++ [fst (fst (createBranch s name from st))].
Proof. reflexivity. Qed.

Lemma find_first_match {A} (f : A -> bool) pre x post :
  (forall y, In y pre -> f y = false) -> f x = true ->
  find f (pre ++ x :: post) = Some x.
Proof.
  intros Hpre Hx. induction pre as [|y pre IH]; simpl.
  - now rewrite Hx.
  - rewrite (Hpre y (or_introl eq_refl)). apply IH.
    intros z Hz. apply Hpre. now right.
Qed.

(** C8, as the code has it.  [switchBranch] makes active the first
    branch of the target name in the order of creation: the one before
    which no branch has that name. *)
Theorem switchBranch_first_created_wins (st : State) (sid name : string)
    (s : ThinkingSession) (pre post : list ThinkingBranch) (b : ThinkingBranch) :
  map_get sid (sessions st) = Some s ->
  s_branches s = pre ++ b :: post ->
  b_name b = name ->
  (forall b', In b' pre -> b_name b' <> name) ->
  fst (switchBranch sid name st) = true /\
  option_map s_activeBranchId
    (map_get sid (sessions (snd (switchBranch sid name st)))) = Some (b_id b).
Proof.
  intros Hs Hbr Hb Hpre.
  assert (Hf : find (fun b => String.eqb (b_name b) name) (s_branches s) = Some b).
  { rewrite Hbr. apply find_first_match.
    - intros y Hy. apply String.eqb_neq. now apply Hpre.
    - now apply String.eqb_eq. }
  rewrite (switchBranch_found st sid name s b Hs Hf). simpl.
  now rewrite map_get_set_same.
Qed.

Lemma switchBranch_first_created_wins_witness :
  fst (switchBranch "s" "alt" st_twice) = true /\
  option_map s_activeBranchId
    (map_get "s" (sessions (snd (switchBranch "s" "alt" st_twice)))) = Some "xxb".
Proof.
  destruct (map_get "s" (sessions st_twice)) as [s|] eqn:Hs;
    [|vm_compute in Hs; discriminate].
  refine (switchBranch_first_created_wins st_twice "s" "alt" s
            [mkThinkingBranch "b" "main" None None 1000%Z (Some "Main thinking branch")]
            [mkThinkingBranch "xxxxb" "alt" (Some "xxb") None 1008%Z None]
            (mkThinkingBranch "xxb" "alt" (Some "b") None 1005%Z None)
            Hs _ eq_refl _).
  - vm_compute in Hs. injection Hs as <-. reflexivity.
  - intros b' [<-|[]]. discriminate.
Defined.

(** C8, as stated, fails: with two branches named [alt], created in the
    order ["xxb"], ["xxxxb"], [switchBranch] to [alt] makes the first
    created one active, not the last. *)
Lemma switchBranch_not_last_created :
  option_map (fun s => map (fun b => (b_name b, b_id b)) (s_branches s))
    (map_get "s" (sessions st_twice))
    = Some [("main", "b"); ("alt", "xxb"); ("alt", "xxxxb")] /\
  fst (switchBranch "s" "alt" st_twice) = true /\
  option_map s_activeBranchId
    (map_get "s" (sessions (snd (switchBranch "s" "alt" st_twice)))) = Some "xxb" /\
  option_map s_activeBranchId
    (map_get "s" (sessions (snd (switchBranch "s" "alt" st_twice)))) <> Some "xxxxb".
Proof.
  repeat split; try (vm_compute; reflexivity).
  vm_compute. discriminate.
Qed.

(* ------------------------------------------------------------------ *)
(** ** Summary and listing are reads *)

Lemma sortByTime_inTimeOrder l : inTimeOrder l -> sortByTime l = l.
Proof.
  unfold inTimeOrder. induction 1 as [|x l Hl IH Hx]; simpl; [reflexivity|].
  rewrite IH. destruct l as [|y r]; simpl; [reflexivity|].
  inversion Hx as [|? ? Hxy _]; subst.
  apply Z.leb_le in Hxy. now rewrite Hxy.
Qed.

Lemma inTimeOrder_snoc l t :
  inTimeOrder l ->
  Forall (fun t' => (t_timestamp t' <= t_timestamp t)%Z) l ->
  inTimeOrder (l ++ [t]).
Proof.
  unfold inTimeOrder. induction 1 as [|x l Hl IH Hx]; simpl; intros Hle.
  - repeat constructor.
  - inversion Hle as [|? ? Hxt Hlt]; subst. constructor; [now apply IH|].
    apply Forall_app. split; [exact Hx | now constructor].
Qed.

Lemma timely_later st st' s :
  clock_monotone st ->
  clock_src st' = clock_src st ->
  clock_pos st <= clock_pos st' ->
  timely st s -> timely st' s.
Proof.
  intros Hmono Hsrc Hpos [Hord Hle]. split; [exact Hord|].
  eapply Forall_impl; [|exact Hle]. intros t Ht. simpl in Ht.
  rewrite Hsrc. specialize (Hmono _ _ Hpos). lia.
Qed.

Lemma timely_snoc st st' s s' t j :
  clock_monotone st ->
  clock_src st' = clock_src st ->
  clock_pos st <= j < clock_pos st' ->
  t_timestamp t = clock_src st j ->
  s_thoughts s' = s_thoughts s ++ [t] ->
  timely st s -> timely st' s'.
Proof.
  intros Hmono Hsrc Hj Ht Hth [Hord Hle]. unfold timely. rewrite Hth, Hsrc. split.
  - apply inTimeOrder_snoc; [exact Hord|].
    eapply Forall_impl; [|exact Hle]. intros t' Ht'. simpl in Ht'.
    rewrite Ht. assert (H := Hmono (clock_pos st) j ltac:(lia)). lia.
  - apply Forall_app. split.
    + eapply Forall_impl; [|exact Hle]. intros t' Ht'. simpl in Ht'.
      assert (H := Hmono (clock_pos st) (clock_pos st') ltac:(lia)). lia.
    + constructor; [|constructor]. rewrite Ht.
      apply Hmono. lia.
Qed.

(** Storing one session, the others being timely already. *)
Lemma timely_stored st st' k s' :
  clock_monotone st ->
  clock_src st' = clock_src st ->
  clock_pos st <= clock_pos st' ->
  sessions st' = map_set k s' (sessions st) ->
  allSessions (timely st) st ->
  timely st' s' ->
  allSessions (timely st') st'.
Proof.
  intros Hmono Hsrc Hpos Hss Hinv Hs'. unfold allSessions. rewrite Hss.
  apply Forall_map_set; [|exact Hs'].
  eapply Forall_impl; [|exact Hinv]. intros e He.
  now apply (timely_later st st').
Qed.

Lemma timely_getOrCreateSession sid problem st :
  clock_monotone st ->
  allSessions (timely st) st ->
  allSessions (timely (snd (getOrCreateSession sid problem st)))
    (snd (getOrCreateSession sid problem st)) /\
  timely (snd (getOrCreateSession sid problem st))
    (snd (fst (getOrCreateSession sid problem st))).
Proof.
  intros Hmono Hinv.
  pose proof (getOrCreateSession_shape st sid problem) as H. cbv zeta in H.
  destruct (getOrCreateSession sid problem st) as [[k s] st1]. simpl in H |- *.
  destruct H as (_ & _ & Hsrc & _ & Hpos & _ & Hkind).
  destruct Hkind as [(_ & Hs & ->) | (_ & _ & Hnil & _ & Hss & _)].
  - split; [exact Hinv | exact (allSessions_get _ _ _ _ Hinv Hs)].
  - assert (Ht : timely st1 s).
    { unfold timely. rewrite Hnil. split; constructor. }
    split; [|exact Ht].
    now apply (timely_stored st st1 k s).
Qed.

Lemma exec_clock_src op st : clock_src (exec op st) = clock_src st.
Proof.
  destruct op as [sid p|input|sid name from|sid|sid x|sid| |sid name]; simpl.
  - pose proof (getOrCreateSession_shape st sid p) as H.
    cbv zeta in H. now destruct H as (_ & _ & Hsrc & _).
  - rewrite addThought_unfold. cbv zeta. simpl.
    pose proof (getOrCreateSession_shape st (i_sessionId input)
                  (Some (i_thought input))) as H0.
    cbv zeta in H0. destruct H0 as (_ & _ & Hsrc1 & _).
    pose proof (addThoughtTo_shape input
                  (snd (fst (getOrCreateSession (i_sessionId input)
                               (Some (i_thought input)) st)))
                  (snd (getOrCreateSession (i_sessionId input)
                          (Some (i_thought input)) st))) as H4.
    cbv zeta in H4.
    destruct H4 as (t & news & _ & _ & _ & _ & _ & _ & _ & Hsrc2 & _).
    congruence.
  - unfold createBranchIn. run. now destruct (map_get sid (sessions st)).
  - unfold getSummary. run. now destruct (map_get sid (sessions st)).
  - unfold updateSessionStatus. run. now destruct (map_get sid (sessions st)).
  - reflexivity.
  - reflexivity.
  - unfold switchBranch. run.
    destruct (map_get sid (sessions st)) as [s|]; [|reflexivity].
    now destruct (find _ (s_branches s)).
Qed.

(** The cases of an operation that stores a session whose thoughts are
    the ones it had. *)
Ltac timely_same_thoughts Hinv Hs :=
  eapply (timely_stored _ _ _ _); simpl; eauto;
  eapply (timely_later _); simpl; eauto;
  exact (allSessions_get _ _ _ _ Hinv Hs).

Lemma exec_preserves_timely op st :
  clock_monotone st ->
  allSessions (timely st) st ->
  allSessions (timely (exec op st)) (exec op st).
Proof.
  intros Hmono Hinv.
  destruct op as [sid p|input|sid name from|sid|sid x|sid| |sid name]; simpl.
  - now apply timely_getOrCreateSession.
  - rewrite addThought_unfold. cbv zeta. simpl.
    destruct (timely_getOrCreateSession (i_sessionId input)
                (Some (i_thought input)) st Hmono Hinv) as [H1 H2].
    pose proof (getOrCreateSession_shape st (i_sessionId input) (Some (i_thought input))) as H0.
    cbv zeta in H0.
    destruct (getOrCreateSession (i_sessionId input) (Some (i_thought input)) st)
      as [[k s] st1]. simpl in *.
    destruct H0 as (_ & _ & Hsrc1 & _).
    assert (Hmono1 : clock_monotone st1).
    { unfold clock_monotone. rewrite Hsrc1. exact Hmono. }
    pose proof (addThoughtTo_shape input s st1) as H4. cbv zeta in H4.
    destruct (addThoughtTo input s st1) as [[r s'] st2]. simpl in *.
    destruct H4 as (t & news & Hth & _ & _ & _ & _ & Hss & _ & Hsrc2 & _ & Hpos
                    & (j & Hj & Ht) & _).
    eapply (timely_stored st1 _ k s'); simpl; eauto; try lia.
    + now rewrite Hss.
    + eapply (timely_snoc st1 _ s s' t j); simpl; eauto.
  - unfold createBranchIn. run.
    destruct (map_get sid (sessions st)) as [s|] eqn:Hs; simpl; [|exact Hinv].
    timely_same_thoughts Hinv Hs.
  - unfold getSummary. run.
    destruct (map_get sid (sessions st)) as [s|] eqn:Hs; simpl; [|exact Hinv].
    eapply (timely_stored st _ sid); simpl; eauto.
    destruct (allSessions_get _ _ _ _ Hinv Hs) as [Hord Hle].
    unfold timely. simpl. rewrite (sortByTime_inTimeOrder _ Hord). now split.
  - unfold updateSessionStatus. run.
    destruct (map_get sid (sessions st)) as [s|] eqn:Hs; simpl; [|exact Hinv].
    timely_same_thoughts Hinv Hs.
  - exact Hinv.
  - exact Hinv.
  - unfold switchBranch. run.
    destruct (map_get sid (sessions st)) as [s|] eqn:Hs; simpl; [|exact Hinv].
    destruct (find _ (s_branches s)) as [b|] eqn:Hb; simpl; [|exact Hinv].
    timely_same_thoughts Hinv Hs.
Qed.

(** With a clock that never goes back, every session of a reachable
    store has its thoughts in the order of their timestamps. *)
Lemma reachable_timely st :
  reachable st -> clock_monotone st -> allSessions (timely st) st.
Proof.
  induction 1 as [us up cs cp | st op Hr IH]; intros Hmono.
  - constructor.
  - assert (Hmono0 : clock_monotone st).
    { unfold clock_monotone. rewrite <- (exec_clock_src op st). exact Hmono. }
    exact (exec_preserves_timely op st Hmono0 (IH Hmono0)).
Qed.

Lemma getSummary_unchanged sid st :
  allSessions (timely st) st -> snd (getSummary sid st) = st.
Proof.
  intros Hinv. unfold getSummary. run.
  destruct (map_get sid (sessions st)) as [s|] eqn:Hs; simpl; [|reflexivity].
  destruct (allSessions_get _ _ _ _ Hinv Hs) as [Hord _].
  rewrite (sortByTime_inTimeOrder _ Hord), set_thoughts_same.
  rewrite (map_set_same_value _ _ _ Hs). apply state_eta.
Qed.

(** *** What a second read returns, whatever the clock *)

Lemma insertByTime_inTimeOrder x l :
  inTimeOrder l -> inTimeOrder (insertByTime x l).
Proof.
  unfold inTimeOrder. induction 1 as [|y l Hl IH Hy]; simpl.
  - repeat constructor.
  - destruct (t_timestamp x <=? t_timestamp y)%Z eqn:E.
    + apply Z.leb_le in E. constructor; [now constructor|].
      constructor; [exact E|].
      eapply Forall_impl; [|exact Hy]. intros z Hz. simpl in Hz. lia.
    + apply Z.leb_gt in E. constructor; [exact IH|].
      eapply Permutation_Forall;
        [symmetry; apply insertByTime_perm | constructor; [lia | exact Hy]].
Qed.

Lemma sortByTime_sorted l : inTimeOrder (sortByTime l).
Proof.
  induction l as [|x l IH]; simpl; [constructor|].
  now apply insertByTime_inTimeOrder.
Qed.

Lemma sortByTime_idempotent l : sortByTime (sortByTime l) = sortByTime l.
Proof. apply sortByTime_inTimeOrder, sortByTime_sorted. Qed.

Lemma onBranch_perm b l l' :
  Permutation l l' -> Permutation (onBranch b l) (onBranch b l').
Proof.
  unfold onBranch. induction 1 as [|x l l' H IH|x y l|l l' l'' H1 IH1 H2 IH2]; simpl.
  - constructor.
  - destruct (String.eqb (t_branchId x) b); [now constructor | exact IH].
  - destruct (String.eqb (t_branchId x) b), (String.eqb (t_branchId y) b);
      try reflexivity. apply perm_swap.
  - now transitivity (filter (fun t => String.eqb (t_branchId t) b) l').
Qed.

Lemma bump_keys ty c : map fst (bump ty c) = map fst c \/ ~ In ty (map fst c).
Proof.
  induction c as [|[k n] c IH]; simpl; [now right|].
  destruct (type_eqb k ty) eqn:E; simpl; [now left|].
  destruct IH as [IH|IH]; [left; now rewrite IH|].
  right. intros [Hk|Hin]; [|contradiction].
  subst k. unfold type_eqb in E.
  now destruct (ThoughtType_eq_dec ty ty).
Qed.

Lemma type_eqb_eq a b : type_eqb a b = true <-> a = b.
Proof.
  unfold type_eqb. destruct (ThoughtType_eq_dec a b); split; congruence.
Qed.

Lemma bump_comm a b c :
  In a (map fst c) -> In b (map fst c) -> bump a (bump b c) = bump b (bump a c).
Proof.
  induction c as [|[k n] c IH]; simpl; intros Ha Hb; [contradiction|].
  destruct (type_eqb k a) eqn:Ea, (type_eqb k b) eqn:Eb; simpl;
    rewrite ?Ea, ?Eb; try reflexivity.
  f_equal. apply IH.
  - destruct Ha as [Ha|Ha]; [|exact Ha].
    apply type_eqb_eq in Ha. congruence.
  - destruct Hb as [Hb|Hb]; [|exact Hb].
    apply type_eqb_eq in Hb. congruence.
Qed.

(** The per-type counts do not depend on the order of the thoughts,
    once every type has its key (as in the literal of [getSummary]). *)
Lemma tally_perm l l' :
  Permutation l l' ->
  forall c, (forall ty, In ty (map fst c)) ->
  fold_left (fun c t => bump (t_thoughtType t) c) l c
    = fold_left (fun c t => bump (t_thoughtType t) c) l' c.
Proof.
  assert (Hkeys : forall ty c, (forall ty', In ty' (map fst c)) ->
                    forall ty', In ty' (map fst (bump ty c))).
  { intros ty c Hc ty'. destruct (bump_keys ty c) as [->|Hn]; [apply Hc|].
    exfalso. apply Hn, Hc. }
  induction 1 as [|x l l' H IH|x y l|l l' l'' H1 IH1 H2 IH2]; intros c Hc; simpl.
  - reflexivity.
  - apply IH. now apply Hkeys.
  - now rewrite bump_comm.
  - now rewrite IH1, IH2.
Qed.

(** [getSummary] on the session it has just sorted. *)
Lemma getSummary_again sid st st' s :
  map_get sid (sessions st) = Some s ->
  map_get sid (sessions st') = Some (set_thoughts (sortByTime (s_thoughts s)) s) ->
  fst (getSummary sid st') = fst (getSummary sid st).
Proof.
  intros Hs Hs'. unfold getSummary. run. rewrite Hs, Hs'. simpl.
  rewrite sortByTime_idempotent. do 2 f_equal.
  apply map_ext. intros b.
  pose proof (onBranch_perm (b_id b) _ _ (sortByTime_perm (s_thoughts s))) as Hp.
  f_equal.
  - now apply Permutation_length.
  - apply tally_perm; [exact Hp|].
    intros ty. destruct ty; simpl; tauto.
Qed.

Lemma getSummary_other sid sid' st :
  sid <> sid' ->
  map_get sid (sessions (snd (getSummary sid' st))) = map_get sid (sessions st).
Proof.
  intros Hne. unfold getSummary. run.
  destruct (map_get sid' (sessions st)); simpl; [|reflexivity].
  apply map_get_set_other. congruence.
Qed.

Lemma getSummary_same_lookup sid st st' :
  map_get sid (sessions st') = map_get sid (sessions st) ->
  fst (getSummary sid st') = fst (getSummary sid st).
Proof.
  intros H. unfold getSummary. run. rewrite H.
  now destruct (map_get sid (sessions st)).
Qed.

Lemma getSummary_after_getSummary sid sid' st :
  fst (getSummary sid (snd (getSummary sid' st))) = fst (getSummary sid st).
Proof.
  destruct (String.eqb sid sid') eqn:E.
  - apply String.eqb_eq in E. subst sid'.
    destruct (map_get sid (sessions st)) as [s|] eqn:Hs.
    + apply (getSummary_again sid st _ s Hs).
      unfold getSummary. run. rewrite Hs. simpl. apply map_get_set_same.
    + apply getSummary_same_lookup. unfold getSummary. run. now rewrite Hs.
  - apply String.eqb_neq in E. apply getSummary_same_lookup.
    now apply getSummary_other.
Qed.

Lemma map_values_map_set {B} (g : ThinkingSession -> B) k s s' (m : SessionMap) :
  map_get k m = Some s -> g s' = g s ->
  map g (map_values (map_set k s' m)) = map g (map_values m).
Proof.
  unfold map_values. induction m as [|[k' v] m IH]; simpl; [discriminate|].
  destruct (String.eqb k' k); simpl.
  - intros [= ->] Hg. now rewrite Hg.
  - intros Hs Hg. now rewrite IH.
Qed.

Lemma listSessions_after_getSummary sid st :
  fst (listSessions (snd (getSummary sid st))) = fst (listSessions st).
Proof.
  unfold listSessions, getSummary. run.
  destruct (map_get sid (sessions st)) as [s|] eqn:Hs; simpl; [|reflexivity].
  apply (map_values_map_set _ sid s _ _ Hs). simpl.
  now rewrite length_sortByTime.
Qed.

Lemma getSummary_unchanged_iff sid st s :
  map_get sid (sessions st) = Some s ->
  snd (getSummary sid st) = st <-> inTimeOrder (s_thoughts s).
Proof.
  intros Hs. unfold getSummary. run. rewrite Hs. simpl. split.
  - intros H. apply (f_equal (fun st => map_get sid (sessions st))) in H.
    simpl in H. rewrite map_get_set_same, Hs in H. injection H as H.
    apply (f_equal s_thoughts) in H. simpl in H. rewrite <- H.
    apply sortByTime_sorted.
  - intros Hord.
    rewrite (sortByTime_inTimeOrder _ Hord), set_thoughts_same.
    rewrite (map_set_same_value _ _ _ Hs). apply state_eta.
Qed.

(** C9, as the code has it.  [listSessions] leaves the state as it was.
    [getSummary] sorts the thoughts of the session in place, so it leaves
    the state as it was exactly when they are in the order of their
    timestamps already; this is so in every state the store reaches with
    a clock that never goes back.  A read made after another read, with no
    mutating operation in between, returns what it would have returned
    before it, whatever the clock. *)
Theorem getSummary_listSessions_pure_reads (st : State) :
  (reachable st -> clock_monotone st ->
   forall sid, snd (getSummary sid st) = st) /\
  snd (listSessions st) = st /\
  (forall sid sid',
      fst (getSummary sid (snd (getSummary sid' st))) = fst (getSummary sid st)) /\
  fst (listSessions (snd (listSessions st))) = fst (listSessions st) /\
  (forall sid,
      fst (getSummary sid (snd (listSessions st))) = fst (getSummary sid st)) /\
  (forall sid,
      fst (listSessions (snd (getSummary sid st))) = fst (listSessions st)) /\
  (forall sid s,
      map_get sid (sessions st) = Some s ->
      (snd (getSummary sid st) = st <-> inTimeOrder (s_thoughts s))).
Proof.
  split; [|split; [|split; [|split; [|split; [|split]]]]].
  - intros Hr Hmono sid.
    apply getSummary_unchanged. now apply reachable_timely.
  - reflexivity.
  - intros sid sid'. apply getSummary_after_getSummary.
  - reflexivity.
  - intros sid. reflexivity.
  - intros sid. apply listSessions_after_getSummary.
  - intros sid s. apply getSummary_unchanged_iff.
Qed.

Lemma clock_monotone_st_forked : clock_monotone st_forked.
Proof.
  intros i j H.
  change (clock_src st_forked) with (fun n => (1000 + Z.of_nat n)%Z).
  cbv beta. lia.
Qed.

Lemma reachable_st_forked : reachable st_forked.
Proof. unfold st_forked, st0. do 3 apply reachable_step. apply reachable_init. Qed.

Lemma getSummary_listSessions_pure_reads_witness :
  snd (getSummary "s" st_forked) = st_forked /\
  fst (getSummary "s" (snd (getSummary "s" st_forked)))
    = fst (getSummary "s" st_forked).
Proof.
  destruct (getSummary_listSessions_pure_reads st_forked) as (H1 & _ & H3 & _).
  split; [apply (H1 reachable_st_forked clock_monotone_st_forked) | apply H3].
Defined.

(** C9, as stated, fails: the timestamps of a reachable state need not
    be in order.  With a clock that goes back between two calls of
    [addThought] (1003, then 900), [getSummary] swaps the two thoughts of
    the session and the state is no longer what it was. *)
Lemma getSummary_reorders_after_clock_step_back :
  reachable st_back /\
  option_map (fun s => map t_timestamp (s_thoughts s))
    (map_get "s" (sessions st_back)) = Some [1003%Z; 900%Z] /\
  option_map (fun s => map t_thought (s_thoughts s))
    (map_get "s" (sessions st_back)) = Some ["first"; "second"] /\
  option_map (fun s => map t_thought (s_thoughts s))
    (map_get "s" (sessions (snd (getSummary "s" st_back))))
    = Some ["second"; "first"] /\
  snd (getSummary "s" st_back) <> st_back.
Proof.
  split; [unfold st_back; do 2 apply reachable_step; apply reachable_init|].
  split; [vm_compute; reflexivity|]. split; [vm_compute; reflexivity|].
  split; [vm_compute; reflexivity|].
  intros H.
  apply (f_equal (fun st => option_map (fun s => map t_thought (s_thoughts s))
                              (map_get "s" (sessions st)))) in H.
  vm_compute in H. discriminate.
Qed.

(* ------------------------------------------------------------------ *)
(** ** Appending does not look at the status *)

Lemma map_get_withStatus k x st :
  map_get k (sessions (withStatus k x st))
    = option_map (set_status x) (map_get k (sessions st)).
Proof.
  unfold withStatus. simpl. induction (sessions st) as [|[k' v] m IH]; simpl;
    [reflexivity|].
  destruct (String.eqb k' k) eqn:E; simpl; rewrite E; [reflexivity | exact IH].
Qed.

Lemma map_set_withStatus k x v (m : SessionMap) :
  map_set k (set_status x v)
    (map (fun e => if String.eqb (fst e) k then (fst e, set_status x (snd e)) else e) m)
  = map (fun e => if String.eqb (fst e) k then (fst e, set_status x (snd e)) else e)
      (map_set k v m).
Proof.
  induction m as [|[k' v'] m IH]; simpl.
  - now rewrite String.eqb_refl.
  - destruct (String.eqb k' k) eqn:E; simpl; rewrite E; simpl.
    + now rewrite String.eqb_refl.
    + now rewrite IH.
Qed.

(** The body of [addThought] on a session and on the same session with
    another status, in the same environment. *)
Lemma addThoughtTo_set_status input s x st stx :
  uuid_src stx = uuid_src st -> uuid_pos stx = uuid_pos st ->
  clock_src stx = clock_src st -> clock_pos stx = clock_pos st ->
  let out := addThoughtTo input s st in
  let outx := addThoughtTo input (set_status x s) stx in
  snd (fst outx) = set_status x (snd (fst out)) /\
  withoutHasMore (fst (fst outx)) = withoutHasMore (fst (fst out)) /\
  uuid_src (snd outx) = uuid_src (snd out) /\
  uuid_pos (snd outx) = uuid_pos (snd out) /\
  clock_src (snd outx) = clock_src (snd out) /\
  clock_pos (snd outx) = clock_pos (snd out) /\
  sessions (snd outx) = sessions stx.
Proof.
  intros H1 H2 H3 H4. cbv zeta. unfold addThoughtTo.
  destruct (given (i_newBranchName input)); run; rewrite H1, H2, H3, H4;
    match goal with
    | |- context [if ?c then _ else _] => destruct c
    end; simpl; repeat split.
Qed.

(** C10.  [addThought] on an existing session does the same whatever
    the session's status: run on the store in which the session has the
    status [x] instead of its own, it yields the state the original run
    yields, the status apart, and the same result but for the flag
    [hasMoreThoughts] of the progress snapshot; the thought is appended,
    and the status stays [x] (a completed session goes on accepting
    thoughts). *)
Theorem addThought_ignores_status (st : State) (input : AddThoughtInput)
    (k : string) (s : ThinkingSession) (x : SessionStatus) :
  given (i_sessionId input) = Some k ->
  map_get k (sessions st) = Some s ->
  snd (addThought input (withStatus k x st))
    = withStatus k x (snd (addThought input st)) /\
  withoutHasMore (fst (addThought input (withStatus k x st)))
    = withoutHasMore (fst (addThought input st)) /\
  exists s',
    map_get k (sessions (snd (addThought input (withStatus k x st)))) = Some s' /\
    s_status s' = x /\
    length (s_thoughts s') = length (s_thoughts s) + 1.
Proof.
  intros Hk Hs.
  assert (Hsx : map_get k (sessions (withStatus k x st)) = Some (set_status x s)).
  { now rewrite map_get_withStatus, Hs. }
  rewrite !addThought_unfold. cbv zeta.
  rewrite (getOrCreateSession_existing st _ _ k s Hk Hs).
  rewrite (getOrCreateSession_existing (withStatus k x st) _ _ k _ Hk Hsx).
  cbn [fst snd].
  pose proof (addThoughtTo_set_status input s x st (withStatus k x st)
                eq_refl eq_refl eq_refl eq_refl) as H.
  cbv zeta in H. destruct H as (Hs' & Hr & Hus & Hup & Hcs & Hcp & Hss).
  pose proof (addThoughtTo_shape input s st) as H2. cbv zeta in H2.
  destruct H2 as (t & news & Hth & _ & _ & _ & _ & Hss0 & _).
  rewrite Hs', Hus, Hup, Hcs, Hcp, Hss, Hss0.
  repeat split.
  - unfold withStatus. simpl. now rewrite map_set_withStatus.
  - exact Hr.
  - eexists. simpl. rewrite map_get_set_same. split; [reflexivity|].
    split; [reflexivity|]. simpl.
    replace (s_thoughts (set_status x (snd (fst (addThoughtTo input s st)))))
      with (s_thoughts (snd (fst (addThoughtTo input s st)))) by reflexivity.
    rewrite Hth, length_app. reflexivity.
Qed.

Lemma addThought_ignores_status_witness :
  exists s',
    map_get "s"
      (sessions (snd (addThought (plain "s" "One more thing")
                        (withStatus "s" completed st_forked)))) = Some s' /\
    s_status s' = completed /\
    length (s_thoughts s') = 3.
Proof.
  destruct (map_get "s" (sessions st_forked)) as [s|] eqn:Hs;
    [|vm_compute in Hs; discriminate].
  destruct (addThought_ignores_status st_forked (plain "s" "One more thing")
              "s" s completed eq_refl Hs) as (_ & _ & s' & H1 & H2 & H3).
  exists s'. repeat split; try assumption.
  rewrite H3. vm_compute in Hs. injection Hs as <-. reflexivity.
Defined.

(* ------------------------------------------------------------------ *)
(** ** Classification and the explicit type *)

Example classify_question : inferThoughtType "What is the root cause?" = question.
Proof. reflexivity. Qed.

Example classify_observation :
  inferThoughtType "I notice the cache is stale" = observation.
Proof. reflexivity. Qed.

Example classify_conclusion : inferThoughtType "Therefore the fix is X" = conclusion.
Proof. reflexivity. Qed.

Example classify_refinement :
  inferThoughtType "Let's refine the approach" = refinement.
Proof. reflexivity. Qed.

Example classify_analysis :
  inferThoughtType "The system has three components" = analysis.
Proof. reflexivity. Qed.

(** The order of the rules matters: a text of two rules gets the type
    of the earlier one. *)
Example classify_first_rule_wins :
  inferThoughtType "Maybe we should check the logs" = hypothesis /\
  inferThoughtType "Finally, why not test it?" = question.
Proof. split; reflexivity. Qed.

(** C7.  [inferThoughtType] is the function that lower-cases the text
    and returns the type of the first rule of the specification's ordered
    list that matches, [analysis] when none does; and the type [addThought]
    records and returns is the caller's [thoughtType] when there is one,
    the inferred one only when there is none. *)
Theorem inferThoughtType_is_ordered_rule_list :
  (forall text, inferThoughtType text = classify text) /\
  (forall input st,
      r_thoughtType (fst (addThought input st))
        = match i_thoughtType input with
          | Some ty => ty
          | None => inferThoughtType (i_thought input)
          end) /\
  (forall input s st,
      exists t,
        s_thoughts (snd (fst (addThoughtTo input s st))) = s_thoughts s ++ [t] /\
        t_thoughtType t
          = match i_thoughtType input with
            | Some ty => ty
            | None => inferThoughtType (i_thought input)
            end).
Proof.
  split; [exact inferThoughtType_classify|]. split.
  - intros input st. rewrite addThought_unfold. cbv zeta. cbn [fst].
    destruct (getOrCreateSession (i_sessionId input) (Some (i_thought input)) st)
      as [[k s] st1]. cbn [fst snd].
    pose proof (addThoughtTo_shape input s st1) as H. cbv zeta in H.
    destruct H as (t & news & _ & _ & _ & _ & _ & _ & _ & _ & _ & _ & _ & _ & _ & Hty
                   & _ & Hr & _).
    now rewrite Hr, Hty.
  - intros input s st.
    pose proof (addThoughtTo_shape input s st) as H. cbv zeta in H.
    destruct H as (t & news & Hth & _ & _ & _ & _ & _ & _ & _ & _ & _ & _ & _ & _ & Hty
                   & _).
    exists t. now split.
Qed.

Lemma switchBranch_sets_active_or_fails_witness :
  fst (switchBranch "s" "alt" st_forked) = true /\
  option_map s_activeBranchId
    (map_get "s" (sessions (snd (switchBranch "s" "alt" st_forked)))) = Some "xxb" /\
  switchBranch "s" "nowhere" st_forked = (false, st_forked).
Proof.
  destruct (map_get "s" (sessions st_forked)) as [s|] eqn:Hs;
    [|vm_compute in Hs; discriminate].
  destruct (switchBranch_sets_active_or_fails st_forked "s" "alt") as [Hok _].
  destruct (switchBranch_sets_active_or_fails st_forked "s" "nowhere") as [_ Hfail].
  pose proof Hs as Hs0. vm_compute in Hs0. injection Hs0 as Heq.
  split; [|split].
  - destruct (Hok s Hs) as (b & _ & _ & Ht & _); [|exact Ht].
    subst s. eexists. split; [right; left; reflexivity | reflexivity].
  - destruct (Hok s Hs) as (b & Hin & Hn & _ & Hact & _).
    + subst s. eexists. split; [right; left; reflexivity | reflexivity].
    + rewrite Hact. subst s. simpl in Hin.
      destruct Hin as [<-|[<-|[]]]; [discriminate Hn | reflexivity].
  - apply Hfail. right. exists s. split; [exact Hs|].
    subst s. intros b [<-|[<-|[]]]; discriminate.
Defined.

(* ------------------------------------------------------------------ *)
(** * Further properties of the code *)

(** ** Titles *)

Lemma string_app_nil_r (s : string) : (s ++ "")%string = s.
Proof. induction s as [|c s IH]; simpl; [reflexivity | now rewrite IH]. Qed.

Lemma string_app_assoc (a b c : string) :
  ((a ++ b) ++ c)%string = (a ++ (b ++ c))%string.
Proof. induction a as [|x a IH]; simpl; [reflexivity | now rewrite IH]. Qed.

Lemma string_length_app (a b : string) :
  String.length (a ++ b)%string = String.length a + String.length b.
Proof. induction a as [|x a IH]; simpl; [reflexivity | now rewrite IH]. Qed.

Lemma prefix_app (a b : string) : String.prefix a (a ++ b)%string = true.
Proof.
  induction a as [|x a IH]; simpl; [now destruct b|].
  destruct (ascii_dec x x); [exact IH | contradiction].
Qed.

Lemma split_space_nonempty s : split_space s <> [].
Proof.
  destruct s as [|c r]; simpl; [discriminate|].
  destruct (Ascii.eqb c " "); [discriminate|].
  destruct (split_space r); discriminate.
Qed.

Lemma join_cons sep w ws :
  ws <> [] -> join sep (w :: ws) = (w ++ sep ++ join sep ws)%string.
Proof. destruct ws; [congruence | reflexivity]. Qed.

Lemma join_split_space s : join " " (split_space s) = s.
Proof.
  induction s as [|c r IH]; simpl; [reflexivity|].
  destruct (Ascii.eqb c " ") eqn:E.
  - apply Ascii.eqb_eq in E. subst c.
    rewrite join_cons by apply split_space_nonempty. simpl. now rewrite IH.
  - pose proof (split_space_nonempty r) as Hne.
    destruct (split_space r) as [|w ws]; [congruence|].
    destruct ws as [|w' ws]; simpl in *; now rewrite <- IH.
Qed.

Lemma join_app sep l1 l2 :
  l1 <> [] -> l2 <> [] ->
  join sep (l1 ++ l2) = (join sep l1 ++ sep ++ join sep l2)%string.
Proof.
  induction l1 as [|w l1 IH]; intros H1 H2; [congruence|].
  destruct l1 as [|w' l1].
  - simpl app. now rewrite join_cons.
  - change ((w :: w' :: l1) ++ l2) with (w :: (w' :: l1) ++ l2).
    rewrite join_cons by discriminate.
    rewrite IH by (discriminate || assumption).
    rewrite (join_cons sep w (w' :: l1)) by discriminate.
    now rewrite !string_app_assoc.
Qed.

(** X1.  Splitting a text at spaces and joining the words with spaces
    gives the text back.  So the title of a problem of at most six words
    is the problem itself; a longer problem gets its first six words, a
    proper beginning of the text, followed by an ellipsis. *)
Theorem generateTitle_keeps_or_truncates (problem : string) :
  let words := split_space problem in
  join " " words = problem /\
  (length words <= 6 -> generateTitle problem = problem) /\
  (6 < length words ->
   generateTitle problem = (join " " (firstn 6 words) ++ "...")%string /\
   String.prefix (join " " (firstn 6 words)) problem = true /\
   join " " (firstn 6 words) <> problem).
Proof.
  cbv zeta. split; [apply join_split_space|]. unfold generateTitle, slice0. split.
  - intros Hle. rewrite firstn_all2 by exact Hle.
    destruct (6 <? length (split_space problem)) eqn:E.
    + apply Nat.ltb_lt in E. lia.
    + now rewrite string_app_nil_r, join_split_space.
  - intros Hlt. pose proof Hlt as E. apply Nat.ltb_lt in E. rewrite E.
    split; [reflexivity|].
    assert (H1 : firstn 6 (split_space problem) <> []).
    { intros H. apply (f_equal (@length string)) in H.
      rewrite length_firstn in H. cbn [length] in H. lia. }
    assert (H2 : skipn 6 (split_space problem) <> []).
    { intros H. apply (f_equal (@length string)) in H.
      rewrite length_skipn in H. cbn [length] in H. lia. }
    pose proof (join_app " " _ _ H1 H2) as Hj.
    rewrite firstn_skipn, join_split_space in Hj.
    split.
    + rewrite Hj at 2. apply prefix_app.
    + intros Heq. rewrite Heq in Hj.
      apply (f_equal String.length) in Hj.
      rewrite string_length_app in Hj. simpl in Hj. lia.
Qed.

Lemma generateTitle_keeps_or_truncates_witness :
  generateTitle "How should we design the cache?" = "How should we design the cache?" /\
  generateTitle "one two three four five six seven" = "one two three four five six...".
Proof.
  split.
  - apply (proj1 (proj2 (generateTitle_keeps_or_truncates
                           "How should we design the cache?"))).
    vm_compute. lia.
  - refine (proj1 (proj2 (proj2 (generateTitle_keeps_or_truncates
                                   "one two three four five six seven")) _)).
    vm_compute. lia.
Defined.

(** ** Resolving and creating sessions *)

Lemma getOrCreateSession_cases sid problem st :
  let out := getOrCreateSession sid problem st in
  let k := fst (fst out) in
  let s := snd (fst out) in
  let st1 := snd out in
  (given sid = Some k /\ map_get k (sessions st) = Some s /\ st1 = st)
  \/
  (freshSession k s /\
   (given sid = Some k /\ map_get k (sessions st) = None
    \/ given sid = None /\ k = uuid_src st (uuid_pos st)) /\
   s_problem s = match given problem with Some p => p | None => "" end /\
   s_title s = match given problem with
               | Some p => generateTitle p
               | None => "New Thinking Session"
               end /\
   sessions st1 = map_set k s (sessions st)).
Proof.
  unfold getOrCreateSession. run.
  destruct (given sid) as [k|] eqn:Hk; simpl.
  - destruct (map_get k (sessions st)) as [s|] eqn:Hs; simpl.
    + left. auto.
    + right. unfold freshSession. simpl. repeat split; auto.
      eexists. simpl. repeat split.
  - right. unfold freshSession. simpl. repeat split; auto.
    eexists. simpl. repeat split.
Qed.

(** X2.  [getOrCreateSession] with the id of a session it holds returns
    that session and changes nothing.  With an unknown id, no id or the
    empty id it makes a session with no thought, status [active] and the
    single branch [main], active and without parent, seeded with the
    problem text and its title; the session is stored under the given id,
    or under a new uuid when the id is absent or empty, and can be looked
    up there; all other sessions are as they were. *)
Theorem getOrCreateSession_finds_or_creates (sid problem : option string)
    (st : State) :
  let out := getOrCreateSession sid problem st in
  let k := fst (fst out) in
  let s := snd (fst out) in
  let st1 := snd out in
  (forall k0 s0, given sid = Some k0 -> map_get k0 (sessions st) = Some s0 ->
     out = ((k0, s0), st)) /\
  ((given sid = None \/
    exists k0, given sid = Some k0 /\ map_get k0 (sessions st) = None) ->
   freshSession k s /\
   (forall k0, given sid = Some k0 -> k = k0) /\
   (given sid = None -> k = uuid_src st (uuid_pos st)) /\
   s_problem s = match given problem with Some p => p | None => "" end /\
   s_title s = match given problem with
               | Some p => generateTitle p
               | None => "New Thinking Session"
               end /\
   map_get k (sessions st1) = Some s /\
   forall k', k' <> k -> map_get k' (sessions st1) = map_get k' (sessions st)).
Proof.
  cbv zeta. split.
  - intros k0 s0 Hk Hs. now apply getOrCreateSession_existing.
  - intros Hnew.
    pose proof (getOrCreateSession_cases sid problem st) as H. cbv zeta in H.
    destruct (getOrCreateSession sid problem st) as [[k s] st1]. simpl in *.
    destruct H as [(Hg & Hs & _) | (Hf & Hk & Hp & Ht & Hss)].
    + exfalso. destruct Hnew as [Hn | (k0 & Hk0 & Hnone)]; congruence.
    + split; [exact Hf|]. split; [|split; [|split; [exact Hp|split; [exact Ht|split]]]].
      * intros k0 Hk0. destruct Hk as [(Hg & _) | (Hg & _)]; congruence.
      * intros Hn. destruct Hk as [(Hg & _) | (_ & Hu)]; congruence.
      * rewrite Hss. apply map_get_set_same.
      * intros k' Hk'. rewrite Hss. apply map_get_set_other. congruence.
Qed.

Lemma getOrCreateSession_finds_or_creates_witness :
  getOrCreateSession (Some "s") None st_forked
    = (("s", snd (fst (getOrCreateSession (Some "s") None st_forked))), st_forked) /\
  fst (fst (getOrCreateSession (Some "") (Some "Why is it slow?") st_forked))
    = uuid_src st_forked (uuid_pos st_forked) /\
  s_title (snd (fst (getOrCreateSession (Some "") (Some "Why is it slow?") st_forked)))
    = "Why is it slow?".
Proof.
  split; [|split].
  - destruct (map_get "s" (sessions st_forked)) as [s|] eqn:Hs;
      [|vm_compute in Hs; discriminate].
    rewrite (proj1 (getOrCreateSession_finds_or_creates (Some "s") None st_forked)
               "s" s eq_refl Hs).
    reflexivity.
  - destruct (proj2 (getOrCreateSession_finds_or_creates (Some "")
                       (Some "Why is it slow?") st_forked) (or_introl eq_refl))
      as (_ & _ & Hu & _).
    apply Hu. reflexivity.
  - destruct (proj2 (getOrCreateSession_finds_or_creates (Some "")
                       (Some "Why is it slow?") st_forked) (or_introl eq_refl))
      as (_ & _ & _ & _ & Ht & _).
    rewrite Ht. reflexivity.
Defined.

(** ** One operation, one session *)

Lemma sessionStep_refl s : sessionStep s s.
Proof.
  repeat split; [constructor|]. exists []. now rewrite app_nil_r.
Qed.

Lemma sessionStep_addThoughtTo input s st :
  sessionStep s (snd (fst (addThoughtTo input s st))).
Proof.
  pose proof (addThoughtTo_shape input s st) as H. cbv zeta in H.
  destruct (addThoughtTo input s st) as [[r s'] st']. simpl in *.
  destruct H as (t & news & Hth & Hbrs & _ & Hid & Hc & _ & _ & _ & _ & _ & _ & Hstep & _).
  repeat split; auto.
  - rewrite Hth. now constructor.
  - now exists news.
Qed.

(** The session held under [k] after the store changed at [k0]. *)
Ltac step_at_key k k0 Hs Hget :=
  destruct (String.eqb k0 k) eqn:?E;
  [ apply String.eqb_eq in E; subst k0;
    rewrite map_get_set_same in Hget; injection Hget as <-;
    eexists; split; [left; exact Hs|]
  | apply String.eqb_neq in E;
    rewrite map_get_set_other in Hget by exact E;
    eexists; split; [left; exact Hget | apply sessionStep_refl] ].

(** Whatever the operation, a session of the resulting store is a
    session of the store before it, or a newly made one, after one step. *)
Lemma exec_session_step op st k s' :
  map_get k (sessions (exec op st)) = Some s' ->
  exists s,
    (map_get k (sessions st) = Some s
     \/ freshSession k s /\
        (map_get k (sessions st) = None \/ k = uuid_src st (uuid_pos st))) /\
    sessionStep s s'.
Proof.
  destruct op as [sid p|input|sid name from|sid|sid x|sid| |sid name]; simpl.
  - pose proof (getOrCreateSession_cases sid p st) as H. cbv zeta in H.
    destruct (getOrCreateSession sid p st) as [[k0 s0] st1]. simpl in *.
    destruct H as [(_ & _ & ->) | (Hf & Hk & _ & _ & Hss)]; intros Hget.
    + exists s'. split; [now left | apply sessionStep_refl].
    + rewrite Hss in Hget. destruct (String.eqb k0 k) eqn:E.
      * apply String.eqb_eq in E. subst k0.
        rewrite map_get_set_same in Hget. injection Hget as <-.
        exists s0. split; [|apply sessionStep_refl]. right. split; [exact Hf|].
        destruct Hk as [(_ & Hn) | (_ & Hu)]; auto.
      * apply String.eqb_neq in E. rewrite map_get_set_other in Hget by exact E.
        exists s'. split; [now left | apply sessionStep_refl].
  - rewrite addThought_unfold. cbv zeta.
    pose proof (getOrCreateSession_cases (i_sessionId input)
                  (Some (i_thought input)) st) as H.
    cbv zeta in H.
    destruct (getOrCreateSession (i_sessionId input) (Some (i_thought input)) st)
      as [[k0 s0] st1]. simpl in *.
    pose proof (sessionStep_addThoughtTo input s0 st1) as Hstep.
    pose proof (addThoughtTo_shape input s0 st1) as H2. cbv zeta in H2.
    destruct (addThoughtTo input s0 st1) as [[r s''] st2]. simpl in *.
    destruct H2 as (_ & _ & _ & _ & _ & _ & _ & Hss2 & _).
    rewrite Hss2. intros Hget.
    destruct (String.eqb k0 k) eqn:E.
    + apply String.eqb_eq in E. subst k0.
      rewrite map_get_set_same in Hget. injection Hget as <-.
      exists s0. split; [|exact Hstep].
      destruct H as [(_ & Hs & _) | (Hf & Hk & _)]; [now left|].
      right. split; [exact Hf|].
      destruct Hk as [(_ & Hn) | (_ & Hu)]; auto.
    + apply String.eqb_neq in E. rewrite map_get_set_other in Hget by exact E.
      exists s'. split; [|apply sessionStep_refl]. left.
      destruct H as [(_ & _ & ->) | (_ & _ & _ & _ & Hss)]; [exact Hget|].
      rewrite Hss in Hget. now rewrite map_get_set_other in Hget by exact E.
  - unfold createBranchIn. run.
    destruct (map_get sid (sessions st)) as [s|] eqn:Hs; simpl; intros Hget.
    + step_at_key k sid Hs Hget.
      repeat split; simpl; [constructor | eexists; reflexivity].
    + exists s'. split; [now left | apply sessionStep_refl].
  - unfold getSummary. run.
    destruct (map_get sid (sessions st)) as [s|] eqn:Hs; simpl; intros Hget.
    + step_at_key k sid Hs Hget.
      repeat split; simpl; [constructor | exists []; now rewrite app_nil_r].
    + exists s'. split; [now left | apply sessionStep_refl].
  - unfold updateSessionStatus. run.
    destruct (map_get sid (sessions st)) as [s|] eqn:Hs; simpl; intros Hget.
    + step_at_key k sid Hs Hget.
      repeat split; simpl; [constructor | exists []; now rewrite app_nil_r].
    + exists s'. split; [now left | apply sessionStep_refl].
  - intros Hget. exists s'. split; [now left | apply sessionStep_refl].
  - intros Hget. exists s'. split; [now left | apply sessionStep_refl].
  - unfold switchBranch. run.
    destruct (map_get sid (sessions st)) as [s|] eqn:Hs; simpl;
      [|intros Hget; exists s'; split; [now left | apply sessionStep_refl]].
    destruct (find _ (s_branches s)) as [b|] eqn:Hb; simpl; intros Hget;
      [|exists s'; split; [now left | apply sessionStep_refl]].
    step_at_key k sid Hs Hget.
    repeat split; simpl; [constructor | exists []; now rewrite app_nil_r].
Qed.

Lemma exec_keeps_sessions op st k s :
  map_get k (sessions st) = Some s ->
  exists s', map_get k (sessions (exec op st)) = Some s'.
Proof.
  intros Hs.
  assert (Hset : forall k0 v m, map_get k m = Some s ->
                   exists s', map_get k (map_set k0 v m) = Some s').
  { intros k0 v m Hm. destruct (String.eqb k0 k) eqn:E.
    - apply String.eqb_eq in E. subst. eexists. apply map_get_set_same.
    - apply String.eqb_neq in E. exists s. now rewrite map_get_set_other. }
  destruct op as [sid p|input|sid name from|sid|sid x|sid| |sid name]; simpl.
  - pose proof (getOrCreateSession_cases sid p st) as H. cbv zeta in H.
    destruct (getOrCreateSession sid p st) as [[k0 s0] st1]. simpl in *.
    destruct H as [(_ & _ & ->) | (_ & _ & _ & _ & ->)]; eauto.
  - rewrite addThought_unfold. cbv zeta. simpl.
    pose proof (getOrCreateSession_cases (i_sessionId input)
                  (Some (i_thought input)) st) as H.
    cbv zeta in H.
    destruct (getOrCreateSession (i_sessionId input) (Some (i_thought input)) st)
      as [[k0 s0] st1]. simpl in *.
    pose proof (addThoughtTo_shape input s0 st1) as H2. cbv zeta in H2.
    destruct (addThoughtTo input s0 st1) as [[r s''] st2]. simpl in *.
    destruct H2 as (_ & _ & _ & _ & _ & _ & _ & -> & _).
    destruct H as [(_ & _ & ->) | (_ & _ & _ & _ & ->)]; eauto.
    destruct (Hset k0 s0 _ Hs) as [s1 Hs1].
    destruct (String.eqb k0 k) eqn:E.
    + apply String.eqb_eq in E. subst. eexists. apply map_get_set_same.
    + apply String.eqb_neq in E. exists s1. now rewrite map_get_set_other.
  - unfold createBranchIn. run. destruct (map_get sid (sessions st)); simpl; eauto.
  - unfold getSummary. run. destruct (map_get sid (sessions st)); simpl; eauto.
  - unfold updateSessionStatus. run. destruct (map_get sid (sessions st)); simpl; eauto.
  - eauto.
  - eauto.
  - unfold switchBranch. run.
    destruct (map_get sid (sessions st)) as [s0|]; simpl; eauto.
    destruct (find _ (s_branches s0)); simpl; eauto.
Qed.

(** X3.  No operation of the manager drops a session, a thought or a
    branch, or alters a thought: if the next uuid is not the id of a
    session held (a session created without id would take its place),
    then after any operation every session is still there under its key,
    with its id and creation date, its branches followed by the new ones,
    and its thoughts unchanged, or sorted by time, or followed by one new
    thought numbered by the count of its branch. *)
Theorem sessions_are_append_only (op : Op) (st : State) (k : string)
    (s : ThinkingSession) :
  map_get k (sessions st) = Some s ->
  map_get (uuid_src st (uuid_pos st)) (sessions st) = None ->
  exists s',
    map_get k (sessions (exec op st)) = Some s' /\ sessionStep s s'.
Proof.
  intros Hs Hfresh.
  destruct (exec_keeps_sessions op st k s Hs) as [s' Hs'].
  exists s'. split; [exact Hs'|].
  destruct (exec_session_step op st k s' Hs') as (s0 & [H0 | (_ & [Hn | Hu])] & Hstep).
  - assert (s0 = s) by congruence. now subst.
  - congruence.
  - subst k. congruence.
Qed.

Lemma sessions_are_append_only_witness :
  match map_get "s" (sessions st_forked) with
  | Some s =>
      exists s',
        map_get "s"
          (sessions (exec (OpAddThought (plain "s" "One more thing")) st_forked))
          = Some s' /\
        sessionStep s s'
  | None => False
  end.
Proof.
  destruct (map_get "s" (sessions st_forked)) as [s|] eqn:Hs;
    [|vm_compute in Hs; discriminate].
  apply (sessions_are_append_only (OpAddThought (plain "s" "One more thing"))
           st_forked "s" s Hs).
  vm_compute. reflexivity.
Defined.

(** ** Step numbers in every reachable state *)

Lemma numbered_fresh k s : freshSession k s -> numbered s.
Proof. intros (_ & Hnil & _) b. rewrite Hnil. simpl. constructor. Qed.

Lemma thoughtsStep_numbered l l' :
  thoughtsStep l l' ->
  (forall b, Permutation (map t_stepNumber (onBranch b l))
               (seq 1 (length (onBranch b l)))) ->
  forall b, Permutation (map t_stepNumber (onBranch b l'))
              (seq 1 (length (onBranch b l'))).
Proof.
  intros Hstep Hn b. specialize (Hn b). destruct Hstep as [l | l | l t Ht].
  - exact Hn.
  - pose proof (onBranch_perm b _ _ (sortByTime_perm l)) as Hp.
    rewrite (Permutation_length Hp). now rewrite Hp.
  - destruct (String.eqb (t_branchId t) b) eqn:E.
    + apply String.eqb_eq in E.
      rewrite (onBranch_snoc_same b _ t E), map_app, length_app. simpl.
      rewrite Nat.add_comm. cbn [Nat.add]. rewrite seq_S.
      apply Permutation_app; [exact Hn|].
      rewrite Ht, E. simpl. now rewrite Nat.add_comm.
    + rewrite onBranch_app. simpl. rewrite E, app_nil_r. exact Hn.
Qed.

Lemma thoughtsStep_numbered_in_order l l' :
  thoughtsStep l l' ->
  sortByTime l = l ->
  (forall b, map t_stepNumber (onBranch b l) = seq 1 (length (onBranch b l))) ->
  forall b, map t_stepNumber (onBranch b l') = seq 1 (length (onBranch b l')).
Proof.
  intros Hstep Hsorted Hn b. specialize (Hn b). destruct Hstep as [l | l | l t Ht].
  - exact Hn.
  - now rewrite Hsorted.
  - destruct (String.eqb (t_branchId t) b) eqn:E.
    + apply String.eqb_eq in E.
      rewrite (onBranch_snoc_same b _ t E), map_app, length_app. simpl.
      rewrite Nat.add_comm. cbn [Nat.add]. rewrite seq_S, Hn, Ht, E.
      simpl. now rewrite Nat.add_comm.
    + rewrite onBranch_app. simpl. rewrite E, app_nil_r. exact Hn.
Qed.

Lemma numbered_step s s' : numbered s -> sessionStep s s' -> numbered s'.
Proof.
  intros Hn (_ & _ & Hstep & _). exact (thoughtsStep_numbered _ _ Hstep Hn).
Qed.

Lemma reachable_numbered st :
  reachable st -> forall k s, map_get k (sessions st) = Some s -> numbered s.
Proof.
  induction 1 as [us up cs cp | st op Hr IH]; intros k s' Hs'; [discriminate|].
  destruct (exec_session_step op st k s' Hs') as (s & [Hs | (Hf & _)] & Hstep).
  - exact (numbered_step s s' (IH k s Hs) Hstep).
  - exact (numbered_step s s' (numbered_fresh k s Hf) Hstep).
Qed.

Lemma reachable_before_timely op st :
  reachable st -> clock_monotone (exec op st) -> allSessions (timely st) st.
Proof.
  intros Hr Hmono. apply reachable_timely; [exact Hr|].
  unfold clock_monotone. rewrite <- (exec_clock_src op st). exact Hmono.
Qed.

Lemma reachable_numbered_in_order st :
  reachable st -> clock_monotone st ->
  forall k s b,
    map_get k (sessions st) = Some s ->
    map t_stepNumber (onBranch b (s_thoughts s))
      = seq 1 (length (onBranch b (s_thoughts s))).
Proof.
  induction 1 as [us up cs cp | st op Hr IH]; intros Hmono k s' b Hs';
    [discriminate|].
  assert (Hmono0 : clock_monotone st).
  { unfold clock_monotone. rewrite <- (exec_clock_src op st). exact Hmono. }
  pose proof (reachable_before_timely op st Hr Hmono) as Htimely.
  destruct (exec_session_step op st k s' Hs') as (s & Hfrom & (_ & _ & Hstep & _)).
  apply (thoughtsStep_numbered_in_order _ _ Hstep).
  - destruct Hfrom as [Hget | ((_ & Hnil & _) & _)].
    + apply sortByTime_inTimeOrder.
      exact (proj1 (allSessions_get _ _ _ _ Htimely Hget)).
    + now rewrite Hnil.
  - intros b'. destruct Hfrom as [Hs | ((_ & Hnil & _) & _)].
    + now apply (IH Hmono0 k).
    + now rewrite Hnil.
Qed.

(** X4.  In every state the store reaches, for every session and every
    branch id, the step numbers of the thoughts carrying that id are
    [1], ..., [n], each exactly once ([n] being their count); they are in
    that order in the array when the clock never goes back. *)
Theorem stepNumbers_contiguous (st : State) :
  reachable st ->
  forall k s b,
    map_get k (sessions st) = Some s ->
    Permutation (map t_stepNumber (onBranch b (s_thoughts s)))
      (seq 1 (length (onBranch b (s_thoughts s)))) /\
    NoDup (map t_stepNumber (onBranch b (s_thoughts s))) /\
    (clock_monotone st ->
     map t_stepNumber (onBranch b (s_thoughts s))
       = seq 1 (length (onBranch b (s_thoughts s)))).
Proof.
  intros Hr k s b Hs.
  pose proof (reachable_numbered st Hr k s Hs b) as Hp.
  split; [exact Hp|]. split.
  - apply (Permutation_NoDup (Permutation_sym Hp)). apply seq_NoDup.
  - intros Hmono. now apply (reachable_numbered_in_order st Hr Hmono k).
Qed.

Lemma stepNumbers_contiguous_witness :
  match map_get "s" (sessions st_forked) with
  | Some s => map t_stepNumber (onBranch "b" (s_thoughts s)) = [1]
              /\ map t_stepNumber (onBranch "xxb" (s_thoughts s)) = [1]
  | None => False
  end.
Proof.
  destruct (map_get "s" (sessions st_forked)) as [s|] eqn:Hs;
    [|vm_compute in Hs; discriminate].
  destruct (stepNumbers_contiguous st_forked reachable_st_forked "s" s "b" Hs)
    as (_ & _ & H1).
  destruct (stepNumbers_contiguous st_forked reachable_st_forked "s" s "xxb" Hs)
    as (_ & _ & H2).
  rewrite (H1 clock_monotone_st_forked), (H2 clock_monotone_st_forked).
  vm_compute in Hs. injection Hs as <-. split; reflexivity.
Defined.

(** ** Keys and listing *)

Lemma map_get_None_keys k (m : SessionMap) :
  map_get k m = None <-> ~ In k (map fst m).
Proof.
  induction m as [|[k' v] m IH]; simpl; [tauto|].
  destruct (String.eqb k' k) eqn:E.
  - apply String.eqb_eq in E. split; [discriminate | intros H; exfalso; apply H; now left].
  - apply String.eqb_neq in E. rewrite IH. tauto.
Qed.

Lemma keys_map_set k v (m : SessionMap) :
  map fst (map_set k v m)
    = match map_get k m with
      | Some _ => map fst m
      | None => map fst m ++ [k]
      end.
Proof.
  induction m as [|[k' v'] m IH]; simpl; [reflexivity|].
  destruct (String.eqb k' k) eqn:E; simpl.
  - apply String.eqb_eq in E. now subst.
  - rewrite IH. now destruct (map_get k m).
Qed.

Lemma keys_writeAll writes : forall m,
  (exists more, map fst (writeAll writes m) = map fst m ++ more) /\
  (NoDup (map fst m) -> NoDup (map fst (writeAll writes m))).
Proof.
  induction writes as [|[k v] writes IH]; intros m; simpl.
  - split; [exists []; now rewrite app_nil_r | auto].
  - destruct (IH (map_set k v m)) as [(more & Hmore) Hnd].
    rewrite keys_map_set in Hmore, Hnd.
    destruct (map_get k m) eqn:Hk.
    + split; [now exists more | exact Hnd].
    + split.
      * exists (k :: more). rewrite Hmore, <- app_assoc. reflexivity.
      * intros H. apply Hnd. apply NoDup_app; [exact H | repeat constructor; intros [] |].
        intros a Ha [<-|[]]. now apply map_get_None_keys in Hk.
Qed.

Lemma exec_writes op st :
  exists writes, sessions (exec op st) = writeAll writes (sessions st).
Proof.
  destruct op as [sid p|input|sid name from|sid|sid x|sid| |sid name]; simpl.
  - pose proof (getOrCreateSession_cases sid p st) as H. cbv zeta in H.
    destruct (getOrCreateSession sid p st) as [[k0 s0] st1]. simpl in *.
    destruct H as [(_ & _ & ->) | (_ & _ & _ & _ & ->)];
      [now exists [] | now exists [(k0, s0)]].
  - rewrite addThought_unfold. cbv zeta. simpl.
    pose proof (getOrCreateSession_cases (i_sessionId input)
                  (Some (i_thought input)) st) as H.
    cbv zeta in H.
    destruct (getOrCreateSession (i_sessionId input) (Some (i_thought input)) st)
      as [[k0 s0] st1]. simpl in *.
    pose proof (addThoughtTo_shape input s0 st1) as H2. cbv zeta in H2.
    destruct (addThoughtTo input s0 st1) as [[r s''] st2]. simpl in *.
    destruct H2 as (_ & _ & _ & _ & _ & _ & _ & -> & _).
    destruct H as [(_ & _ & ->) | (_ & _ & _ & _ & ->)];
      [now exists [(k0, s'')] | now exists [(k0, s0); (k0, s'')]].
  - unfold createBranchIn. run.
    destruct (map_get sid (sessions st)); simpl;
      [eexists [(_, _)]; reflexivity | now exists []].
  - unfold getSummary. run.
    destruct (map_get sid (sessions st)); simpl;
      [eexists [(_, _)]; reflexivity | now exists []].
  - unfold updateSessionStatus. run.
    destruct (map_get sid (sessions st)); simpl;
      [eexists [(_, _)]; reflexivity | now exists []].
  - now exists [].
  - now exists [].
  - unfold switchBranch. run.
    destruct (map_get sid (sessions st)) as [s|]; simpl; [|now exists []].
    destruct (find _ (s_branches s)); simpl;
      [eexists [(_, _)]; reflexivity | now exists []].
Qed.

Lemma reachable_keys_NoDup st : reachable st -> NoDup (map fst (sessions st)).
Proof.
  induction 1 as [us up cs cp | st op Hr IH]; [constructor|].
  destruct (exec_writes op st) as [writes ->].
  now apply keys_writeAll.
Qed.

Lemma reachable_keyed st :
  reachable st -> forall k s, map_get k (sessions st) = Some s -> s_id s = k.
Proof.
  induction 1 as [us up cs cp | st op Hr IH]; intros k s' Hs'; [discriminate|].
  destruct (exec_session_step op st k s' Hs')
    as (s & [Hs | ((Hid & _) & _)] & (Hid' & _)).
  - rewrite Hid'. now apply IH.
  - congruence.
Qed.

Lemma NoDup_keys_In_get k s (m : SessionMap) :
  NoDup (map fst m) -> In (k, s) m -> map_get k m = Some s.
Proof.
  induction m as [|[k' v] m IH]; simpl; intros Hnd Hin; [contradiction|].
  inversion Hnd as [|? ? Hnotin Hnd']; subst.
  destruct Hin as [[= -> ->] | Hin].
  - now rewrite String.eqb_refl.
  - destruct (String.eqb k' k) eqn:E; [|now apply IH].
    apply String.eqb_eq in E. subst k'. exfalso. apply Hnotin.
    apply in_map_iff. now exists (k, s).
Qed.

(** X5.  In every state the store reaches, [listSessions] lists every
    session exactly once, in the order the sessions were created, with the
    id it is held under, its title, its status and the number of its
    thoughts; and an operation can only add entries at the end of the
    listing. *)
Theorem listSessions_lists_each_session_once (st : State) :
  reachable st ->
  map li_id (fst (listSessions st)) = map fst (sessions st) /\
  NoDup (map li_id (fst (listSessions st))) /\
  (forall k s,
      map_get k (sessions st) = Some s <->
      In (k, s) (sessions st)) /\
  fst (listSessions st)
    = map (fun e => mkSessionInfo (fst e) (s_title (snd e)) (s_status (snd e))
                      (length (s_thoughts (snd e))))
        (sessions st) /\
  (forall op, exists more,
      map li_id (fst (listSessions (exec op st)))
        = map li_id (fst (listSessions st)) ++ more).
Proof.
  intros Hr.
  pose proof (reachable_keys_NoDup st Hr) as Hnd.
  assert (Hlist : forall st', reachable st' ->
            fst (listSessions st')
              = map (fun e => mkSessionInfo (fst e) (s_title (snd e))
                                (s_status (snd e)) (length (s_thoughts (snd e))))
                  (sessions st')).
  { intros st' Hr'. unfold listSessions, map_values. run. rewrite map_map.
    apply map_ext_in. intros [k s] Hin. simpl. f_equal.
    apply (reachable_keyed st' Hr').
    apply NoDup_keys_In_get; [now apply reachable_keys_NoDup | exact Hin]. }
  assert (Hids : forall st', reachable st' ->
            map li_id (fst (listSessions st')) = map fst (sessions st')).
  { intros st' Hr'. rewrite (Hlist st' Hr'), map_map. reflexivity. }
  split; [now apply Hids|]. split; [now rewrite Hids|]. split; [|split].
  - intros k s. split; [apply map_get_In | now apply NoDup_keys_In_get].
  - now apply Hlist.
  - intros op. rewrite (Hids st Hr), (Hids (exec op st)).
    + destruct (exec_writes op st) as [writes ->].
      exact (proj1 (keys_writeAll writes (sessions st))).
    + now apply reachable_step.
Qed.

Lemma listSessions_lists_each_session_once_witness :
  map li_id (fst (listSessions st_forked)) = ["s"] /\
  NoDup (map li_id (fst (listSessions st_forked))).
Proof.
  destruct (listSessions_lists_each_session_once st_forked reachable_st_forked)
    as (H1 & H2 & _).
  split; [rewrite H1; reflexivity | exact H2].
Defined.

(** ** Creating a branch *)

Lemma reachable_activeBranchPresent st :
  reachable st -> allSessions activeBranchPresent st.
Proof.
  apply (reachableBy_invariant exec (allSessions activeBranchPresent)).
  - intros. constructor.
  - intros op st' H. now apply exec_preserves_activeBranchPresent.
Qed.

Lemma findBranch_present s :
  activeBranchPresent s ->
  option_map b_id (findBranch (s_activeBranchId s) (s_branches s))
    = Some (s_activeBranchId s).
Proof.
  intros (b & Hin & Hid). unfold findBranch.
  destruct (find _ (s_branches s)) as [b'|] eqn:E.
  - apply find_some in E. destruct E as [_ E]. apply String.eqb_eq in E.
    simpl. now rewrite E.
  - pose proof (find_none _ _ E b Hin) as H. simpl in H.
    rewrite Hid, String.eqb_refl in H. discriminate.
Qed.

(** X6.  [createBranch] on a session of a reachable store: the new
    branch has the given name and the active branch as parent and is
    pushed after the others, the active branch staying what it was.  Its
    fork point is resolved exactly when the number given as
    [branchFromStep] is strictly equal to a step number of the active
    branch, that is to an integer between 1 and the number of thoughts
    on it; it is then the id of a thought of that branch with that step
    number.  It is absent when no [branchFromStep] is given, and for a
    number that is no integer, an infinity or [NaN]. *)
Theorem createBranch_resolves_fork_point (st : State) (k : string)
    (s : ThinkingSession) (name : string) (from : option JsNumber) :
  reachable st ->
  map_get k (sessions st) = Some s ->
  let nb := fst (fst (createBranch s name from st)) in
  let s' := snd (fst (createBranch s name from st)) in
  s_branches s' = s_branches s ++ [nb] /\
  s_activeBranchId s' = s_activeBranchId s /\
  s_thoughts s' = s_thoughts s /\
  b_name nb = name /\
  b_parentBranchId nb = Some (s_activeBranchId s) /\
  (from = None -> b_branchFromStepId nb = None) /\
  (forall x, from = Some x ->
     (b_branchFromStepId nb <> None <->
      exists n,
        1 <= n <= length (onBranch (s_activeBranchId s) (s_thoughts s)) /\
        strict_eq_nat n x = true)) /\
  (forall x, from = Some x ->
     (forall n, strict_eq_nat n x = false) -> b_branchFromStepId nb = None) /\
  (forall i, b_branchFromStepId nb = Some i ->
     exists t x,
       from = Some x /\ In t (s_thoughts s) /\ t_id t = i /\
       t_branchId t = s_activeBranchId s /\
       strict_eq_nat (t_stepNumber t) x = true).
Proof.
  intros Hr Hs. cbv zeta. unfold createBranch. run.
  pose proof (allSessions_get _ _ _ _ (reachable_activeBranchPresent st Hr) Hs) as Hact.
  pose proof (reachable_numbered st Hr k s Hs (s_activeBranchId s)) as Hnum.
  split; [reflexivity|]. split; [reflexivity|]. split; [reflexivity|].
  split; [reflexivity|]. split; [now apply findBranch_present|].
  split; [now intros ->|].
  assert (Hiff : forall x,
    option_map t_id
      (find (fun t => strict_eq_nat (t_stepNumber t) x
                      && String.eqb (t_branchId t) (s_activeBranchId s))
         (s_thoughts s)) <> None <->
    exists n,
      1 <= n <= length (onBranch (s_activeBranchId s) (s_thoughts s)) /\
      strict_eq_nat n x = true).
  { intros x.
    set (f := fun t => strict_eq_nat (t_stepNumber t) x
                       && String.eqb (t_branchId t) (s_activeBranchId s)).
    destruct (find f (s_thoughts s)) as [t|] eqn:E; simpl.
    - split; [intros _ | discriminate].
      apply find_some in E. destruct E as [Hin Hf]. unfold f in Hf.
      apply andb_true_iff in Hf. destruct Hf as [Hn Hb].
      exists (t_stepNumber t). split; [|exact Hn].
      assert (Hon : In t (onBranch (s_activeBranchId s) (s_thoughts s))).
      { apply filter_In. now split. }
      apply (in_map t_stepNumber) in Hon.
      apply (Permutation_in _ Hnum) in Hon. apply in_seq in Hon. lia.
    - split; [congruence | intros (n & Hrange & Hn); exfalso].
      assert (Hin : In n (seq 1 (length (onBranch (s_activeBranchId s) (s_thoughts s))))).
      { apply in_seq. lia. }
      apply (Permutation_in _ (Permutation_sym Hnum)) in Hin.
      apply in_map_iff in Hin. destruct Hin as (t & Ht & Hon).
      apply filter_In in Hon. destruct Hon as [Hin Hb].
      pose proof (find_none _ _ E t Hin) as Hf. unfold f in Hf.
      rewrite Hb, andb_true_r, Ht in Hf. congruence. }
  split; [|split].
  - intros x ->. apply Hiff.
  - intros x -> Hno.
    destruct (option_map t_id _) as [i|] eqn:E; [|reflexivity].
    exfalso. destruct (proj1 (Hiff x)) as (n & _ & Hn); [rewrite E; discriminate|].
    rewrite Hno in Hn. discriminate.
  - intros i Hi. destruct from as [x|]; [|discriminate].
    destruct (find _ (s_thoughts s)) as [t|] eqn:E; [|discriminate].
    apply find_some in E. destruct E as [Hin Hf].
    apply andb_true_iff in Hf. destruct Hf as [Hn Hb].
    apply String.eqb_eq in Hb.
    simpl in Hi. injection Hi as <-. now exists t, x.
Qed.

Lemma createBranch_resolves_fork_point_witness :
  match map_get "s" (sessions st_forked) with
  | Some s =>
      b_branchFromStepId
        (fst (fst (createBranch s "third way" (Some (number_of_Z 1)) st_forked)))
        <> None /\
      b_parentBranchId
        (fst (fst (createBranch s "third way" (Some (number_of_Z 2)) st_forked)))
        = Some (s_activeBranchId s) /\
      b_branchFromStepId
        (fst (fst (createBranch s "third way" (Some (JsFinite (3 # 2))) st_forked)))
        = None
  | None => False
  end.
Proof.
  destruct (map_get "s" (sessions st_forked)) as [s|] eqn:Hs;
    [|vm_compute in Hs; discriminate].
  split; [|split].
  - destruct (createBranch_resolves_fork_point st_forked "s" s "third way"
                (Some (number_of_Z 1)) reachable_st_forked Hs)
      as (_ & _ & _ & _ & _ & _ & H & _).
    apply (H (number_of_Z 1) eq_refl). exists 1.
    vm_compute in Hs. injection Hs as <-.
    vm_compute. split; [split; constructor | reflexivity].
  - destruct (createBranch_resolves_fork_point st_forked "s" s "third way"
                (Some (number_of_Z 2)) reachable_st_forked Hs)
      as (_ & _ & _ & _ & H & _).
    exact H.
  - destruct (createBranch_resolves_fork_point st_forked "s" s "third way"
                (Some (JsFinite (3 # 2))) reachable_st_forked Hs)
      as (_ & _ & _ & _ & _ & _ & _ & H & _).
    apply (H (JsFinite (3 # 2)) eq_refl). intros n. unfold strict_eq_nat.
    apply not_true_is_false. intros Hq. apply Qeq_bool_iff in Hq.
    unfold Qeq in Hq. simpl in Hq. lia.
Defined.

(** ** More on appending *)

Lemma addThoughtTo_problem input s st :
  let s' := snd (fst (addThoughtTo input s st)) in
  if (length (s_thoughts s) =? 0) && negb (truthy (s_problem s))
  then s_problem s' = i_thought input /\
       s_title s' = generateTitle (i_thought input)
  else s_problem s' = s_problem s /\ s_title s' = s_title s.
Proof.
  cbv zeta. unfold addThoughtTo.
  destruct (given (i_newBranchName input)); run; rewrite length_app; simpl;
    destruct (s_thoughts s) as [|t0 l]; simpl;
    try (destruct (truthy (s_problem s)); simpl; now split).
  all: replace (length l + 1) with (S (length l)) by lia; simpl; now split.
Qed.

(** X7.  The problem and the title of a session are set once: a call of
    [addThought] seeds them from its text (the title being the text cut to
    six words) when the session it resolves to has no thought and an empty
    problem, and leaves them as they are otherwise.  A session the call
    creates always ends up with the call's text as its problem. *)
Theorem addThought_sets_problem_once (input : AddThoughtInput) (st : State) :
  let resolved :=
    getOrCreateSession (i_sessionId input) (Some (i_thought input)) st in
  let k := fst (fst resolved) in
  let s := snd (fst resolved) in
  exists s',
    map_get k (sessions (snd (addThought input st))) = Some s' /\
    (s_thoughts s = [] -> truthy (s_problem s) = false ->
     s_problem s' = i_thought input /\
     s_title s' = generateTitle (i_thought input)) /\
    (s_thoughts s <> [] \/ truthy (s_problem s) = true ->
     s_problem s' = s_problem s /\ s_title s' = s_title s) /\
    (map_get k (sessions st) = None ->
     s_problem s' = i_thought input /\
     s_title s' = generateTitle (i_thought input)).
Proof.
  cbv zeta. rewrite addThought_unfold. cbv zeta.
  pose proof (getOrCreateSession_cases (i_sessionId input)
                (Some (i_thought input)) st) as H.
  cbv zeta in H.
  destruct (getOrCreateSession (i_sessionId input) (Some (i_thought input)) st)
    as [[k s] st1]. simpl in *.
  pose proof (addThoughtTo_problem input s st1) as Hp. cbv zeta in Hp.
  destruct (addThoughtTo input s st1) as [[r s'] st2]. simpl in *.
  exists s'. split; [apply map_get_set_same|]. split; [|split].
  - intros Hnil Hfalse. rewrite Hnil, Hfalse in Hp. exact Hp.
  - intros Hor.
    destruct (s_thoughts s) as [|t0 l]; simpl in Hp; [|exact Hp].
    destruct Hor as [Hne | Htrue]; [congruence|]. now rewrite Htrue in Hp.
  - intros Hnone.
    destruct H as [(_ & Hs & _) | ((_ & Hnil & _) & _ & Hprob & Htitle & _)];
      [congruence|].
    rewrite Hnil in Hp. simpl in Hp, Hprob, Htitle.
    destruct (truthy (i_thought input)) eqn:Ht.
    + rewrite Hprob, Ht in Hp. simpl in Hp. destruct Hp as [-> ->]. now split.
    + rewrite Hprob in Hp. exact Hp.
Qed.

Lemma addThought_sets_problem_once_witness :
  exists s',
    map_get "s"
      (sessions (snd (addThought (plain "s" "One more thing") st_forked))) = Some s' /\
    s_problem s' = "How should we design the cache?" /\
    s_title s' = "How should we design the cache?".
Proof.
  destruct (addThought_sets_problem_once (plain "s" "One more thing") st_forked)
    as (s' & Hs' & _ & Hkeep & _).
  exists s'. split; [exact Hs'|]. apply Hkeep. right. reflexivity.
Defined.

Lemma addThoughtTo_new_branch input s st name :
  given (i_newBranchName input) = Some name ->
  s_branches (snd (fst (addThoughtTo input s st)))
    = s_branches s ++ [fst (fst (createBranch s name (i_branchFromStep input) st))].
Proof.
  intros Hn. unfold addThoughtTo. rewrite Hn. run.
  match goal with
  | |- context [if ?c then _ else _] => destruct c
  end; reflexivity.
Qed.

Lemma onBranch_none b l :
  (forall t, In t l -> t_branchId t <> b) -> onBranch b l = [].
Proof.
  unfold onBranch. induction l as [|t0 l IH]; simpl; intros Hnone; [reflexivity|].
  destruct (String.eqb (t_branchId t0) b) eqn:E.
  - apply String.eqb_eq in E. exfalso. apply (Hnone t0); [now left | exact E].
  - apply IH. intros t1 Ht1. apply Hnone. now right.
Qed.

(** X8.  A call of [addThought] with a [newBranchName] on an existing
    session pushes the branch [createBranch] makes, makes it the active
    one, and puts the thought on it, whatever [branchId] the call also
    carries; the thought is numbered by the count of thoughts already
    carrying the new id, so it is step 1 when there is none, and the
    result reports one branch more and that step as the current one. *)
Theorem addThought_newBranchName_forks (input : AddThoughtInput) (st : State)
    (k : string) (s : ThinkingSession) (name : string) :
  given (i_sessionId input) = Some k ->
  map_get k (sessions st) = Some s ->
  given (i_newBranchName input) = Some name ->
  let nb := fst (fst (createBranch s name (i_branchFromStep input) st)) in
  let r := fst (addThought input st) in
  exists s' t,
    map_get k (sessions (snd (addThought input st))) = Some s' /\
    s_branches s' = s_branches s ++ [nb] /\
    b_name nb = name /\
    s_activeBranchId s' = b_id nb /\
    s_thoughts s' = s_thoughts s ++ [t] /\
    t_branchId t = b_id nb /\
    t_stepNumber t = length (onBranch (b_id nb) (s_thoughts s)) + 1 /\
    ((forall t0, In t0 (s_thoughts s) -> t_branchId t0 <> b_id nb) ->
     t_stepNumber t = 1) /\
    r_stepNumber r = t_stepNumber t /\
    r_branchCount r = length (s_branches s) + 1 /\
    p_currentStep (r_progress r) = r_stepNumber r.
Proof.
  intros Hk Hs Hn. cbv zeta. rewrite addThought_unfold. cbv zeta.
  rewrite (getOrCreateSession_existing st _ _ k s Hk Hs). cbn [fst snd].
  pose proof (addThoughtTo_new_branch input s st name Hn) as Hnb.
  remember (fst (fst (createBranch s name (i_branchFromStep input) st))) as nb
    eqn:Hnbdef.
  clear Hnbdef.
  pose proof (addThoughtTo_shape input s st) as H. cbv zeta in H.
  assert (Hprog : r_progress (fst (fst (addThoughtTo input s st)))
                  = getProgress (snd (fst (addThoughtTo input s st)))).
  { unfold addThoughtTo. rewrite Hn. run.
    match goal with
    | |- context [if ?c then _ else _] => destruct c
    end; reflexivity. }
  destruct (addThoughtTo input s st) as [[r s'] st2]. simpl in *.
  destruct H as (t & news & Hth & Hbrs & _ & _ & _ & _ & _ & _ & _ & _ & _ & Hstep
                 & _ & _ & Hr & _ & _ & Hbc & Hcase).
  rewrite Hn in Hcase. destruct Hcase as (b & -> & Hname & Hbid & Hact & Htb).
  assert (Hb : b = nb).
  { rewrite Hbrs in Hnb. now apply app_inv_head in Hnb as [= ->]. }
  subst nb.
  exists s', t. rewrite map_get_set_same.
  split; [reflexivity|]. split; [exact Hbrs|]. split; [exact Hname|].
  split; [exact Hact|]. split; [exact Hth|]. split; [exact Htb|].
  rewrite Htb in Hstep. split; [exact Hstep|]. split; [|split; [|split]].
  - intros Hnone. rewrite Hstep.
    now rewrite (onBranch_none _ _ Hnone).
  - exact Hr.
  - rewrite Hbc, Hbrs, length_app. reflexivity.
  - rewrite Hprog, Hr, Hstep. unfold getProgress. simpl.
    rewrite Hact, Hth, (onBranch_snoc_same _ _ t Htb), length_app. reflexivity.
Qed.

Lemma addThought_newBranchName_forks_witness :
  r_stepNumber (fst (addThought (forking "s" "Or a bloom filter" "bloom") st_forked)) = 1 /\
  r_branchCount (fst (addThought (forking "s" "Or a bloom filter" "bloom") st_forked)) = 3.
Proof.
  destruct (map_get "s" (sessions st_forked)) as [s|] eqn:Hs;
    [|vm_compute in Hs; discriminate].
  destruct (addThought_newBranchName_forks (forking "s" "Or a bloom filter" "bloom")
              st_forked "s" s "bloom" eq_refl Hs eq_refl)
    as (s' & t & _ & _ & _ & _ & _ & _ & _ & H1 & Hr & Hc & _).
  vm_compute in Hs. injection Hs as <-. split.
  - rewrite Hr. apply H1. intros t0 Hin. vm_compute in Hin.
    destruct Hin as [<-|[<-|[]]]; vm_compute; discriminate.
  - rewrite Hc. reflexivity.
Defined.

(** ** The result bundle and the progress snapshot *)

Lemma addThoughtTo_result input s st :
  let r := fst (fst (addThoughtTo input s st)) in
  let s' := snd (fst (addThoughtTo input s st)) in
  r_progress r = getProgress s' /\
  r_sessionId r = s_id s' /\
  r_thoughtRecorded r = i_thought input /\
  r_nextThoughtNeeded r = i_nextThoughtNeeded input /\
  r_isRevision r = match i_isRevision input with Some b => b | None => false end /\
  (given (i_branchId input) = None ->
   r_activeBranch r = branchNameOf (s_activeBranchId s') (s_branches s')).
Proof.
  cbv zeta. unfold addThoughtTo.
  destruct (given (i_newBranchName input)); run;
    match goal with
    | |- context [if ?c then _ else _] => destruct c
    end; simpl; repeat split; intros ->; reflexivity.
Qed.

Lemma ofType_snoc ty l t :
  ofType ty (l ++ [t])
    = ofType ty l ++ (if type_eqb (t_thoughtType t) ty then [t] else []).
Proof. unfold ofType. rewrite filter_app. reflexivity. Qed.

Lemma status_eqb_eq a b : status_eqb a b = true <-> a = b.
Proof.
  unfold status_eqb. destruct (SessionStatus_eq_dec a b); split; congruence.
Qed.

(** X9.  What [addThought] returns describes the session as the call
    leaves it: the session's id, the thought count over all branches, the
    branch count and the progress snapshot of that session.  The flag
    [hasMoreThoughts] is false exactly when the session is not active and
    holds a conclusion (the new thought included).  When the call
    supplies no [branchId], the returned step number and branch name are
    the current step and the active branch of the snapshot. *)
Theorem addThought_result_describes_session (input : AddThoughtInput)
    (st : State) (k : string) (s : ThinkingSession) :
  given (i_sessionId input) = Some k ->
  map_get k (sessions st) = Some s ->
  let r := fst (addThought input st) in
  exists s',
    map_get k (sessions (snd (addThought input st))) = Some s' /\
    r_sessionId r = s_id s /\
    r_totalSteps r = length (s_thoughts s') /\
    r_totalSteps r = length (s_thoughts s) + 1 /\
    r_branchCount r = length (s_branches s') /\
    r_progress r = getProgress s' /\
    p_currentStep (r_progress r) <= p_totalSteps (r_progress r) /\
    (p_hasMoreThoughts (r_progress r) = false <->
     s_status s <> active /\
     (ofType conclusion (s_thoughts s) <> [] \/ r_thoughtType r = conclusion)) /\
    (given (i_branchId input) = None ->
     r_stepNumber r = p_currentStep (r_progress r) /\
     r_activeBranch r = p_activeBranch (r_progress r)).
Proof.
  intros Hk Hs. cbv zeta. rewrite addThought_unfold. cbv zeta.
  rewrite (getOrCreateSession_existing st _ _ k s Hk Hs). cbn [fst snd].
  pose proof (addThoughtTo_result input s st) as Hres. cbv zeta in Hres.
  pose proof (addThoughtTo_shape input s st) as H. cbv zeta in H.
  destruct (addThoughtTo input s st) as [[r s'] st2]. simpl in *.
  destruct Hres as (Hprog & Hsid & _ & _ & _ & Hname).
  destruct H as (t & news & Hth & Hbrs & Hst & Hid & _ & _ & _ & _ & _ & _ & _ & Hstep
                 & _ & _ & Hr & Hty & Htot & Hbc & Hcase).
  exists s'. rewrite map_get_set_same.
  split; [reflexivity|]. split; [congruence|].
  split; [rewrite Htot, Hth, length_app; reflexivity|]. split; [exact Htot|].
  split; [exact Hbc|]. split; [exact Hprog|]. rewrite Hprog. split; [|split].
  - unfold getProgress, onBranch. simpl. apply filter_length_le.
  - unfold getProgress. simpl. rewrite Hth, ofType_snoc, length_app, Hst, Hty.
    rewrite orb_false_iff, Nat.eqb_neq. split.
    + intros [Hlen Hact]. split.
      * intros Ha. rewrite Ha in Hact. discriminate.
      * destruct (ofType conclusion (s_thoughts s)) as [|c l]; [right | left; discriminate].
        destruct (type_eqb (t_thoughtType t) conclusion) eqn:E;
          [now apply type_eqb_eq | simpl in Hlen; congruence].
    + intros [Hact Hc]. split.
      * destruct Hc as [Hc | Hc].
        -- destruct (ofType conclusion (s_thoughts s)); [congruence | simpl; lia].
        -- apply type_eqb_eq in Hc. rewrite Hc. simpl. lia.
      * destruct (status_eqb (s_status s) active) eqn:E; [|reflexivity].
        apply status_eqb_eq in E. contradiction.
  - intros Hb. rewrite (Hname Hb). split; [|reflexivity].
    unfold getProgress. simpl. rewrite Hr, Hstep, Hth.
    assert (Hta : t_branchId t = s_activeBranchId s').
    { destruct (given (i_newBranchName input)).
      - destruct Hcase as (b & _ & _ & _ & Hact & Htb). congruence.
      - destruct Hcase as (_ & Hact & Htb). rewrite Hb in Htb. congruence. }
    rewrite <- Hta, (onBranch_snoc_same _ _ t eq_refl), length_app. reflexivity.
Qed.

Lemma addThought_result_describes_session_witness :
  r_totalSteps (fst (addThought (plain "s" "Therefore we use LRU")
                       (withStatus "s" completed st_forked))) = 3 /\
  p_hasMoreThoughts
    (r_progress (fst (addThought (plain "s" "Therefore we use LRU")
                        (withStatus "s" completed st_forked)))) = false.
Proof.
  destruct (map_get "s" (sessions (withStatus "s" completed st_forked))) as [s|] eqn:Hs;
    [|vm_compute in Hs; discriminate].
  destruct (addThought_result_describes_session (plain "s" "Therefore we use LRU")
              (withStatus "s" completed st_forked) "s" s eq_refl Hs)
    as (s' & _ & _ & _ & Htot & _ & _ & _ & Hmore & _).
  vm_compute in Hs. injection Hs as <-. split.
  - rewrite Htot. reflexivity.
  - apply Hmore. split; [discriminate | right; reflexivity].
Defined.

(** ** Tallies of thought types *)

Lemma count_of_bump ty ty' c :
  count_of ty (bump ty' c)
    = count_of ty c + (if type_eqb ty' ty then 1 else 0).
Proof.
  induction c as [|[k n] c IH]; simpl.
  - destruct (type_eqb ty' ty); reflexivity.
  - destruct (type_eqb k ty') eqn:E1; simpl.
    + apply type_eqb_eq in E1. subst k.
      destruct (type_eqb ty' ty); lia.
    + destruct (type_eqb k ty) eqn:E2; [|exact IH].
      apply type_eqb_eq in E2. subst k.
      destruct (type_eqb ty' ty) eqn:E3; [|lia].
      apply type_eqb_eq in E3. subst ty'.
      assert (type_eqb ty ty = true) by now apply type_eqb_eq.
      congruence.
Qed.

Lemma count_of_tally ty l : forall c,
  count_of ty (fold_left (fun c t => bump (t_thoughtType t) c) l c)
    = count_of ty c + length (ofType ty l).
Proof.
  induction l as [|t l IH]; intros c; simpl; [lia|].
  rewrite IH, count_of_bump.
  destruct (type_eqb (t_thoughtType t) ty); simpl; lia.
Qed.

(** X10.  The progress summary counts, over all branches, the
    observations, hypotheses, insights and conclusions: it is the
    placeholder text when the session has none of them, and otherwise the
    list of the counts that are not zero, in that order. *)
Theorem generateQuickSummary_counts (s : ThinkingSession) :
  let n ty := length (ofType ty (s_thoughts s)) in
  let part ty (plural : string) :=
    if 0 <? n ty then [(JsString.of_nat (n ty) ++ " " ++ plural)%string] else [] in
  (n observation = 0 -> n hypothesis = 0 -> n insight = 0 -> n conclusion = 0 ->
   generateQuickSummary s = "Starting analysis...") /\
  (0 < n observation + n hypothesis + n insight + n conclusion ->
   generateQuickSummary s
     = join ", " (part observation "observations" ++ part hypothesis "hypotheses"
                  ++ part insight "insights" ++ part conclusion "conclusions")).
Proof.
  cbv zeta. unfold generateQuickSummary.
  rewrite !count_of_tally. simpl.
  split.
  - intros -> -> -> ->. reflexivity.
  - intros Hpos.
    destruct (length (ofType observation (s_thoughts s))) as [|a];
    destruct (length (ofType hypothesis (s_thoughts s))) as [|b];
    destruct (length (ofType insight (s_thoughts s))) as [|c];
    destruct (length (ofType conclusion (s_thoughts s))) as [|d];
    simpl in *; try lia; reflexivity.
Qed.

Lemma generateQuickSummary_counts_witness :
  match map_get "s" (sessions st_forked) with
  | Some s => generateQuickSummary s = "1 hypotheses"
  | None => False
  end.
Proof.
  destruct (map_get "s" (sessions st_forked)) as [s|] eqn:Hs;
    [|vm_compute in Hs; discriminate].
  rewrite (proj2 (generateQuickSummary_counts s));
    vm_compute in Hs; injection Hs as <-; [reflexivity | vm_compute; lia].
Defined.

(** ** The summary *)

Lemma bump_sum ty c :
  In ty (map fst c) -> list_sum (map snd (bump ty c)) = S (list_sum (map snd c)).
Proof.
  induction c as [|[k n] c IH]; simpl; intros Hin; [contradiction|].
  destruct (type_eqb k ty) eqn:E; simpl; [lia|].
  rewrite IH; [lia|]. destruct Hin as [Hk|Hin]; [|exact Hin].
  apply type_eqb_eq in Hk. congruence.
Qed.

Lemma tally_keys_sum l : forall c,
  (forall ty, In ty (map fst c)) ->
  map fst (fold_left (fun c t => bump (t_thoughtType t) c) l c) = map fst c /\
  list_sum (map snd (fold_left (fun c t => bump (t_thoughtType t) c) l c))
    = list_sum (map snd c) + length l.
Proof.
  induction l as [|t l IH]; intros c Hc; simpl; [split; [reflexivity | lia]|].
  assert (Hk : map fst (bump (t_thoughtType t) c) = map fst c).
  { destruct (bump_keys (t_thoughtType t) c) as [H|H]; [exact H|].
    exfalso. apply H, Hc. }
  destruct (IH (bump (t_thoughtType t) c)) as [IH1 IH2].
  - intros ty. rewrite Hk. apply Hc.
  - rewrite IH1, IH2, Hk, bump_sum by apply Hc. split; [reflexivity | lia].
Qed.

Lemma initial_tally_covers ty :
  In ty (map fst [(observation, 0); (analysis, 0); (hypothesis, 0);
                  (verification, 0); (refinement, 0); (conclusion, 0);
                  (question, 0); (insight, 0); (reflection, 0)]).
Proof. destruct ty; simpl; tauto. Qed.

(** X11.  [getSummary] of a session it holds reports the session's id,
    title, problem and status and one entry per branch, in the order of
    the branches.  An entry counts the thoughts carrying the branch's id,
    and its tally has the nine thought types as keys, gives for each type
    the number of those thoughts of that type, and adds up to the entry's
    step count.  Insights and conclusions are the texts of the thoughts
    of these types in timeline order, and the timeline has one entry per
    thought. *)
Theorem getSummary_breakdown (sid : string) (st : State) (s : ThinkingSession) :
  map_get sid (sessions st) = Some s ->
  exists sm,
    fst (getSummary sid st) = Some sm /\
    sm_sessionId sm = s_id s /\ sm_title sm = s_title s /\
    sm_problem sm = s_problem s /\ sm_status sm = s_status s /\
    map bs_id (sm_branches sm) = map b_id (s_branches s) /\
    map bs_name (sm_branches sm) = map b_name (s_branches s) /\
    (forall bs, In bs (sm_branches sm) ->
       bs_stepCount bs = length (onBranch (bs_id bs) (s_thoughts s)) /\
       map fst (bs_thoughtTypes bs)
         = [observation; analysis; hypothesis; verification; refinement;
            conclusion; question; insight; reflection] /\
       (forall ty, count_of ty (bs_thoughtTypes bs)
                   = length (ofType ty (onBranch (bs_id bs) (s_thoughts s)))) /\
       list_sum (map snd (bs_thoughtTypes bs)) = bs_stepCount bs) /\
    sm_keyInsights sm
      = map t_thought (ofType insight (sortByTime (s_thoughts s))) /\
    sm_conclusions sm
      = map t_thought (ofType conclusion (sortByTime (s_thoughts s))) /\
    sm_totalSteps sm = length (s_thoughts s) /\
    length (sm_timeline sm) = sm_totalSteps sm.
Proof.
  intros Hs. unfold getSummary. run. rewrite Hs. simpl.
  eexists. split; [reflexivity|]. simpl.
  rewrite !map_map, length_map, length_sortByTime. simpl.
  repeat split.
  - apply in_map_iff in H. destruct H as (b & <- & _). reflexivity.
  - apply in_map_iff in H. destruct H as (b & <- & _). simpl.
    now rewrite (proj1 (tally_keys_sum _ _ initial_tally_covers)).
  - intros ty. apply in_map_iff in H. destruct H as (b & <- & _). simpl.
    rewrite count_of_tally. now destruct ty.
  - apply in_map_iff in H. destruct H as (b & <- & _). simpl.
    now rewrite (proj2 (tally_keys_sum _ _ initial_tally_covers)).
Qed.

Lemma getSummary_breakdown_witness :
  exists sm,
    fst (getSummary "s" st_forked) = Some sm /\
    map bs_name (sm_branches sm) = ["main"; "alt"] /\
    map bs_stepCount (sm_branches sm) = [1; 1].
Proof.
  destruct (map_get "s" (sessions st_forked)) as [s|] eqn:Hs;
    [|vm_compute in Hs; discriminate].
  destruct (getSummary_breakdown "s" st_forked s Hs)
    as (sm & Hsm & _ & _ & _ & _ & _ & Hnames & _).
  exists sm. split; [exact Hsm|].
  vm_compute in Hs. injection Hs as <-. split; [exact Hnames|].
  vm_compute in Hsm. injection Hsm as <-. reflexivity.
Defined.

(** ** The timeline *)

Lemma insertByTime_at_time x l tau :
  filter (fun t => (t_timestamp t =? tau)%Z) (insertByTime x l)
    = filter (fun t => (t_timestamp t =? tau)%Z) (x :: l).
Proof.
  induction l as [|y l IH]; simpl; [reflexivity|].
  destruct (t_timestamp x <=? t_timestamp y)%Z eqn:E; [reflexivity|].
  apply Z.leb_gt in E. simpl in *. rewrite IH.
  destruct (t_timestamp x =? tau)%Z eqn:Ex; [|reflexivity].
  apply Z.eqb_eq in Ex.
  destruct (t_timestamp y =? tau)%Z eqn:Ey; [|reflexivity].
  apply Z.eqb_eq in Ey. lia.
Qed.

Lemma sortByTime_stable l tau :
  filter (fun t => (t_timestamp t =? tau)%Z) (sortByTime l)
    = filter (fun t => (t_timestamp t =? tau)%Z) l.
Proof.
  induction l as [|x l IH]; simpl; [reflexivity|].
  rewrite insertByTime_at_time. simpl. now rewrite IH.
Qed.

(** X12.  [getSummary] of a session it holds leaves the session with
    the thoughts it had, rearranged in ascending order of timestamp,
    thoughts of the same timestamp staying in the order they were in;
    the timeline it returns lists the thoughts in that order, each with
    the name of the branch carrying its [branchId] ([main] when there is
    none).  Nothing else in the store changes, and for an unknown id the
    result is [null] and nothing changes at all. *)
Theorem getSummary_timeline_is_stably_sorted (sid : string) (st : State) :
  (map_get sid (sessions st) = None -> getSummary sid st = (None, st)) /\
  (forall s, map_get sid (sessions st) = Some s ->
     let sorted := sortByTime (s_thoughts s) in
     inTimeOrder sorted /\
     Permutation sorted (s_thoughts s) /\
     (forall tau,
         filter (fun t => (t_timestamp t =? tau)%Z) sorted
           = filter (fun t => (t_timestamp t =? tau)%Z) (s_thoughts s)) /\
     map_get sid (sessions (snd (getSummary sid st))) = Some (set_thoughts sorted s) /\
     (forall k, k <> sid ->
        map_get k (sessions (snd (getSummary sid st))) = map_get k (sessions st)) /\
     option_map sm_timeline (fst (getSummary sid st))
       = Some (map (fun t =>
                      mkTimelineEntry (t_stepNumber t) (t_thought t)
                        (t_thoughtType t)
                        (branchNameOf (t_branchId t) (s_branches s))
                        (t_isRevision t))
                 sorted)).
Proof.
  split.
  - intros Hnone. unfold getSummary. run. now rewrite Hnone.
  - intros s Hs. cbv zeta.
    split; [apply sortByTime_sorted|]. split; [apply sortByTime_perm|].
    split; [intros tau; apply sortByTime_stable|].
    unfold getSummary. run. rewrite Hs. simpl.
    split; [apply map_get_set_same|]. split; [|reflexivity].
    intros k Hk. apply map_get_set_other. congruence.
Qed.

Lemma getSummary_timeline_is_stably_sorted_witness :
  getSummary "nobody" st_forked = (None, st_forked) /\
  option_map (fun tl => map tl_branchName tl)
    (option_map sm_timeline (fst (getSummary "s" st_forked)))
    = Some ["main"; "alt"].
Proof.
  destruct (getSummary_timeline_is_stably_sorted "nobody" st_forked) as [Hnone _].
  destruct (getSummary_timeline_is_stably_sorted "s" st_forked) as [_ Hsome].
  split; [apply Hnone; reflexivity|].
  destruct (map_get "s" (sessions st_forked)) as [s|] eqn:Hs;
    [|vm_compute in Hs; discriminate].
  destruct (Hsome s eq_refl) as (_ & _ & _ & _ & _ & Htl).
  rewrite Htl. vm_compute in Hs. injection Hs as <-. reflexivity.
Defined.

(** ** Status *)

Lemma map_values_status k v x (m : SessionMap) :
  NoDup (map fst m) ->
  s_status v = x ->
  (exists s, map_get k m = Some s) ->
  map s_status (map_values (map_set k v m))
    = map (fun e => if String.eqb (fst e) k then x else s_status (snd e)) m.
Proof.
  intros Hnd Hv [s Hs]. unfold map_values. revert Hs Hnd.
  induction m as [|[k' v'] m IH]; simpl; [discriminate|].
  intros Hs Hnd. inversion Hnd as [|? ? Hnotin Hnd']; subst.
  destruct (String.eqb k' k) eqn:E; simpl.
  - apply String.eqb_eq in E. subst k'. f_equal.
    rewrite map_map. apply map_ext_in. intros [k1 v1] Hin. simpl.
    destruct (String.eqb k1 k) eqn:E1; [|reflexivity].
    apply String.eqb_eq in E1. subst k1. exfalso. apply Hnotin.
    apply in_map_iff. now exists (k, v1).
  - f_equal. now apply IH.
Qed.

(** X13.  [updateSessionStatus] on a session it holds sets the status
    and [updatedAt] and nothing else, and returns [true]; afterwards the
    session and its summary show that status, the listing shows it for
    that session and the old status for the others, and the other sessions
    are as they were.  For an unknown id it returns [false] and changes
    nothing. *)
Theorem updateSessionStatus_sets_status_only (sid : string) (x : SessionStatus)
    (st : State) :
  (map_get sid (sessions st) = None -> updateSessionStatus sid x st = (false, st)) /\
  (forall s, map_get sid (sessions st) = Some s ->
     let st' := snd (updateSessionStatus sid x st) in
     fst (updateSessionStatus sid x st) = true /\
     map_get sid (sessions st')
       = Some (set_updatedAt (clock_src st (clock_pos st)) (set_status x s)) /\
     (forall k, k <> sid -> map_get k (sessions st') = map_get k (sessions st)) /\
     option_map sm_status (fst (getSummary sid st')) = Some x /\
     option_map s_status (fst (getSession sid st')) = Some x /\
     (reachable st ->
      map li_status (fst (listSessions st'))
        = map (fun e => if String.eqb (fst e) sid then x else s_status (snd e))
            (sessions st))).
Proof.
  split.
  - intros Hnone. unfold updateSessionStatus. run. now rewrite Hnone.
  - intros s Hs. cbv zeta. unfold updateSessionStatus. run. rewrite Hs. simpl.
    split; [reflexivity|]. split; [apply map_get_set_same|]. split; [|split; [|split]].
    + intros k Hk. apply map_get_set_other. congruence.
    + unfold getSummary. run. rewrite map_get_set_same. reflexivity.
    + unfold getSession. run. rewrite map_get_set_same. reflexivity.
    + intros Hr. unfold listSessions. run. rewrite map_map. simpl.
      apply (map_values_status sid _ x (sessions st));
        [now apply reachable_keys_NoDup | reflexivity | now exists s].
Qed.

Lemma updateSessionStatus_sets_status_only_witness :
  updateSessionStatus "nobody" paused st_forked = (false, st_forked) /\
  option_map sm_status
    (fst (getSummary "s" (snd (updateSessionStatus "s" paused st_forked))))
    = Some paused.
Proof.
  destruct (updateSessionStatus_sets_status_only "nobody" paused st_forked)
    as [Hnone _].
  destruct (updateSessionStatus_sets_status_only "s" paused st_forked)
    as [_ Hsome].
  split; [apply Hnone; reflexivity|].
  destruct (map_get "s" (sessions st_forked)) as [s|] eqn:Hs;
    [|vm_compute in Hs; discriminate].
  destruct (Hsome s eq_refl) as (_ & _ & _ & H & _). exact H.
Defined.

(** ** The route handlers *)

Lemma mainOnly_snoc s s' t :
  mainOnly s ->
  s_thoughts s' = s_thoughts s ++ [t] ->
  t_branchId t = s_activeBranchId s ->
  s_branches s' = s_branches s ->
  s_activeBranchId s' = s_activeBranchId s ->
  mainOnly s'.
Proof.
  intros (b & Hb & Hn & Ha & Hall) Hft Ht Hfb Hfa. exists b.
  rewrite Hfb, Hfa, Hft. repeat split; auto.
  apply Forall_app. split; [exact Hall|]. constructor; [congruence | constructor].
Qed.

Lemma mainOnly_same s s' :
  mainOnly s ->
  s_branches s' = s_branches s ->
  s_activeBranchId s' = s_activeBranchId s ->
  s_thoughts s' = s_thoughts s ->
  mainOnly s'.
Proof.
  intros (b & Hb & Hn & Ha & Hall) Hfb Hfa Hft. exists b.
  rewrite Hfb, Hfa, Hft. now repeat split.
Qed.

(** In a session with the only branch [main], a branch is found by
    name exactly when the name is [main], and it is the active one. *)
Lemma mainOnly_find s name :
  mainOnly s ->
  (name = DEFAULT_BRANCH_NAME /\
   exists b, find (fun b => String.eqb (b_name b) name) (s_branches s) = Some b /\
             b_id b = s_activeBranchId s /\ s_branches s = [b])
  \/
  (name <> DEFAULT_BRANCH_NAME /\
   find (fun b => String.eqb (b_name b) name) (s_branches s) = None /\
   map b_name (s_branches s) = [DEFAULT_BRANCH_NAME]).
Proof.
  intros (b & Hb & Hn & Ha & _). rewrite Hb. simpl. rewrite Hn.
  destruct (String.eqb DEFAULT_BRANCH_NAME name) eqn:E.
  - apply String.eqb_eq in E. left. split; [congruence|]. exists b. now repeat split.
  - apply String.eqb_neq in E. right. split; [congruence|]. now split.
Qed.

Lemma route_getOrCreateSession_main sid problem st :
  allSessions mainOnly st ->
  allSessions mainOnly (snd (Route.getOrCreateSession sid problem st)) /\
  mainOnly (snd (fst (Route.getOrCreateSession sid problem st))).
Proof.
  intros Hinv. unfold Route.getOrCreateSession. single_branch_get_or_create Hinv.
Qed.

Lemma approute_getOrCreateSession_main sid problem st :
  allSessions mainOnly st ->
  allSessions mainOnly (snd (AppRoute.getOrCreateSession sid problem st)) /\
  mainOnly (snd (fst (AppRoute.getOrCreateSession sid problem st))).
Proof.
  intros Hinv. unfold AppRoute.getOrCreateSession. single_branch_get_or_create Hinv.
Qed.

Lemma route_exec_main c st :
  allSessions mainOnly st -> allSessions mainOnly (route_exec c st).
Proof.
  intros Hinv. destruct c as [args|sid| |sid name|sid text]; simpl.
  - unfold Route.sequential_thinking. unfold bind at 1.
    destruct (route_getOrCreateSession_main (a_sessionId args)
                (Some (a_thought args)) st Hinv) as [H1 H2].
    destruct (Route.getOrCreateSession (a_sessionId args) (Some (a_thought args)) st)
      as [[k s] st1].
    simpl in *. run. single_branch_stored H1.
    eapply mainOnly_snoc; [exact H2 | | | | ]; reflexivity.
  - unfold Route.get_thinking_summary. single_branch_lookup Hinv sid st. exact Hinv.
  - exact Hinv.
  - unfold Route.switch_thinking_branch. single_branch_lookup Hinv sid st.
    destruct (mainOnly_find s name Hsb) as [(_ & b & -> & Hid & _) | (_ & -> & _)];
      simpl; [|exact Hinv].
    single_branch_stored Hinv.
    eapply mainOnly_same; [exact Hsb | | | ]; simpl; auto.
  - unfold Route.complete_thinking_session. single_branch_lookup Hinv sid st.
    destruct (given text); simpl; single_branch_stored Hinv.
    + eapply mainOnly_snoc; [exact Hsb | | | | ]; reflexivity.
    + eapply mainOnly_same; [exact Hsb | | | ]; reflexivity.
Qed.

Lemma approute_exec_main c st :
  allSessions mainOnly st -> allSessions mainOnly (approute_exec c st).
Proof.
  intros Hinv. destruct c as [args|sid| |sid name|sid text]; simpl.
  - unfold AppRoute.sequential_thinking. unfold bind at 1.
    destruct (approute_getOrCreateSession_main (a_sessionId args)
                (Some (a_thought args)) st Hinv) as [H1 H2].
    destruct (AppRoute.getOrCreateSession (a_sessionId args) (Some (a_thought args)) st)
      as [[k s] st1].
    simpl in *. run. single_branch_stored H1.
    eapply mainOnly_snoc; [exact H2 | | | | ]; reflexivity.
  - unfold AppRoute.get_thinking_summary. single_branch_lookup Hinv sid st. exact Hinv.
  - exact Hinv.
  - unfold AppRoute.switch_thinking_branch. single_branch_lookup Hinv sid st.
    destruct (mainOnly_find s name Hsb) as [(_ & b & -> & Hid & _) | (_ & -> & _)];
      simpl; [|exact Hinv].
    single_branch_stored Hinv.
    eapply mainOnly_same; [exact Hsb | | | ]; simpl; auto.
  - unfold AppRoute.complete_thinking_session. single_branch_lookup Hinv sid st.
    destruct (given text); simpl; single_branch_stored Hinv.
    + eapply mainOnly_snoc; [exact Hsb | | | | ]; reflexivity.
    + eapply mainOnly_same; [exact Hsb | | | ]; reflexivity.
Qed.

Lemma route_reachable_main st :
  reachableBy route_exec st -> allSessions mainOnly st.
Proof.
  apply (reachableBy_invariant route_exec (allSessions mainOnly));
    [intros; constructor | intros; now apply route_exec_main].
Qed.

Lemma approute_reachable_main st :
  reachableBy approute_exec st -> allSessions mainOnly st.
Proof.
  apply (reachableBy_invariant approute_exec (allSessions mainOnly));
    [intros; constructor | intros; now apply approute_exec_main].
Qed.

(** X14.  The route handlers never create a branch: in every state the
    store of [api/[transport]/route.ts] reaches, a session has the single
    branch [main], which is active and carries all its thoughts.  So
    [switch_thinking_branch] succeeds exactly for the name [main], and
    then changes nothing but [updatedAt]; for any other name it reports
    that the branch is not found, lists [main] as the available branch,
    and changes nothing; for an unknown session it reports that the
    session is not found. *)
Theorem route_switch_only_to_main (st : State) (sid name : string) :
  reachableBy route_exec st ->
  (map_get sid (sessions st) = None ->
   Route.switch_thinking_branch sid name st
     = (ErrorReply "Session not found" None, st)) /\
  (forall s, map_get sid (sessions st) = Some s ->
     mainOnly s /\
     (name = "main" ->
      fst (Route.switch_thinking_branch sid name st)
        = Payload (mkSwitchReply true "main") /\
      map_get sid (sessions (snd (Route.switch_thinking_branch sid name st)))
        = Some (set_updatedAt (clock_src st (clock_pos st)) s)) /\
     (name <> "main" ->
      Route.switch_thinking_branch sid name st
        = (ErrorReply "Branch not found" (Some ["main"]), st))).
Proof.
  intros Hr. split.
  - intros Hnone. unfold Route.switch_thinking_branch. run. now rewrite Hnone.
  - intros s Hs.
    pose proof (allSessions_get _ _ _ _ (route_reachable_main st Hr) Hs) as Hm.
    split; [exact Hm|].
    unfold Route.switch_thinking_branch. run. rewrite Hs.
    destruct (mainOnly_find s name Hm)
      as [(Hname & b & -> & Hid & _) | (Hname & -> & Hnames)]; simpl.
    + split; [|intros Hne; contradiction]. intros _. subst name.
      split; [reflexivity|]. rewrite map_get_set_same, Hid.
      now destruct s.
    + split; [intros He; contradiction|]. intros _. now rewrite Hnames.
Qed.

Lemma route_switch_only_to_main_witness :
  Route.switch_thinking_branch "s" "alt" st_route
    = (ErrorReply "Branch not found" (Some ["main"]), st_route) /\
  fst (Route.switch_thinking_branch "s" "main" st_route)
    = Payload (mkSwitchReply true "main").
Proof.
  destruct (map_get "s" (sessions st_route)) as [s|] eqn:Hs;
    [|vm_compute in Hs; discriminate].
  destruct (proj2 (route_switch_only_to_main st_route "s" "alt" reachable_st_route)
              s Hs) as (_ & _ & Hbad).
  destruct (proj2 (route_switch_only_to_main st_route "s" "main" reachable_st_route)
              s Hs) as (_ & Hgood & _).
  split; [apply Hbad; discriminate | apply Hgood; reflexivity].
Defined.

(** X15.  [get_thinking_summary] of the two route handlers reads only.
    For an unknown session it reports that the session is not found.  On
    a session of a reachable store, the handler of
    [api/[transport]/route.ts] reports the one branch [main] with a step
    count equal to the total number of thoughts, and the Next.js handler
    reports the branch name [main] alone. *)
Theorem route_get_thinking_summary_reports_main (sid : string) :
  (forall st, reachableBy route_exec st ->
     snd (Route.get_thinking_summary sid st) = st /\
     (map_get sid (sessions st) = None ->
      fst (Route.get_thinking_summary sid st) = ErrorReply "Session not found" None) /\
     (forall s, map_get sid (sessions st) = Some s ->
        exists r,
          fst (Route.get_thinking_summary sid st) = Payload r /\
          sr_totalSteps r = length (s_thoughts s) /\
          sr_branches r = [("main", Some (sr_totalSteps r))] /\
          sr_status r = s_status s /\ sr_title r = s_title s)) /\
  (forall st, reachableBy approute_exec st ->
     snd (AppRoute.get_thinking_summary sid st) = st /\
     (map_get sid (sessions st) = None ->
      fst (AppRoute.get_thinking_summary sid st)
        = ErrorReply "Session not found" None) /\
     (forall s, map_get sid (sessions st) = Some s ->
        exists r,
          fst (AppRoute.get_thinking_summary sid st) = Payload r /\
          sr_totalSteps r = length (s_thoughts s) /\
          sr_branches r = [("main", None)] /\
          sr_status r = s_status s /\ sr_title r = s_title s)).
Proof.
  split; intros st Hr.
  - unfold Route.get_thinking_summary. run.
    destruct (map_get sid (sessions st)) as [s|] eqn:Hs; simpl.
    + split; [reflexivity|]. split; [discriminate|]. intros s0 [= <-].
      destruct (allSessions_get _ _ _ _ (route_reachable_main st Hr) Hs)
        as (b & Hb & Hn & Ha & Hall).
      eexists. split; [reflexivity|]. simpl. rewrite Hb. simpl. rewrite Hn.
      repeat split. do 3 f_equal.
      assert (Hsb : singleBranch s) by (exists b; now repeat split).
      rewrite <- Ha. apply (singleBranch_count s Hsb).
    + split; [reflexivity|]. split; [reflexivity | discriminate].
  - unfold AppRoute.get_thinking_summary. run.
    destruct (map_get sid (sessions st)) as [s|] eqn:Hs; simpl.
    + split; [reflexivity|]. split; [discriminate|]. intros s0 [= <-].
      destruct (allSessions_get _ _ _ _ (approute_reachable_main st Hr) Hs)
        as (b & Hb & Hn & Ha & Hall).
      eexists. split; [reflexivity|]. simpl. rewrite Hb. simpl. rewrite Hn.
      now repeat split.
    + split; [reflexivity|]. split; [reflexivity | discriminate].
Qed.

Lemma route_get_thinking_summary_reports_main_witness :
  exists r,
    fst (Route.get_thinking_summary "s" st_route) = Payload r /\
    sr_branches r = [("main", Some 2)].
Proof.
  destruct (map_get "s" (sessions st_route)) as [s|] eqn:Hs;
    [|vm_compute in Hs; discriminate].
  destruct (proj1 (route_get_thinking_summary_reports_main "s") st_route
              reachable_st_route) as (_ & _ & H).
  destruct (H s Hs) as (r & Hr & Htot & Hbr & _).
  exists r. split; [exact Hr|]. rewrite Hbr, Htot.
  vm_compute in Hs. injection Hs as <-. reflexivity.
Defined.

(** X16.  [sequential_thinking] of [api/[transport]/route.ts] on an
    existing session appends one thought to the active branch, with the
    step number the caller gives as [thoughtNumber] (not a count), the
    type the classification gives to the text, and no confidence or tags;
    [branchId], [totalThoughts] and [needsMoreThoughts] play no part, and
    the session's status is neither looked at nor changed.  The reply
    carries that step number, the new total, and [continue] or [complete]
    after [nextThoughtNeeded]. *)
Theorem route_sequential_thinking_appends (args : SequentialThinkingArgs)
    (st : State) (k : string) (s : ThinkingSession) :
  given (a_sessionId args) = Some k ->
  map_get k (sessions st) = Some s ->
  exists t s' r,
    Route.sequential_thinking args st
      = (Payload r,
         mkState (uuid_src st) (S (uuid_pos st)) (clock_src st)
           (S (S (clock_pos st))) (map_set k s' (sessions st))) /\
    s' = set_updatedAt (s_updatedAt s') (set_thoughts (s_thoughts s ++ [t]) s) /\
    t_stepNumber t = a_thoughtNumber args /\
    t_thought t = a_thought args /\
    t_thoughtType t = classify (a_thought args) /\
    t_branchId t = s_activeBranchId s /\
    t_confidence t = None /\ t_tags t = None /\
    tr_stepNumber r = a_thoughtNumber args /\
    tr_totalSteps r = length (s_thoughts s) + 1 /\
    tr_thoughtType r = classify (a_thought args) /\
    tr_status r = (if a_nextThoughtNeeded args then "continue" else "complete").
Proof.
  intros Hk Hs. unfold Route.sequential_thinking, Route.getOrCreateSession. run.
  rewrite Hk, Hs. simpl.
  eexists. eexists. eexists. split; [reflexivity|]. simpl.
  rewrite length_app. simpl.
  repeat split; try reflexivity; apply inferThoughtType_classify.
Qed.

Lemma route_sequential_thinking_appends_witness :
  exists r,
    fst (Route.sequential_thinking (args_sample "s" "I see a pattern" 7) st_route)
      = Payload r /\
    tr_stepNumber r = 7 /\ tr_totalSteps r = 3.
Proof.
  destruct (map_get "s" (sessions st_route)) as [s|] eqn:Hs;
    [|vm_compute in Hs; discriminate].
  destruct (route_sequential_thinking_appends (args_sample "s" "I see a pattern" 7)
              st_route "s" s eq_refl Hs)
    as (t & s' & r & Heq & _ & _ & _ & _ & _ & _ & _ & Hn & Htot & _).
  exists r. rewrite Heq. split; [reflexivity|]. split; [exact Hn|].
  rewrite Htot. vm_compute in Hs. injection Hs as <-. reflexivity.
Defined.

(** ** The transports *)

Lemma transport_exec_opOf req st :
  transport_exec req st
    = match opOf req with Some op => exec op st | None => st end.
Proof.
  unfold transport_exec, Server.callTool.
  destruct req as [input|sid| |sid name|sid|name]; simpl; unfold bind, ret.
  - now destruct (addThought (toAddThoughtInput input) st).
  - now destruct (getSummary sid st).
  - now destruct (listSessions st).
  - now destruct (switchBranch sid name st).
  - now destruct (updateSessionStatus sid completed st).
  - reflexivity.
Qed.

Lemma http_exec_opOf req st :
  snd (HttpTransport.handleToolCall req st)
    = match opOf req with Some op => exec op st | None => st end.
Proof.
  unfold HttpTransport.handleToolCall.
  destruct req as [input|sid| |sid name|sid|name]; simpl; unfold bind, ret.
  - now destruct (addThought (toAddThoughtInput input) st).
  - now destruct (getSummary sid st).
  - now destruct (listSessions st).
  - now destruct (switchBranch sid name st).
  - now destruct (updateSessionStatus sid completed st).
  - reflexivity.
Qed.

Lemma transport_reachable_engine st :
  reachableBy transport_exec st -> reachable st.
Proof.
  induction 1 as [us up cs cp | st req Hr IH]; [apply reachable_init|].
  rewrite transport_exec_opOf. destruct (opOf req); [|exact IH].
  now apply reachable_step.
Qed.

Lemma wellKept_later st st' s :
  uuid_src st' = uuid_src st ->
  uuid_pos st <= uuid_pos st' ->
  wellKept st s -> wellKept st' s.
Proof.
  intros Hsrc Hpos (Hon & Hact & Hold & Hnd). repeat split; auto.
  - eapply Forall_impl; [|exact Hold]. intros b (j & Hj & Hb).
    exists j. rewrite Hsrc. split; [lia | exact Hb].
  - intros Hu. apply Hnd. unfold uuid_unique in *. now rewrite <- Hsrc.
Qed.

Lemma wellKept_stored st st' k s' :
  uuid_src st' = uuid_src st ->
  uuid_pos st <= uuid_pos st' ->
  sessions st' = map_set k s' (sessions st) ->
  allSessions (wellKept st) st ->
  wellKept st' s' ->
  allSessions (wellKept st') st'.
Proof.
  intros Hsrc Hpos Hss Hinv Hs'. unfold allSessions. rewrite Hss.
  apply Forall_map_set; [|exact Hs'].
  eapply Forall_impl; [|exact Hinv]. intros e He.
  now apply (wellKept_later st st').
Qed.

Lemma wellKept_addThoughtTo input s st :
  given (i_branchId input) = None ->
  wellKept st s ->
  wellKept (snd (addThoughtTo input s st)) (snd (fst (addThoughtTo input s st))).
Proof.
  intros Hnob (Hon & Hact & Hold & Hnd).
  pose proof (addThoughtTo_shape input s st) as H. cbv zeta in H.
  destruct (addThoughtTo input s st) as [[r s'] st']. simpl in H |- *.
  destruct H as (t & news & Hth & Hbrs & _ & _ & _ & _ & Hus & _ & Hup & _ & _ & _
                 & _ & _ & _ & _ & _ & _ & Hcase).
  assert (Hold' : Forall (fun b => exists j, j < uuid_pos st' /\ b_id b = uuid_src st' j)
                    (s_branches s)).
  { eapply Forall_impl; [|exact Hold]. intros b (j & Hj & Hb).
    exists j. rewrite Hus. split; [lia | exact Hb]. }
  unfold wellKept, activeBranchPresent. rewrite Hth, Hbrs, map_app.
  destruct (given (i_newBranchName input)) as [name|].
  - destruct Hcase as (b & -> & _ & Hbid & Hact' & Htb). simpl.
    split; [|split; [|split]].
    + apply Forall_app. split.
      * eapply Forall_impl; [|exact Hon]. intros t' Ht'. apply in_or_app. now left.
      * constructor; [|constructor]. apply in_or_app. right. rewrite Htb. now left.
    + exists b. split; [apply in_or_app; right; now left | now rewrite Hact'].
    + apply Forall_app. split; [exact Hold'|]. constructor; [|constructor].
      exists (uuid_pos st). rewrite Hus. split; [lia | exact Hbid].
    + intros Hu. assert (Hu0 : uuid_unique st).
      { unfold uuid_unique in *. now rewrite <- Hus. }
      apply NoDup_app; [now apply Hnd | repeat constructor; intros [] |].
      intros a Ha [Hab|[]]. subst a.
      apply in_map_iff in Ha. destruct Ha as (b' & Hb' & Hin').
      rewrite Forall_forall in Hold. destruct (Hold b' Hin') as (j & Hj & Hbj).
      assert (j = uuid_pos st) by (apply Hu0; congruence). lia.
  - destruct Hcase as (-> & Hact' & Htb). simpl. rewrite !app_nil_r.
    rewrite Hnob in Htb. split; [|split; [|split]].
    + apply Forall_app. split; [exact Hon|]. constructor; [|constructor].
      rewrite Htb. destruct Hact as (b & Hin & Hid). rewrite <- Hid. now apply in_map.
    + destruct Hact as (b & Hin & Hid). exists b. split; [exact Hin | congruence].
    + exact Hold'.
    + intros Hu. apply Hnd. unfold uuid_unique in *. now rewrite <- Hus.
Qed.

Lemma wellKept_getOrCreateSession sid problem st :
  allSessions (wellKept st) st ->
  allSessions (wellKept (snd (getOrCreateSession sid problem st)))
    (snd (getOrCreateSession sid problem st)) /\
  wellKept (snd (getOrCreateSession sid problem st))
    (snd (fst (getOrCreateSession sid problem st))).
Proof.
  intros Hinv.
  pose proof (getOrCreateSession_shape st sid problem) as H. cbv zeta in H.
  destruct (getOrCreateSession sid problem st) as [[k s] st1]. simpl in H |- *.
  destruct H as (_ & Hsrc & _ & Hpos & _ & _ & Hkind).
  destruct Hkind as [(_ & Hs & ->)
                    | (_ & _ & Hnil & _ & Hss & b & j & Hb & Ha & _ & Hbj & Hj)].
  - split; [exact Hinv | exact (allSessions_get _ _ _ _ Hinv Hs)].
  - assert (Hk : wellKept st1 s).
    { unfold wellKept, activeBranchPresent. rewrite Hnil, Hb, Ha. simpl.
      split; [constructor|]. split; [exists b; split; [now left | reflexivity]|].
      split.
      - constructor; [|constructor]. exists j. rewrite Hsrc. split; [lia | exact Hbj].
      - intros _. repeat constructor. intros []. }
    split; [|exact Hk]. now apply (wellKept_stored st st1 k s).
Qed.

Lemma transport_exec_wellKept req st :
  allSessions (wellKept st) st ->
  allSessions (wellKept (transport_exec req st)) (transport_exec req st).
Proof.
  intros Hinv. rewrite transport_exec_opOf.
  destruct req as [input|sid| |sid name|sid|name]; simpl; try exact Hinv.
  - rewrite addThought_unfold. cbv zeta. simpl.
    destruct (wellKept_getOrCreateSession (z_sessionId input)
                (Some (z_thought input)) st Hinv) as [H1 H2].
    destruct (getOrCreateSession (z_sessionId input) (Some (z_thought input)) st)
      as [[k s] st1]. simpl in *.
    pose proof (wellKept_addThoughtTo (toAddThoughtInput input) s st1 eq_refl H2) as H3.
    pose proof (addThoughtTo_shape (toAddThoughtInput input) s st1) as H4.
    cbv zeta in H4.
    destruct (addThoughtTo (toAddThoughtInput input) s st1) as [[r s'] st2].
    simpl in *.
    destruct H4 as (t & news & _ & _ & _ & _ & _ & Hss & Hus & _ & Hup & _).
    eapply (wellKept_stored st1 _ k s'); simpl; eauto; try lia.
    now rewrite Hss.
  - unfold getSummary. run.
    destruct (map_get sid (sessions st)) as [s|] eqn:Hs; simpl; [|exact Hinv].
    eapply (wellKept_stored st _ sid); simpl; eauto.
    destruct (allSessions_get _ _ _ _ Hinv Hs) as (Hon & Hact & Hold & Hnd).
    repeat split; auto. simpl.
    eapply Permutation_Forall; [symmetry; apply sortByTime_perm | exact Hon].
  - unfold switchBranch. run.
    destruct (map_get sid (sessions st)) as [s|] eqn:Hs; simpl; [|exact Hinv].
    destruct (find _ (s_branches s)) as [b|] eqn:Hb; simpl; [|exact Hinv].
    eapply (wellKept_stored st _ sid); simpl; eauto.
    destruct (allSessions_get _ _ _ _ Hinv Hs) as (Hon & Hact & Hold & Hnd).
    repeat split; auto. apply find_some in Hb. exists b. simpl. now split.
  - unfold updateSessionStatus. run.
    destruct (map_get sid (sessions st)) as [s|] eqn:Hs; simpl; [|exact Hinv].
    eapply (wellKept_stored st _ sid); simpl; eauto.
    exact (allSessions_get _ _ _ _ Hinv Hs).
Qed.

(** X17.  Through the tools of the stdio and HTTP transports no
    [branchId] ever reaches [addThought].  So in every state the store
    reaches through them, every thought of a session is on one of the
    session's branches and the active branch is one of them; and, the
    environment never handing out the same uuid twice, the per-branch step
    counts of the summary add up to its total. *)
Theorem transport_keeps_thoughts_on_branches (st : State) :
  reachableBy transport_exec st ->
  forall k s,
    map_get k (sessions st) = Some s ->
    Forall (fun t => In (t_branchId t) (map b_id (s_branches s))) (s_thoughts s) /\
    activeBranchPresent s /\
    (uuid_unique st ->
     exists sm,
       fst (getSummary k st) = Some sm /\ stepCountSum sm = sm_totalSteps sm).
Proof.
  intros Hr k s Hs.
  assert (Hinv : allSessions (wellKept st) st).
  { revert Hr. apply (reachableBy_invariant transport_exec
                        (fun st => allSessions (wellKept st) st)).
    - intros. constructor.
    - intros req st' H. now apply transport_exec_wellKept. }
  destruct (allSessions_get _ _ _ _ Hinv Hs) as (Hon & Hact & _ & Hnd).
  split; [exact Hon|]. split; [exact Hact|]. intros Hu.
  destruct (getSummary_reports k st s Hs) as (sm & Hsm & Htot & _ & Hsum).
  exists sm. split; [exact Hsm|].
  rewrite Hsum, Htot. apply branch_counts_partition; auto.
Qed.

Lemma reachable_st_served : reachableBy transport_exec st_served.
Proof. unfold st_served, st0. do 3 apply reachable_step. apply reachable_init. Qed.

Lemma uuid_unique_st_served : uuid_unique st_served.
Proof.
  intros i j H. change (uuid_src st_served) with uuid_sample in H.
  apply (f_equal String.length) in H. rewrite !uuid_sample_length in H. lia.
Qed.

Lemma transport_keeps_thoughts_on_branches_witness :
  exists sm,
    fst (getSummary "s" st_served) = Some sm /\
    stepCountSum sm = sm_totalSteps sm.
Proof.
  destruct (map_get "s" (sessions st_served)) as [s|] eqn:Hs;
    [|vm_compute in Hs; discriminate].
  destruct (transport_keeps_thoughts_on_branches st_served reachable_st_served
              "s" s Hs) as (_ & _ & H).
  exact (H uuid_unique_st_served).
Defined.

(** X18.  The two transports change the store alike on every tool
    call, a call of a tool they do not know changing nothing and being
    answered as an error.  Their [complete_thinking_session] only sets the
    status to [completed] (and [updatedAt]): no thought is appended, and
    the answer is [Completed] for a session held and [Failed], with
    nothing changed, for another id.  Their [get_thinking_summary]
    answers [Session not found], flagged as an error by the stdio server,
    exactly for the ids of no session. *)
Theorem transports_dispatch_alike (st : State) :
  (forall req,
      snd (HttpTransport.handleToolCall req st) = snd (Server.callTool req st)) /\
  (forall name,
      Server.callTool (ReqOther name) st
        = (mkToolResponse ("Unknown tool: " ++ name) (Some true), st) /\
      HttpTransport.handleToolCall (ReqOther name) st
        = (mkToolResponse ("Unknown: " ++ name) (Some true), st)) /\
  (forall sid,
      (map_get sid (sessions st) = None ->
       Server.callTool (ReqCompleteThinkingSession sid) st
         = (mkToolResponse "Failed" None, st)) /\
      (forall s, map_get sid (sessions st) = Some s ->
         rsp_text (fst (Server.callTool (ReqCompleteThinkingSession sid) st))
           = "Completed" /\
         map_get sid
           (sessions (snd (Server.callTool (ReqCompleteThinkingSession sid) st)))
           = Some (set_updatedAt (clock_src st (clock_pos st))
                     (set_status completed s)))) /\
  (forall sid,
      (fst (Server.callTool (ReqGetThinkingSummary sid) st)
         = mkToolResponse "Session not found" (Some true)
       <-> map_get sid (sessions st) = None) /\
      (rsp_isError (fst (Server.callTool (ReqGetThinkingSummary sid) st)) = Some true
       <-> map_get sid (sessions st) = None) /\
      (map_get sid (sessions st) = None ->
       rsp_text (fst (HttpTransport.handleToolCall (ReqGetThinkingSummary sid) st))
         = "Not found")).
Proof.
  split; [|split; [|split]].
  - intros req. rewrite http_exec_opOf. symmetry. apply transport_exec_opOf.
  - intros name. split; reflexivity.
  - intros sid. split.
    + intros Hnone. unfold Server.callTool, updateSessionStatus. run.
      now rewrite Hnone.
    + intros s Hs. unfold Server.callTool, updateSessionStatus. run.
      rewrite Hs. simpl. split; [reflexivity | apply map_get_set_same].
  - intros sid. unfold Server.callTool, HttpTransport.handleToolCall, getSummary.
    run. destruct (map_get sid (sessions st)) as [s|] eqn:Hs; simpl.
    + split; [|split]; try (split; discriminate). discriminate.
    + split; [|split]; try reflexivity; split; reflexivity.
Qed.

Lemma transports_dispatch_alike_witness :
  rsp_text (fst (Server.callTool (ReqCompleteThinkingSession "s") st_served))
    = "Completed" /\
  Server.callTool (ReqCompleteThinkingSession "nobody") st_served
    = (mkToolResponse "Failed" None, st_served).
Proof.
  destruct (map_get "s" (sessions st_served)) as [s|] eqn:Hs;
    [|vm_compute in Hs; discriminate].
  destruct (transports_dispatch_alike st_served) as (_ & _ & Hc & _).
  destruct (Hc "s") as [_ Hheld]. destruct (Hc "nobody") as [Hnone _].
  split; [exact (proj1 (Hheld s Hs)) | apply Hnone; vm_compute; reflexivity].
Defined.

(** ** A call without session id *)

(** X19.  A call of [addThought] without session id (or with the empty
    id) opens a session under the next uuid and returns that id: the
    session has the one thought of the call, which is step 1 whatever
    branch directive the call carries, and one branch, or two when the
    call creates one; every session held under another key is as it
    was. *)
Theorem addThought_without_sessionId_opens_session (input : AddThoughtInput)
    (st : State) :
  given (i_sessionId input) = None ->
  let id := uuid_src st (uuid_pos st) in
  let r := fst (addThought input st) in
  r_sessionId r = id /\
  r_stepNumber r = 1 /\ r_totalSteps r = 1 /\
  r_branchCount r = 1 + forks input /\
  (exists s' t,
      map_get id (sessions (snd (addThought input st))) = Some s' /\
      s_id s' = id /\ s_thoughts s' = [t] /\ s_status s' = active /\
      s_problem s' = i_thought input) /\
  (forall k, k <> id ->
     map_get k (sessions (snd (addThought input st))) = map_get k (sessions st)).
Proof.
  intros Hnone. cbv zeta. rewrite addThought_unfold. cbv zeta.
  pose proof (getOrCreateSession_cases (i_sessionId input)
                (Some (i_thought input)) st) as H.
  cbv zeta in H.
  destruct (getOrCreateSession (i_sessionId input) (Some (i_thought input)) st)
    as [[k s] st1]. simpl in *.
  destruct H as [(Hg & _) | ((Hid & Hnil & Hact & b & Hb & _) & Hk & Hprob & _ & Hss)];
    [congruence|].
  destruct Hk as [(Hg & _) | (_ & Hku)]; [congruence|]. subst k.
  pose proof (addThoughtTo_result input s st1) as Hres. cbv zeta in Hres.
  pose proof (addThoughtTo_problem input s st1) as Hp. cbv zeta in Hp.
  pose proof (addThoughtTo_shape input s st1) as H2. cbv zeta in H2.
  destruct (addThoughtTo input s st1) as [[r s'] st2]. simpl in *.
  destruct Hres as (_ & Hsid & _).
  destruct H2 as (t & news & Hth & Hbrs & Hst & Hid' & _ & Hss2 & _ & _ & _ & _ & _
                  & Hstep & _ & _ & Hr & _ & Htot & Hbc & Hcase).
  rewrite Hnil in *. simpl in *. rewrite <- Hku.
  split; [congruence|]. split; [now rewrite Hr, Hstep|]. split; [exact Htot|].
  split; [|split].
  - rewrite Hbc, Hbrs, Hb, length_app. unfold forks. simpl.
    destruct (given (i_newBranchName input)).
    + destruct Hcase as (b' & -> & _). reflexivity.
    + destruct Hcase as (-> & _). reflexivity.
  - exists s', t. rewrite map_get_set_same.
    split; [reflexivity|]. split; [exact Hid'|]. split; [exact Hth|].
    split; [congruence|].
    destruct (truthy (i_thought input)) eqn:Ht.
    + rewrite Hprob in Hp. rewrite Ht in Hp. simpl in Hp.
      destruct Hp as [Hp _]. congruence.
    + rewrite Hprob in Hp. simpl in Hp. now destruct Hp.
  - intros k Hk. rewrite Hss2, Hss.
    rewrite !map_get_set_other by congruence. reflexivity.
Qed.

Lemma addThought_without_sessionId_opens_session_witness :
  r_sessionId (fst (addThought
                      (mkAddThoughtInput (Some "") "Why is it slow?" None None None
                         None None None None None true) st_forked))
    = "xxxxb" /\
  r_stepNumber (fst (addThought
                       (mkAddThoughtInput (Some "") "Why is it slow?" None None None
                          None None None None None true) st_forked)) = 1.
Proof.
  destruct (addThought_without_sessionId_opens_session
              (mkAddThoughtInput (Some "") "Why is it slow?" None None None
                 None None None None None true) st_forked eq_refl)
    as (H1 & H2 & _).
  split; [rewrite H1; reflexivity | exact H2].
Defined.

(** ** The classifiers of the handlers *)

(** X20.  The classifier of the Next.js route handler knows fewer
    keywords than the one of the manager: on a text that, lower-cased,
    contains none of [i see], [finally], [aha], [better] and
    [thinking about], the two give the same type; and whatever the text,
    they agree on what is a question. *)
Theorem approute_classifier_agrees_without_extra_keywords (text : string) :
  let lower := toLowerCase text in
  (AppRoute.inferThoughtType text = question <-> inferThoughtType text = question) /\
  (includes "i see" lower = false ->
   includes "finally" lower = false ->
   includes "aha" lower = false ->
   includes "better" lower = false ->
   includes "thinking about" lower = false ->
   AppRoute.inferThoughtType text = inferThoughtType text).
Proof.
  cbv zeta. unfold AppRoute.inferThoughtType, inferThoughtType.
  set (lower := toLowerCase text). split.
  - destruct (includes "?" lower || startsWith "what" lower
              || startsWith "how" lower || startsWith "why" lower);
      [tauto|].
    repeat match goal with
           | |- context [if ?c then _ else _] => destruct c
           end; split; discriminate.
  - intros -> -> -> -> ->. now rewrite !orb_false_r.
Qed.

Lemma approute_classifier_agrees_without_extra_keywords_witness :
  AppRoute.inferThoughtType "Maybe we should check the logs"
    = inferThoughtType "Maybe we should check the logs".
Proof.
  apply (proj2 (approute_classifier_agrees_without_extra_keywords
                  "Maybe we should check the logs")); reflexivity.
Defined.

(** The extra keywords do matter: a text both classifiers read
    differently. *)
Example approute_classifier_differs :
  AppRoute.inferThoughtType "I see the point" = analysis /\
  inferThoughtType "I see the point" = observation.
Proof. split; reflexivity. Qed.

(** ** The tree of branches *)

Lemma snoc_split {A} (l pre post : list A) (x b : A) :
  l ++ [x] = pre ++ b :: post ->
  post = [] /\ pre = l /\ b = x
  \/ exists post', post = post' ++ [x] /\ l = pre ++ b :: post'.
Proof.
  destruct post as [|y post'] using rev_ind; intros H.
  - left. apply app_inj_tail in H. destruct H as [-> ->]. auto.
  - right. exists post'.
    change (pre ++ b :: post' ++ [y]) with (pre ++ (b :: post') ++ [y]) in H.
    rewrite app_assoc in H. apply app_inj_tail in H. destruct H as [-> ->]. auto.
Qed.

Lemma parentsFirst_snoc l nb p :
  parentsFirst l -> In p l -> b_parentBranchId nb = Some (b_id p) ->
  parentsFirst (l ++ [nb]).
Proof.
  intros Hl Hp Hnb pre b post Heq Hpre.
  apply snoc_split in Heq. destruct Heq as [(_ & -> & ->) | (post' & _ & ->)].
  - now exists p.
  - exact (Hl pre b post' eq_refl Hpre).
Qed.

Lemma rooted_fresh k s : freshSession k s -> rooted s.
Proof.
  intros (_ & _ & _ & b & Hb & Hname & Hpar & _). split.
  - now exists b, [].
  - rewrite Hb. intros pre b' post Heq Hpre.
    destruct pre as [|x pre]; [congruence|].
    destruct pre; discriminate.
Qed.

Lemma activeBranchPresent_fresh k s : freshSession k s -> activeBranchPresent s.
Proof.
  intros (_ & _ & _ & b & Hb & _ & _ & Ha).
  exists b. rewrite Hb. split; [now left | now rewrite Ha].
Qed.

Lemma rooted_createBranch s name from st s' :
  rooted s -> activeBranchPresent s ->
  s_branches s' = s_branches s ++ [fst (fst (createBranch s name from st))] ->
  rooted s'.
Proof.
  intros [(m & rest & Hm & Hname & Hpar) Hpf] Hact Hbrs.
  pose proof (findBranch_present s Hact) as Hfind.
  destruct Hact as (p & Hin & Hid). split.
  - exists m, (rest ++ [fst (fst (createBranch s name from st))]).
    rewrite Hbrs, Hm. auto.
  - rewrite Hbrs. apply (parentsFirst_snoc _ _ p Hpf Hin).
    unfold createBranch. run. simpl. rewrite Hfind. now rewrite Hid.
Qed.

Lemma addThoughtTo_branches input s st :
  let s' := snd (fst (addThoughtTo input s st)) in
  s_branches s' = s_branches s
  \/ exists name,
       s_branches s'
         = s_branches s ++ [fst (fst (createBranch s name (i_branchFromStep input) st))].
Proof.
  cbv zeta. destruct (given (i_newBranchName input)) as [name|] eqn:Hn.
  - right. exists name. now apply addThoughtTo_new_branch.
  - left. pose proof (addThoughtTo_shape input s st) as H. cbv zeta in H.
    destruct (addThoughtTo input s st) as [[r s'] st']. simpl in *.
    destruct H as (t & news & _ & Hbrs & _ & _ & _ & _ & _ & _ & _ & _ & _ & _ & _ & _
                   & _ & _ & _ & _ & Hcase).
    rewrite Hn in Hcase. destruct Hcase as (-> & _).
    now rewrite app_nil_r in Hbrs.
Qed.

(** The branches of a session after one operation: those of the session
    before it, or of a newly made one, with at most one branch more, made
    by [createBranch]. *)
Lemma exec_branches_step op st k s' :
  map_get k (sessions (exec op st)) = Some s' ->
  exists s,
    (map_get k (sessions st) = Some s \/ freshSession k s) /\
    (s_branches s' = s_branches s
     \/ exists name from st0,
          s_branches s'
            = s_branches s ++ [fst (fst (createBranch s name from st0))]).
Proof.
  destruct op as [sid p|input|sid name from|sid|sid x|sid| |sid name]; simpl.
  - pose proof (getOrCreateSession_cases sid p st) as H. cbv zeta in H.
    destruct (getOrCreateSession sid p st) as [[k0 s0] st1]. simpl in *.
    destruct H as [(_ & _ & ->) | (Hf & Hk & _ & _ & Hss)]; intros Hget.
    + exists s'. auto.
    + rewrite Hss in Hget. destruct (String.eqb k0 k) eqn:E.
      * apply String.eqb_eq in E. subst k0.
        rewrite map_get_set_same in Hget. injection Hget as <-.
        exists s0. auto.
      * apply String.eqb_neq in E. rewrite map_get_set_other in Hget by exact E.
        exists s'. auto.
  - rewrite addThought_unfold. cbv zeta.
    pose proof (getOrCreateSession_cases (i_sessionId input)
                  (Some (i_thought input)) st) as H.
    cbv zeta in H.
    destruct (getOrCreateSession (i_sessionId input) (Some (i_thought input)) st)
      as [[k0 s0] st1]. simpl in *.
    pose proof (addThoughtTo_branches input s0 st1) as Hstep. cbv zeta in Hstep.
    pose proof (addThoughtTo_shape input s0 st1) as H2. cbv zeta in H2.
    destruct (addThoughtTo input s0 st1) as [[r s''] st2]. simpl in *.
    destruct H2 as (_ & _ & _ & _ & _ & _ & _ & Hss2 & _).
    rewrite Hss2. intros Hget.
    destruct (String.eqb k0 k) eqn:E.
    + apply String.eqb_eq in E. subst k0.
      rewrite map_get_set_same in Hget. injection Hget as <-.
      exists s0. split.
      * destruct H as [(_ & Hs & _) | (Hf & _)]; auto.
      * destruct Hstep as [Hb | (name & Hb)]; [now left|].
        right. now exists name, (i_branchFromStep input), st1.
    + apply String.eqb_neq in E. rewrite map_get_set_other in Hget by exact E.
      exists s'. split; [|now left]. left.
      destruct H as [(_ & _ & ->) | (_ & _ & _ & _ & Hss)]; [exact Hget|].
      rewrite Hss in Hget. now rewrite map_get_set_other in Hget by exact E.
  - unfold createBranchIn. intros Hget.
    destruct (map_get sid (sessions st)) as [s|] eqn:Hs.
    + destruct (String.eqb sid k) eqn:E.
      * apply String.eqb_eq in E. subst sid. exists s. split; [now left|].
        right. exists name, from, st. revert Hget. run. rewrite Hs. simpl.
        rewrite map_get_set_same. now intros [= <-].
      * apply String.eqb_neq in E. exists s'. split; [|now left]. left.
        revert Hget. run. rewrite Hs. simpl.
        now rewrite map_get_set_other by exact E.
    + exists s'. split; [|now left]. left. revert Hget. run. now rewrite Hs.
  - unfold getSummary. run.
    destruct (map_get sid (sessions st)) as [s|] eqn:Hs; simpl; intros Hget;
      [|exists s'; auto].
    destruct (String.eqb sid k) eqn:E.
    + apply String.eqb_eq in E. subst sid.
      rewrite map_get_set_same in Hget. injection Hget as <-. exists s. auto.
    + apply String.eqb_neq in E. rewrite map_get_set_other in Hget by exact E.
      exists s'. auto.
  - unfold updateSessionStatus. run.
    destruct (map_get sid (sessions st)) as [s|] eqn:Hs; simpl; intros Hget;
      [|exists s'; auto].
    destruct (String.eqb sid k) eqn:E.
    + apply String.eqb_eq in E. subst sid.
      rewrite map_get_set_same in Hget. injection Hget as <-. exists s. auto.
    + apply String.eqb_neq in E. rewrite map_get_set_other in Hget by exact E.
      exists s'. auto.
  - intros Hget. exists s'. auto.
  - intros Hget. exists s'. auto.
  - unfold switchBranch. run.
    destruct (map_get sid (sessions st)) as [s|] eqn:Hs; simpl;
      [|intros Hget; exists s'; auto].
    destruct (find _ (s_branches s)) as [b|] eqn:Hb; simpl; intros Hget;
      [|exists s'; auto].
    destruct (String.eqb sid k) eqn:E.
    + apply String.eqb_eq in E. subst sid.
      rewrite map_get_set_same in Hget. injection Hget as <-. exists s. auto.
    + apply String.eqb_neq in E. rewrite map_get_set_other in Hget by exact E.
      exists s'. auto.
Qed.

Lemma reachable_rooted st :
  reachable st -> forall k s, map_get k (sessions st) = Some s -> rooted s.
Proof.
  induction 1 as [us up cs cp | st op Hr IH]; intros k s' Hget.
  - discriminate.
  - destruct (exec_branches_step op st k s' Hget) as (s & Hs & Hbrs).
    assert (Hroot : rooted s /\ activeBranchPresent s).
    { destruct Hs as [Hs | Hf].
      - split; [exact (IH k s Hs)|].
        exact (allSessions_get _ _ _ _ (reachable_activeBranchPresent st Hr) Hs).
      - split; [exact (rooted_fresh k s Hf) | exact (activeBranchPresent_fresh k s Hf)]. }
    destruct Hroot as [Hroot Hact].
    destruct Hbrs as [Hb | (name & from & st0 & Hb)].
    + destruct Hroot as [(m & rest & Hm & Hn) Hpf]. split.
      * exists m, rest. now rewrite Hb.
      * now rewrite Hb.
    + exact (rooted_createBranch s name from st0 s' Hroot Hact Hb).
Qed.

(** X21.  In every state the store reaches through the manager's
    operations the branches of a session form a tree: the first branch
    is [main], without parent, and is never removed; every later branch
    names as parent a branch that was created before it, so following
    parents from any branch ends at [main]. *)
Theorem branches_form_a_tree (st : State) (k : string) (s : ThinkingSession) :
  reachable st ->
  map_get k (sessions st) = Some s ->
  exists m rest,
    s_branches s = m :: rest /\
    b_name m = DEFAULT_BRANCH_NAME /\ b_parentBranchId m = None /\
    forall pre b post,
      rest = pre ++ b :: post ->
      exists p, In p (m :: pre) /\ b_parentBranchId b = Some (b_id p).
Proof.
  intros Hr Hs. destruct (reachable_rooted st Hr k s Hs) as [(m & rest & Hm & Hn & Hp) Hpf].
  exists m, rest. split; [exact Hm|]. split; [exact Hn|]. split; [exact Hp|].
  intros pre b post ->.
  apply (Hpf (m :: pre) b post); [exact Hm | discriminate].
Qed.

Lemma branches_form_a_tree_witness :
  exists m rest,
    option_map s_branches (map_get "s" (sessions st_forked)) = Some (m :: rest) /\
    b_name m = DEFAULT_BRANCH_NAME /\
    forall pre b post,
      rest = pre ++ b :: post ->
      exists p, In p (m :: pre) /\ b_parentBranchId b = Some (b_id p).
Proof.
  destruct (map_get "s" (sessions st_forked)) as [s|] eqn:Hs;
    [|vm_compute in Hs; discriminate].
  destruct (branches_form_a_tree st_forked "s" s reachable_st_forked Hs)
    as (m & rest & Hm & Hn & _ & Hrest).
  exists m, rest. split; [simpl; now rewrite Hm|]. split; [exact Hn | exact Hrest].
Defined.

(** ** Creation and update dates *)

Lemma dated_later st st' s :
  clock_src st' = clock_src st -> clock_pos st <= clock_pos st' ->
  dated st s -> dated st' s.
Proof.
  intros Hsrc Hpos (i & j & Hij & Hj & Hc & Hu & Hth).
  exists i, j. rewrite Hsrc. repeat split; auto. lia.
Qed.

(** An operation that refreshes [updatedAt] and keeps the thoughts, in
    some order. *)
Lemma dated_touch st st' s s' j' :
  clock_src st' = clock_src st ->
  clock_pos st <= j' < clock_pos st' ->
  s_updatedAt s' = clock_src st j' ->
  s_createdAt s' = s_createdAt s ->
  Permutation (s_thoughts s) (s_thoughts s') ->
  dated st s -> dated st' s'.
Proof.
  intros Hsrc Hj' Hu' Hc' Hperm (i & j & Hij & Hj & Hc & Hu & Hth).
  exists i, j'. rewrite Hsrc, Hu', Hc'.
  split; [lia|]. split; [lia|]. split; [exact Hc|]. split; [reflexivity|].
  eapply Permutation_Forall; [exact Hperm|].
  eapply Forall_impl; [|exact Hth]. intros t (n & Hn & Ht). exists n. split; [lia|exact Ht].
Qed.

(** An operation that keeps [updatedAt] and the thoughts, in some
    order. *)
Lemma dated_kept st st' s s' :
  clock_src st' = clock_src st ->
  clock_pos st <= clock_pos st' ->
  s_updatedAt s' = s_updatedAt s ->
  s_createdAt s' = s_createdAt s ->
  Permutation (s_thoughts s) (s_thoughts s') ->
  dated st s -> dated st' s'.
Proof.
  intros Hsrc Hpos Hu' Hc' Hperm (i & j & Hij & Hj & Hc & Hu & Hth).
  exists i, j. rewrite Hsrc, Hu', Hc'.
  split; [lia|]. split; [lia|]. split; [exact Hc|]. split; [exact Hu|].
  eapply Permutation_Forall; [exact Hperm | exact Hth].
Qed.

(** An operation that stamps a thought and then refreshes [updatedAt]. *)
Lemma dated_append st st' s s' t n :
  clock_src st' = clock_src st ->
  clock_pos st <= n -> S n < clock_pos st' ->
  s_thoughts s' = s_thoughts s ++ [t] ->
  t_timestamp t = clock_src st n ->
  s_updatedAt s' = clock_src st (S n) ->
  s_createdAt s' = s_createdAt s ->
  dated st s -> dated st' s'.
Proof.
  intros Hsrc Hn Hn' Hth' Ht Hu' Hc' (i & j & Hij & Hj & Hc & Hu & Hth).
  exists i, (S n). rewrite Hsrc, Hu', Hc', Hth'.
  split; [lia|]. split; [lia|]. split; [exact Hc|]. split; [reflexivity|].
  apply Forall_app. split.
  - eapply Forall_impl; [|exact Hth]. intros t0 (m & Hm & Ht0).
    exists m. split; [lia | exact Ht0].
  - constructor; [|constructor]. exists n. split; [lia | exact Ht].
Qed.

Lemma dated_stored st st' k s' :
  clock_src st' = clock_src st ->
  clock_pos st <= clock_pos st' ->
  sessions st' = map_set k s' (sessions st) ->
  allSessions (dated st) st ->
  dated st' s' ->
  allSessions (dated st') st'.
Proof.
  intros Hsrc Hpos Hss Hinv Hs'. unfold allSessions. rewrite Hss.
  apply Forall_map_set; [|exact Hs'].
  eapply Forall_impl; [|exact Hinv]. intros e He.
  now apply (dated_later st st').
Qed.

Lemma dated_new st us up k title prob bs a :
  allSessions (dated st) st ->
  let s := mkThinkingSession k title prob [] bs a
             (clock_src st (S (clock_pos st)))
             (clock_src st (S (S (clock_pos st)))) active in
  let st1 := mkState us up (clock_src st) (S (S (S (clock_pos st))))
               (map_set k s (sessions st)) in
  allSessions (dated st1) st1 /\ dated st1 s.
Proof.
  intros Hinv s st1.
  assert (Hs : dated st1 s).
  { exists (S (clock_pos st)), (S (S (clock_pos st))). simpl.
    repeat split; auto; lia. }
  split; [|exact Hs].
  apply (dated_stored st st1 k s); simpl; auto; lia.
Qed.

Lemma dated_getOrCreateSession sid problem st :
  allSessions (dated st) st ->
  allSessions (dated (snd (getOrCreateSession sid problem st)))
    (snd (getOrCreateSession sid problem st)) /\
  dated (snd (getOrCreateSession sid problem st))
    (snd (fst (getOrCreateSession sid problem st))).
Proof.
  intros Hinv.
  unfold getOrCreateSession. run.
  destruct (given sid) as [k|] eqn:Hk; simpl.
  - destruct (map_get k (sessions st)) as [s|] eqn:Hs; simpl.
    + split; [exact Hinv | exact (allSessions_get _ _ _ _ Hinv Hs)].
    + now apply dated_new.
  - now apply dated_new.
Qed.

Lemma addThoughtTo_dates input s st :
  let out := addThoughtTo input s st in
  let s' := snd (fst out) in
  let st' := snd out in
  exists t n,
    s_thoughts s' = s_thoughts s ++ [t] /\
    clock_pos st <= n /\ S n < clock_pos st' /\
    t_timestamp t = clock_src st n /\
    s_updatedAt s' = clock_src st (S n) /\
    s_createdAt s' = s_createdAt s.
Proof.
  unfold addThoughtTo.
  destruct (given (i_newBranchName input)) as [name|] eqn:Hn; run;
    match goal with
    | |- context [if ?c then _ else _] => destruct c
    end; simpl; eexists; eexists;
    (split; [reflexivity|]); simpl;
    (split; [|split; [|split; [reflexivity|split; reflexivity]]]); lia.
Qed.

Lemma exec_preserves_dated op st :
  allSessions (dated st) st -> allSessions (dated (exec op st)) (exec op st).
Proof.
  intros Hinv.
  destruct op as [sid p|input|sid name from|sid|sid x|sid| |sid name]; simpl.
  - now apply dated_getOrCreateSession.
  - rewrite addThought_unfold. cbv zeta. simpl.
    destruct (dated_getOrCreateSession (i_sessionId input)
                (Some (i_thought input)) st Hinv) as [H1 H2].
    destruct (getOrCreateSession (i_sessionId input) (Some (i_thought input)) st)
      as [[k s] st1]. simpl in *.
    pose proof (addThoughtTo_dates input s st1) as H3. cbv zeta in H3.
    pose proof (addThoughtTo_shape input s st1) as H4. cbv zeta in H4.
    destruct (addThoughtTo input s st1) as [[r s'] st2]. simpl in *.
    destruct H3 as (t & n & Hth & Hn & Hn' & Ht & Hu & Hc).
    destruct H4 as (_ & _ & _ & _ & _ & _ & _ & Hss & _ & Hsrc & _).
    eapply (dated_stored st1 _ k s'); simpl; eauto; try lia.
    + now rewrite Hss.
    + eapply (dated_append st1 _ s s' t n); simpl; eauto.
  - unfold createBranchIn. run.
    destruct (map_get sid (sessions st)) as [s|] eqn:Hs; simpl; [|exact Hinv].
    eapply (dated_stored st _ sid); simpl; eauto.
    eapply (dated_kept st _ s); simpl; eauto.
    exact (allSessions_get _ _ _ _ Hinv Hs).
  - unfold getSummary. run.
    destruct (map_get sid (sessions st)) as [s|] eqn:Hs; simpl; [|exact Hinv].
    eapply (dated_stored st _ sid); simpl; eauto.
    eapply (dated_kept st _ s); simpl; eauto.
    + symmetry. apply sortByTime_perm.
    + exact (allSessions_get _ _ _ _ Hinv Hs).
  - unfold updateSessionStatus. run.
    destruct (map_get sid (sessions st)) as [s|] eqn:Hs; simpl; [|exact Hinv].
    eapply (dated_stored st _ sid); simpl; eauto.
    eapply (dated_touch st _ s _ (clock_pos st)); simpl; eauto.
    exact (allSessions_get _ _ _ _ Hinv Hs).
  - exact Hinv.
  - exact Hinv.
  - unfold switchBranch. run.
    destruct (map_get sid (sessions st)) as [s|] eqn:Hs; simpl; [|exact Hinv].
    destruct (find _ (s_branches s)) as [b|] eqn:Hb; simpl; [|exact Hinv].
    eapply (dated_stored st _ sid); simpl; eauto.
    eapply (dated_touch st _ s _ (clock_pos st)); simpl; eauto.
    exact (allSessions_get _ _ _ _ Hinv Hs).
Qed.

Lemma reachable_dated st : reachable st -> allSessions (dated st) st.
Proof.
  apply (reachableBy_invariant exec (fun st => allSessions (dated st) st)).
  - intros. constructor.
  - intros op st' H. now apply exec_preserves_dated.
Qed.

(** X22.  While the clock does not go back, in every state the store
    reaches through the manager's operations a session was created no
    later than it was last updated, and each of its thoughts is stamped
    between the two: whatever operation appends a thought refreshes
    [updatedAt] after stamping it. *)
Theorem thoughts_dated_within_session (st : State) (k : string)
    (s : ThinkingSession) :
  reachable st -> clock_monotone st ->
  map_get k (sessions st) = Some s ->
  (s_createdAt s <= s_updatedAt s)%Z /\
  forall t, In t (s_thoughts s) ->
    (s_createdAt s <= t_timestamp t <= s_updatedAt s)%Z.
Proof.
  intros Hr Hmono Hs.
  destruct (allSessions_get _ _ _ _ (reachable_dated st Hr) Hs)
    as (i & j & Hij & _ & Hc & Hu & Hth).
  rewrite Hc, Hu. split; [now apply Hmono|].
  intros t Hin. rewrite Forall_forall in Hth.
  destruct (Hth t Hin) as (n & Hn & ->).
  split; apply Hmono; lia.
Qed.

Lemma thoughts_dated_within_session_witness :
  match map_get "s" (sessions st_forked) with
  | Some s =>
      (s_createdAt s <= s_updatedAt s)%Z /\
      Forall (fun t => (s_createdAt s <= t_timestamp t <= s_updatedAt s)%Z)
        (s_thoughts s)
  | None => False
  end.
Proof.
  destruct (map_get "s" (sessions st_forked)) as [s|] eqn:Hs;
    [|vm_compute in Hs; discriminate].
  destruct (thoughts_dated_within_session st_forked "s" s reachable_st_forked
              clock_monotone_st_forked Hs) as [H1 H2].
  split; [exact H1 | apply Forall_forall; exact H2].
Defined.

(** ** Dates in the route handlers *)

Lemma route_getOrCreateSession_dated sid problem st :
  allSessions (dated st) st ->
  allSessions (dated (snd (Route.getOrCreateSession sid problem st)))
    (snd (Route.getOrCreateSession sid problem st)) /\
  dated (snd (Route.getOrCreateSession sid problem st))
    (snd (fst (Route.getOrCreateSession sid problem st))).
Proof.
  intros Hinv. unfold Route.getOrCreateSession. run.
  destruct (given sid) as [k|] eqn:Hk; simpl.
  - destruct (map_get k (sessions st)) as [s|] eqn:Hs; simpl.
    + split; [exact Hinv | exact (allSessions_get _ _ _ _ Hinv Hs)].
    + now apply dated_new.
  - now apply dated_new.
Qed.

Lemma route_exec_dated c st :
  allSessions (dated st) st -> allSessions (dated (route_exec c st)) (route_exec c st).
Proof.
  intros Hinv. destruct c as [args|sid| |sid name|sid text]; simpl.
  - remember (snd (Route.sequential_thinking args st)) as st' eqn:Heq.
    unfold Route.sequential_thinking in Heq. unfold bind at 1 in Heq.
    destruct (route_getOrCreateSession_dated (a_sessionId args)
                (Some (a_thought args)) st Hinv) as [H1 H2].
    destruct (Route.getOrCreateSession (a_sessionId args) (Some (a_thought args)) st)
      as [[k s] st1].
    simpl in *. revert Heq. run. intros ->.
    eapply (dated_stored st1 _ k); simpl; eauto.
    eapply (dated_append st1 _ s _ _ (clock_pos st1)); simpl; eauto.
  - unfold Route.get_thinking_summary. run.
    now destruct (map_get sid (sessions st)).
  - exact Hinv.
  - unfold Route.switch_thinking_branch. run.
    destruct (map_get sid (sessions st)) as [s|] eqn:Hs; simpl; [|exact Hinv].
    destruct (find _ (s_branches s)) as [b|] eqn:Hb; simpl; [|exact Hinv].
    eapply (dated_stored st _ sid); simpl; eauto.
    eapply (dated_touch st _ s _ (clock_pos st)); simpl; eauto.
    exact (allSessions_get _ _ _ _ Hinv Hs).
  - unfold Route.complete_thinking_session. run.
    destruct (map_get sid (sessions st)) as [s|] eqn:Hs; simpl; [|exact Hinv].
    pose proof (allSessions_get _ _ _ _ Hinv Hs) as Hd.
    destruct (given text); simpl.
    + eapply (dated_stored st _ sid); simpl; eauto.
      eapply (dated_append st _ s _ _ (clock_pos st)); simpl; eauto.
    + eapply (dated_stored st _ sid); simpl; eauto.
      eapply (dated_touch st _ s _ (clock_pos st)); simpl; eauto.
Qed.

Lemma clock_monotone_st_route : clock_monotone st_route.
Proof.
  intros i j H.
  change (clock_src st_route) with (fun n => (1000 + Z.of_nat n)%Z).
  cbv beta. lia.
Qed.

Lemma clock_monotone_st_approute_done : clock_monotone st_approute_done.
Proof.
  intros i j H.
  change (clock_src st_approute_done) with (fun n => (1000 + Z.of_nat n)%Z).
  cbv beta. lia.
Qed.

(** X23.  The handler of [route.ts] keeps the dates of a session in
    step with its thoughts: while the clock does not go back, in every
    state its five tools reach each thought is stamped between
    [createdAt] and [updatedAt].  The Next.js handler does not:
    [complete_thinking_session] with a final conclusion pushes the
    conclusion and leaves [updatedAt] older than it. *)
Theorem route_thoughts_dated_within_session :
  (forall st k s,
     reachableBy route_exec st -> clock_monotone st ->
     map_get k (sessions st) = Some s ->
     (s_createdAt s <= s_updatedAt s)%Z /\
     forall t, In t (s_thoughts s) ->
       (s_createdAt s <= t_timestamp t <= s_updatedAt s)%Z) /\
  (exists st k s t,
     reachableBy approute_exec st /\ clock_monotone st /\
     map_get k (sessions st) = Some s /\ In t (s_thoughts s) /\
     (s_updatedAt s < t_timestamp t)%Z).
Proof.
  split.
  - intros st k s Hr Hmono Hs.
    assert (Hinv : allSessions (dated st) st).
    { revert Hr. apply (reachableBy_invariant route_exec
                          (fun st => allSessions (dated st) st)).
      - intros. constructor.
      - intros c st' H. now apply route_exec_dated. }
    destruct (allSessions_get _ _ _ _ Hinv Hs) as (i & j & Hij & _ & Hc & Hu & Hth).
    rewrite Hc, Hu. split; [now apply Hmono|].
    intros t Hin. rewrite Forall_forall in Hth.
    destruct (Hth t Hin) as (n & Hn & ->).
    split; apply Hmono; lia.
  - destruct (map_get "s" (sessions st_approute_done)) as [s|] eqn:Hs;
      [|vm_compute in Hs; discriminate].
    destruct (rev (s_thoughts s)) as [|t l] eqn:Hl;
      [vm_compute in Hs; injection Hs as <-; vm_compute in Hl; discriminate|].
    exists st_approute_done, "s", s, t.
    split; [unfold st_approute_done; apply reachable_step; apply reachable_st_approute|].
    split; [exact clock_monotone_st_approute_done|].
    split; [exact Hs|]. split.
    + apply in_rev. rewrite Hl. now left.
    + vm_compute in Hs. injection Hs as <-. vm_compute in Hl.
      injection Hl as <- _. vm_compute. reflexivity.
Qed.

Lemma route_thoughts_dated_within_session_witness :
  match map_get "s" (sessions st_route) with
  | Some s =>
      Forall (fun t => (s_createdAt s <= t_timestamp t <= s_updatedAt s)%Z)
        (s_thoughts s)
  | None => False
  end.
Proof.
  destruct (map_get "s" (sessions st_route)) as [s|] eqn:Hs;
    [|vm_compute in Hs; discriminate].
  destruct (proj1 route_thoughts_dated_within_session st_route "s" s
              reachable_st_route clock_monotone_st_route Hs) as [_ H].
  apply Forall_forall. exact H.
Defined.

(** ** Titles in the route handlers *)

Lemma route_title_cases (p : string) :
  let words := split_space p in
  let title := (join " " (firstn 6 words) ++ "...")%string in
  (length words <= 6 -> title = (p ++ "...")%string) /\
  (title = generateTitle p <-> 6 < length words).
Proof.
  cbv zeta. split.
  - intros Hle. now rewrite firstn_all2, join_split_space by exact Hle.
  - unfold generateTitle, slice0.
    destruct (6 <? length (split_space p)) eqn:E.
    + apply Nat.ltb_lt in E. tauto.
    + apply Nat.ltb_ge in E. split; [|lia].
      intros H. apply (f_equal String.length) in H.
      rewrite !string_length_app in H. simpl in H. lia.
Qed.

(** X24.  Both route handlers title a session they create with the
    first six words of the problem followed by [...], whatever its
    length: a problem of at most six words is titled by itself followed
    by [...], and the title is the one the manager would give exactly
    when the problem has more than six words. *)
Theorem route_title_always_elided (sid problem : option string) (p : string)
    (st : State) :
  given problem = Some p ->
  (forall k, given sid = Some k -> map_get k (sessions st) = None) ->
  let words := split_space p in
  let s := snd (fst (Route.getOrCreateSession sid problem st)) in
  let s' := snd (fst (AppRoute.getOrCreateSession sid problem st)) in
  s_title s = (join " " (firstn 6 words) ++ "...")%string /\
  s_title s' = s_title s /\
  s_problem s = p /\
  (length words <= 6 -> s_title s = (p ++ "...")%string) /\
  (s_title s = generateTitle p <-> 6 < length words).
Proof.
  intros Hp Hnew. cbv zeta.
  destruct (route_title_cases p) as [Hshort Hlong]. cbv zeta in Hshort, Hlong.
  unfold Route.getOrCreateSession, AppRoute.getOrCreateSession. run.
  destruct (given sid) as [k|] eqn:Hk; simpl.
  - rewrite (Hnew k eq_refl). simpl. rewrite Hp. unfold slice0. auto.
  - rewrite Hp. unfold slice0. auto.
Qed.

Lemma route_title_always_elided_witness :
  s_title (snd (fst (Route.getOrCreateSession (Some "t") (Some "Fix the cache")
                       st_route)))
    = "Fix the cache..." /\
  generateTitle "Fix the cache" = "Fix the cache".
Proof.
  assert (Hnew : forall k, given (Some "t") = Some k ->
                   map_get k (sessions st_route) = None).
  { intros k [= <-]. vm_compute. reflexivity. }
  destruct (route_title_always_elided (Some "t") (Some "Fix the cache")
              "Fix the cache" st_route eq_refl Hnew) as (_ & _ & _ & H & _).
  split; [apply H; vm_compute; lia | reflexivity].
Defined.
